(** * Recruitment analytics: the ETL pipeline and its metrics processor

    A shallow embedding of
      - [utils/data_processing.py]   (class [MetricsProcessor]),
      - [services/etl_service.py]    (class [ETLService]),
      - [services/analytics_service.py] (the retry helper of [AnalyticsService],
        its cached retrieval and its trend statistics),
      - [interfaces/analytics_types.py] (the data classes),
    followed by the properties of the specification that concern them and
    by further properties of the code (cache behaviour, counters, the
    stages one by one, runs of the pipeline, retries).

    Conventions.
      - A pandas [DataFrame] is the list of its rows; a typed row is a record.
      - A Python [dict] is an association list in insertion order, with at
        most one entry per key.
      - Python [float] / numpy [float64] values are Rocq's primitive binary64
        floats, so NaN and the infinities are the real ones.  The source
        stores [time_to_hire] and [satisfaction_score] as [float32]; the
        embedding keeps binary64 throughout and sums in row order.  Nothing
        proved below depends on the rounding of a finite result.
      - The quotient of two Python [int]s times 100 (fill rate, skill
        percentages) is an exact rational.
      - A raised exception is a value [Raise e]; state changes made before
        the exception are kept, as in Python.
      - [datetime.now()] is an argument [now] (seconds), read once per call. *)

From Stdlib Require Import ZArith QArith String Ascii List Bool Lia Floats Arith.
From Stdlib Require Import Sorted.
From Stdlib Require Uint63.
From Stdlib Require DecimalString.
Import ListNotations.

Set Implicit Arguments.

(* ================================================================== *)
(** * Exceptions and results *)
(* ================================================================== *)

Inductive exn_class : Type :=
| Exception_
| ValueError
| KeyError
| ZeroDivisionError
| AttributeError
| ConnectionError_.

(** [exn_msg] is what [str(e)] returns. *)
Record exn : Type := mkExn { exn_cls : exn_class; exn_msg : string }.

Definition str (e : exn) : string := exn_msg e.

Inductive result (A : Type) : Type :=
| Ok (a : A)
| Raise (e : exn).
Arguments Ok {A} a.
Arguments Raise {A} e.

Definition is_ok {A} (r : result A) : bool :=
  match r with Ok _ => true | Raise _ => false end.

Definition rbind {A B} (r : result A) (k : A -> result B) : result B :=
  match r with Ok a => k a | Raise e => Raise e end.

(** A list comprehension whose body may raise. *)
Fixpoint mapM {A B} (f : A -> result B) (l : list A) : result (list B) :=
  match l with
  | [] => Ok []
  | a :: l' =>
      rbind (f a) (fun b => rbind (mapM f l') (fun bs => Ok (b :: bs)))
  end.

(* ================================================================== *)
(** * Binary64 statistics (pandas [Series.mean], [.std], [.median]) *)
(* ================================================================== *)

Module Float64.
Local Open Scope float_scope.

(** Conversion of a Python [int] that is a length (below 2^63). *)
Definition of_nat (n : nat) : float :=
  PrimFloat.of_uint63 (Uint63.of_Z (Z.of_nat n)).

Definition fsum (l : list float) : float := fold_left PrimFloat.add l 0.

(** pandas reductions skip missing values ([skipna=True]). *)
Definition dropna (l : list float) : list float :=
  filter (fun x => negb (is_nan x)) l.

(** [Series.mean()]: NaN when no value is left. *)
Definition mean (l : list float) : float :=
  match dropna l with
  | [] => nan
  | v => fsum v / of_nat (length v)
  end.

(** [Series.std()] ([ddof = 1]): the two-pass sample deviation; NaN when
    at most one value is left, because the divisor [count - ddof] is
    not positive. *)
Definition std (l : list float) : float :=
  let v := dropna l in
  let count := length v in
  if (count <=? 1)%nat then nan
  else
    let avg := fsum v / of_nat count in
    let sqr := map (fun x => (avg - x) * (avg - x)) v in
    PrimFloat.sqrt (fsum sqr / of_nat (count - 1)).

Fixpoint insert_sorted (x : float) (l : list float) : list float :=
  match l with
  | [] => [x]
  | y :: l' => if x <=? y then x :: l else y :: insert_sorted x l'
  end.

Definition sort (l : list float) : list float :=
  fold_right insert_sorted [] l.

(** [Series.median()]. *)
Definition median (l : list float) : float :=
  let v := sort (dropna l) in
  let n := length v in
  match n with
  | O => nan
  | _ =>
      if Nat.even n
      then (nth (n / 2 - 1) v nan + nth (n / 2) v nan) / 2
      else nth (n / 2) v nan
  end.

(** The constant 1.96 of the source, as the binary64 value Python reads. *)
Definition z95 : float := 0x1.f5c28f5c28f5cp+0.

(** ** Signs of IEEE results, through the specification of the
       primitive operations *)

(** The sign bit of [r] is [s], or [r] is NaN. *)
Definition sign_in (s : bool) (r : spec_float) : Prop :=
  match r with
  | S754_nan => True
  | S754_zero b | S754_infinity b | S754_finite b _ _ => b = s
  end.

(** [r] is NaN, a zero of either sign, or positive. *)
Definition nonneg (r : spec_float) : Prop :=
  match r with
  | S754_zero _ => True
  | _ => sign_in false r
  end.

End Float64.

(* ================================================================== *)
(** * Timestamps and the calendar (pandas [.dt.month], [freq='W']) *)
(* ================================================================== *)

(** A [datetime] is a count of seconds since 1970-01-01T00:00:00. *)
Module Calendar.
Local Open Scope Z_scope.

Definition seconds_per_day : Z := 86400.

Definition day_of (t : Z) : Z := t / seconds_per_day.

(** Month number (1..12) of a day number in the proleptic Gregorian
    calendar. *)
Definition month_of_day (d : Z) : Z :=
  let z := d + 719468 in
  let era := z / 146097 in
  let doe := z - era * 146097 in
  let yoe := (doe - doe / 1460 + doe / 36524 - doe / 146096) / 365 in
  let doy := doe - (365 * yoe + yoe / 4 - yoe / 100) in
  let mp := (5 * doy + 2) / 153 in
  if mp <? 10 then mp + 3 else mp - 9.

Definition month (t : Z) : Z := month_of_day (day_of t).

(** Monday is 0; day 0 was a Thursday. *)
Definition weekday (d : Z) : Z := (d + 3) mod 7.

(** [pd.Grouper(freq='W')] is anchored on Sundays, closed and labelled on
    the right: a row belongs to the bin labelled by the midnight of the
    Sunday that ends its week. *)
Definition week_label (t : Z) : Z :=
  let d := day_of t in (d + (6 - weekday d)) * seconds_per_day.

Definition week_seconds : Z := 7 * seconds_per_day.

End Calendar.

(* ================================================================== *)
(** * Data classes ([interfaces/analytics_types.py]) *)
(* ================================================================== *)

Inductive AggregationLevel : Type :=
| daily | weekly | monthly | quarterly | yearly.

Definition AggregationLevel_eqb (a b : AggregationLevel) : bool :=
  match a, b with
  | daily, daily | weekly, weekly | monthly, monthly
  | quarterly, quarterly | yearly, yearly => true
  | _, _ => false
  end.

Record TrendPoint : Type := mkTrendPoint {
  date : Z;
  value : float;
  confidence : float
}.

Record DateRange : Type := mkDateRange {
  start_date : Z;
  end_date : Z
}.

(** [DateRange(start_date=..., end_date=...)] with its validator. *)
Definition DateRange_new (s e : Z) : result DateRange :=
  if (e <? s)%Z
  then Raise (mkExn ValueError "end_date must be after start_date")
  else Ok (mkDateRange s e).

(** A key of [skill_based_metrics]: a skill name, or the NaN that
    [Series.explode] puts in place of an empty list. *)
Definition skill_key : Type := option string.

Definition skill_key_eqb (a b : skill_key) : bool :=
  match a, b with
  | Some x, Some y => String.eqb x y
  | None, None => true
  | _, _ => false
  end.

Record RecruitmentMetrics : Type := mkRecruitmentMetrics {
  id : nat;
  rm_created_at : Z;
  total_requisitions : nat;
  filled_requisitions : nat;
  average_time_to_hire : float;
  client_satisfaction_rate : float;
  requisition_fill_rate : Q;
  rm_period_start : option Z;
  rm_period_end : option Z;
  skill_based_metrics : list (skill_key * Q)
}.

(** [TimeToHireAnalytics] is imported by [data_processing.py] but not
    declared in [analytics_types.py]; its four fields are those the
    constructor call names. *)
Record TimeToHireAnalytics : Type := mkTimeToHireAnalytics {
  average_days : float;
  median_days : float;
  trend_data : list TrendPoint;
  seasonal_patterns : list (string * float)
}.

(** One requisition row, with the columns the processor reads. *)
Record Requisition : Type := mkRequisition {
  requisition_id : string;
  status : string;
  time_to_hire : float;
  satisfaction_score : float;
  created_at : Z;
  filled_at : option Z;
  required_skills : list string
}.

Record Candidate : Type := mkCandidate {
  candidate_id : string;
  skills : list string;
  experience_years : Z;
  cand_created_at : Z
}.

Record Communication : Type := mkCommunication {
  communication_id : string;
  timestamp : Z;
  participants : list string
}.

(** Lookup in a [dict] kept as an association list. *)
Fixpoint assoc {K V} (eqb : K -> K -> bool) (k : K) (d : list (K * V))
  : option V :=
  match d with
  | [] => None
  | (k', v) :: d' => if eqb k k' then Some v else assoc eqb k d'
  end.

(* ================================================================== *)
(** * [utils/data_processing.py]: class [MetricsProcessor] *)
(* ================================================================== *)

Module MetricsProcessor.

(** [a / b * 100] on two Python [int]s. *)
Definition percent (a b : nat) : Q :=
  inject_Z (Z.of_nat a) / inject_Z (Z.of_nat b) * 100.

Definition is_filled (r : Requisition) : bool :=
  String.eqb (status r) "filled".

(** [Series.min()] / [Series.max()] of a datetime column; [None] is NaT. *)
Definition ts_min (l : list Z) : option Z :=
  match l with
  | [] => None
  | x :: l' => Some (fold_left Z.min l' x)
  end.

Definition ts_max (l : list Z) : option Z :=
  match l with
  | [] => None
  | x :: l' => Some (fold_left Z.max l' x)
  end.

(** ** [_calculate_skill_metrics] *)

(** [Series.explode]: one entry per list element, NaN for an empty list. *)
Definition explode (col : list (list string)) : list skill_key :=
  flat_map (fun x => match x with
                     | [] => [None]
                     | _ => map Some x
                     end) col.

(** [Series.unique]: first occurrences, in order of appearance. *)
Fixpoint unique (l : list skill_key) : list skill_key :=
  match l with
  | [] => []
  | x :: l' => x :: filter (fun y => negb (skill_key_eqb x y)) (unique l')
  end.

(** [skill in x]; NaN is in no list of strings. *)
Definition skill_in (skill : skill_key) (x : list string) : bool :=
  match skill with
  | Some s => existsb (String.eqb s) x
  | None => false
  end.

Definition skill_reqs (skill : skill_key) (df : list Requisition)
  : list Requisition :=
  filter (fun r => skill_in skill (required_skills r)) df.

(** The typed rows always carry the [required_skills] column; on a frame
    without rows the loop body never runs, so the early [return {}] and
    the loop agree there. *)
Definition _calculate_skill_metrics (df : list Requisition)
  : list (skill_key * Q) :=
  map (fun skill =>
         (skill, percent (length (skill_reqs skill df)) (length df)))
      (unique (explode (map required_skills df))).

(** ** [_process_metrics_chunk] *)

Record ChunkMetrics : Type := mkChunkMetrics {
  total_reqs : nat;
  filled_reqs : nat;
  avg_time_to_hire : float;
  satisfaction_rate : float;
  fill_rate : Q;
  period_start : option Z;
  period_end : option Z;
  skill_metrics : list (skill_key * Q)
}.

(** The [grouped] value of the source is built and never read; each of
    the five aggregation levels starts with a letter pandas accepts as a
    frequency.  The entries of the returned dict are evaluated in order:
    the only one that can raise is ['fill_rate'], whose [int / int]
    division raises on an empty chunk. *)
Definition _process_metrics_chunk
    (chunk : list Requisition) (aggregation_level : AggregationLevel)
  : result ChunkMetrics :=
  let total := length chunk in
  let filled := length (filter is_filled chunk) in
  match total with
  | O => Raise (mkExn ZeroDivisionError "division by zero")
  | S _ =>
      Ok {| total_reqs := total;
            filled_reqs := filled;
            avg_time_to_hire := Float64.mean (map time_to_hire chunk);
            satisfaction_rate := Float64.mean (map satisfaction_score chunk);
            fill_rate := percent filled total;
            period_start := ts_min (map created_at chunk);
            period_end := ts_max (map created_at chunk);
            skill_metrics := _calculate_skill_metrics chunk |}
  end.

(** ** [_calculate_trends] *)

Definition in_week (label : Z) (r : Requisition) : bool :=
  (Calendar.week_label (created_at r) =? label)%Z.

(** The bins of [groupby(pd.Grouper(key='created_at', freq='W'))]: every
    week from that of the earliest row to that of the latest one, with or
    without rows. *)
Definition week_bins (df : list Requisition) : list Z :=
  match ts_min (map created_at df), ts_max (map created_at df) with
  | Some lo, Some hi =>
      let first := Calendar.week_label lo in
      let last := Calendar.week_label hi in
      map (fun i => (first + Calendar.week_seconds * Z.of_nat i)%Z)
          (seq 0 (S (Z.to_nat ((last - first) / Calendar.week_seconds))))
  | _, _ => []
  end.

Definition trend_point (label : Z) (group : list Requisition) : TrendPoint :=
  let mean_value := Float64.mean (map time_to_hire group) in
  let std_dev := Float64.std (map time_to_hire group) in
  let confidence :=
    (Float64.z95 * std_dev / PrimFloat.sqrt (Float64.of_nat (length group)))%float in
  {| date := label; value := mean_value; confidence := confidence |}.

Definition _calculate_trends (df : list Requisition) : list TrendPoint :=
  flat_map (fun label =>
              let group := filter (in_week label) df in
              match group with
              | [] => []                       (* [if not group.empty] *)
              | _ => [trend_point label group]
              end)
           (week_bins df).

(** ** [_analyze_seasonality] *)

Definition in_month (m : Z) (r : Requisition) : bool :=
  (Calendar.month (created_at r) =? m)%Z.

Definition months : list Z := [1; 2; 3; 4; 5; 6; 7; 8; 9; 10; 11; 12]%Z.

(** [df.groupby(df['created_at'].dt.month)['time_to_hire'].mean()]: one
    entry per month that has a row, in increasing order. *)
Definition monthly_avg (df : list Requisition) : list (Z * float) :=
  flat_map (fun m =>
              match filter (in_month m) df with
              | [] => []
              | g => [(m, Float64.mean (map time_to_hire g))]
              end)
           months.

(** [f"month_{month}"] *)
Definition month_key (m : Z) : string :=
  "month_" ++ DecimalString.NilZero.string_of_int (Z.to_int m).

(** [avg / global_mean] divides two numpy floats: a zero divisor gives an
    infinity or NaN, not an exception. *)
Definition _analyze_seasonality (df : list Requisition)
  : list (string * float) :=
  let global_mean := Float64.mean (map time_to_hire df) in
  map (fun '(month, avg) => (month_key month, (avg / global_mean)%float))
      (monthly_avg df).

(** ** [analyze_time_to_hire] *)

Definition in_range (dr : DateRange) (r : Requisition) : bool :=
  ((start_date dr <=? created_at r) && (created_at r <=? end_date dr))%Z.

(** [pd.DataFrame([]).astype({...})] has no column to cast and raises
    [KeyError] (its message is abridged here); the typed rows of a
    non-empty list have all the columns. *)
Definition astype_error (column : string) : exn :=
  mkExn KeyError ("'" ++ column ++ "' not found in columns").

Definition analyze_time_to_hire
    (requisition_data : list Requisition) (date_range : DateRange)
    (include_seasonality : bool)
  : result TimeToHireAnalytics :=
  match requisition_data with
  | [] =>
      Raise (mkExn ValueError
               ("Error analyzing time to hire: "
                  ++ str (astype_error "created_at")))
  | _ =>
      let df := filter (in_range date_range) requisition_data in
      Ok {| average_days := Float64.mean (map time_to_hire df);
            median_days := Float64.median (map time_to_hire df);
            trend_data := _calculate_trends df;
            seasonal_patterns :=
              if include_seasonality then _analyze_seasonality df else [] |}
  end.

(** ** The processor's state: result cache and counters *)

Fixpoint list_eqb {A} (eqb : A -> A -> bool) (l1 l2 : list A) : bool :=
  match l1, l2 with
  | [], [] => true
  | a :: l1', b :: l2' => eqb a b && list_eqb eqb l1' l2'
  | _, _ => false
  end.

Definition option_eqb {A} (eqb : A -> A -> bool) (a b : option A) : bool :=
  match a, b with
  | Some x, Some y => eqb x y
  | None, None => true
  | _, _ => false
  end.

Definition Requisition_eqb (a b : Requisition) : bool :=
  String.eqb (requisition_id a) (requisition_id b)
  && String.eqb (status a) (status b)
  && PrimFloat.Leibniz.eqb (time_to_hire a) (time_to_hire b)
  && PrimFloat.Leibniz.eqb (satisfaction_score a) (satisfaction_score b)
  && Z.eqb (created_at a) (created_at b)
  && option_eqb Z.eqb (filled_at a) (filled_at b)
  && list_eqb String.eqb (required_skills a) (required_skills b).

(** The cache key [f"metrics_{aggregation_level}_{hash(str(raw_metrics))}"]
    identifies the level and the printed rows; the embedding compares the
    level and the rows themselves (no hash collision). *)
Definition cache_key : Type := (AggregationLevel * list Requisition)%type.

Definition cache_key_eqb (a b : cache_key) : bool :=
  AggregationLevel_eqb (fst a) (fst b)
  && list_eqb Requisition_eqb (snd a) (snd b).

(** [d[k] = v] *)
Fixpoint dict_set {K V} (eqb : K -> K -> bool) (k : K) (v : V)
    (d : list (K * V)) : list (K * V) :=
  match d with
  | [] => [(k, v)]
  | (k', v') :: d' =>
      if eqb k k' then (k', v) :: d' else (k', v') :: dict_set eqb k v d'
  end.

Record State : Type := mkState {
  _cache : list (cache_key * RecruitmentMetrics);
  _cache_timestamps : list (cache_key * Z);
  _cache_ttl : Z;
  cache_hits : nat;
  cache_misses : nat;
  total_processed : nat;
  (** the supply [generate_id()] draws from *)
  uuid_counter : nat
}.

(** [MetricsProcessor(cache_ttl_seconds=...)] *)
Definition init (cache_ttl_seconds : Z) : State :=
  {| _cache := []; _cache_timestamps := []; _cache_ttl := cache_ttl_seconds;
     cache_hits := 0; cache_misses := 0; total_processed := 0;
     uuid_counter := 0 |}.

Definition _is_cache_valid (key : cache_key) (now : Z) (st : State) : bool :=
  match assoc cache_key_eqb key (_cache_timestamps st) with
  | None => false
  | Some t => (now - t <? _cache_ttl st)%Z
  end.

Definition _update_cache (key : cache_key) (v : RecruitmentMetrics)
    (now : Z) (st : State) : State :=
  {| _cache := dict_set cache_key_eqb key v (_cache st);
     _cache_timestamps := dict_set cache_key_eqb key now (_cache_timestamps st);
     _cache_ttl := _cache_ttl st;
     cache_hits := cache_hits st;
     cache_misses := cache_misses st;
     total_processed := total_processed st;
     uuid_counter := uuid_counter st |}.

Definition count_hit (st : State) : State :=
  {| _cache := _cache st; _cache_timestamps := _cache_timestamps st;
     _cache_ttl := _cache_ttl st;
     cache_hits := S (cache_hits st);
     cache_misses := cache_misses st;
     total_processed := total_processed st;
     uuid_counter := uuid_counter st |}.

Definition count_miss (st : State) : State :=
  {| _cache := _cache st; _cache_timestamps := _cache_timestamps st;
     _cache_ttl := _cache_ttl st;
     cache_hits := cache_hits st;
     cache_misses := S (cache_misses st);
     total_processed := total_processed st;
     uuid_counter := uuid_counter st |}.

Definition count_processed (n : nat) (st : State) : State :=
  {| _cache := _cache st; _cache_timestamps := _cache_timestamps st;
     _cache_ttl := _cache_ttl st;
     cache_hits := cache_hits st;
     cache_misses := cache_misses st;
     total_processed := total_processed st + n;
     uuid_counter := uuid_counter st |}.

Definition next_uuid (st : State) : State :=
  {| _cache := _cache st; _cache_timestamps := _cache_timestamps st;
     _cache_ttl := _cache_ttl st;
     cache_hits := cache_hits st;
     cache_misses := cache_misses st;
     total_processed := total_processed st;
     uuid_counter := S (uuid_counter st) |}.

(** [get_processing_stats]: hits, misses, rows processed. *)
Definition get_processing_stats (st : State) : nat * nat * nat :=
  (cache_hits st, cache_misses st, total_processed st).

(** ** [process_recruitment_metrics] *)

Definition chunk_size : nat := Z.to_nat 10000.

(** [for chunk_start in range(0, len(df), size): df.iloc[chunk_start:chunk_start + size]] *)
Definition iloc_chunks (size : nat) (df : list Requisition)
  : list (list Requisition) :=
  map (fun i => firstn size (skipn (i * size) df))
      (seq 0 ((length df + size - 1) / size)).

Definition wrap_processing_error (e : exn) : exn :=
  mkExn ValueError ("Error processing recruitment metrics: " ++ str e).

(** The exception of [self.name] when the processor has no attribute
    [name]. *)
Definition missing_attribute (name : string) : exn :=
  mkExn AttributeError
    ("'MetricsProcessor' object has no attribute '" ++ name ++ "'").

(** [self._combine_processed_chunks(processed_chunks)]: the class defines
    no method of that name, [__init__] sets no such attribute and the
    class has no base class, so the attribute lookup raises. *)
Definition _combine_processed_chunks (processed_chunks : list ChunkMetrics)
  : result ChunkMetrics :=
  Raise (missing_attribute "_combine_processed_chunks").

Definition process_recruitment_metrics
    (raw_metrics : list Requisition) (aggregation_level : AggregationLevel)
    (use_cache : bool) (now : Z) (st : State)
  : result RecruitmentMetrics * State :=
  let key : cache_key := (aggregation_level, raw_metrics) in
  if use_cache && _is_cache_valid key now st then
    let st := count_hit st in
    match assoc cache_key_eqb key (_cache st) with
    | Some cached => (Ok cached, st)
    | None => (Raise (mkExn KeyError "cache_key"), st)
    end
  else
    let st := count_miss st in
    match raw_metrics with
    | [] => (Raise (wrap_processing_error (astype_error "requisition_id")), st)
    | _ =>
        match mapM (fun chunk => _process_metrics_chunk chunk aggregation_level)
                   (iloc_chunks chunk_size raw_metrics) with
        | Raise e => (Raise (wrap_processing_error e), st)
        | Ok processed_chunks =>
            match _combine_processed_chunks processed_chunks with
            | Raise e => (Raise (wrap_processing_error e), st)
            | Ok combined_metrics =>
                let result :=
                  {| id := uuid_counter st;
                     rm_created_at := now;
                     total_requisitions := total_reqs combined_metrics;
                     filled_requisitions := filled_reqs combined_metrics;
                     average_time_to_hire := avg_time_to_hire combined_metrics;
                     client_satisfaction_rate := satisfaction_rate combined_metrics;
                     requisition_fill_rate := fill_rate combined_metrics;
                     rm_period_start := period_start combined_metrics;
                     rm_period_end := period_end combined_metrics;
                     skill_based_metrics := skill_metrics combined_metrics |} in
                let st := next_uuid st in
                let st :=
                  if use_cache then _update_cache key result now st else st in
                (Ok result, count_processed (length raw_metrics) st)
            end
        end
    end.

End MetricsProcessor.

(* ================================================================== *)
(** * [cachetools.TTLCache], as [ETLService] uses it *)
(* ================================================================== *)

Module TTLCache.

Section Cache.
Variables K V : Type.
Variable eqb : K -> K -> bool.

(** The links are kept in order of use, least recently used first, each
    with the instant at which it expires.  Every value has size 1 and
    [maxsize] is at least 1, as in both services. *)
Record t : Type := mk {
  maxsize : nat;
  ttl : Z;
  links : list (K * (V * Z))
}.

Definition empty (maxsize : nat) (ttl : Z) : t :=
  {| maxsize := maxsize; ttl := ttl; links := [] |}.

Definition live (now : Z) (l : K * (V * Z)) : bool :=
  (now <? snd (snd l))%Z.

(** [key in cache] *)
Definition contains (key : K) (now : Z) (c : t) : bool :=
  match assoc eqb key (links c) with
  | Some (_, expires) => (now <? expires)%Z
  | None => false
  end.

(** [OrderedDict.move_to_end(key)] on the links. *)
Definition move_to_end (key : K) (l : list (K * (V * Z)))
  : list (K * (V * Z)) :=
  match assoc eqb key l with
  | Some x => filter (fun e => negb (eqb key (fst e))) l ++ [(key, x)]
  | None => l
  end.

(** [cache[key]]: the value read ([None] stands for the [KeyError] of a
    missing or expired key) and the cache the read leaves, in which the
    link of the key, if there is one, is the most recently used. *)
Definition getitem (key : K) (now : Z) (c : t) : option V * t :=
  match assoc eqb key (links c) with
  | Some (v, expires) =>
      (if (now <? expires)%Z then Some v else None,
       {| maxsize := maxsize c; ttl := ttl c;
          links := move_to_end key (links c) |})
  | None => (None, c)
  end.

Definition has_key (key : K) (l : list (K * (V * Z))) : bool :=
  existsb (fun e => eqb key (fst e)) l.

(** [cache[key] = value]: expired links are dropped; if the key is new and
    the cache is full the least recently used links are popped; the link
    of the key becomes the most recently used, with a fresh expiry. *)
Definition setitem (key : K) (v : V) (now : Z) (c : t) : t :=
  let l := filter (live now) (links c) in
  let l := if has_key key l then l
           else skipn (length l + 1 - maxsize c) l in
  let l := filter (fun e => negb (eqb key (fst e))) l in
  {| maxsize := maxsize c; ttl := ttl c;
     links := l ++ [(key, (v, (now + ttl c)%Z))] |}.

End Cache.

End TTLCache.

(* ================================================================== *)
(** * [services/etl_service.py]: class [ETLService] *)
(* ================================================================== *)

Module ETLService.

(** ** Frames whose columns are looked up by name *)

Inductive cell : Type :=
| CNull
| CInt (z : Z)
| CFloat (f : float)
| CRatio (q : Q)
| CStr (s : string)
| CTime (t : option Z)
| CSkillMap (d : list (skill_key * Q))
| CTrends (l : list TrendPoint)
| CSeasonal (d : list (string * float)).

Definition row : Type := list (string * cell).
Definition DataFrame : Type := list row.

(** [pd.DataFrame([metrics])]: one row, one column per field. *)
Definition row_of_metrics (m : RecruitmentMetrics) : row :=
  [ ("id", CInt (Z.of_nat (id m)));
    ("created_at", CTime (Some (rm_created_at m)));
    ("updated_at", CNull);
    ("total_requisitions", CInt (Z.of_nat (total_requisitions m)));
    ("filled_requisitions", CInt (Z.of_nat (filled_requisitions m)));
    ("average_time_to_hire", CFloat (average_time_to_hire m));
    ("client_satisfaction_rate", CFloat (client_satisfaction_rate m));
    ("requisition_fill_rate", CRatio (requisition_fill_rate m));
    ("period_start", CTime (rm_period_start m));
    ("period_end", CTime (rm_period_end m));
    ("skill_based_metrics", CSkillMap (skill_based_metrics m)) ]%string.

Definition row_of_time_to_hire (a : TimeToHireAnalytics) : row :=
  [ ("average_days", CFloat (average_days a));
    ("median_days", CFloat (median_days a));
    ("trend_data", CTrends (trend_data a));
    ("seasonal_patterns", CSeasonal (seasonal_patterns a)) ]%string.

(** [r[column]] on a row dict. *)
Definition row_get (r : row) (column : string) : result cell :=
  match assoc String.eqb column r with
  | Some c => Ok c
  | None => Raise (mkExn KeyError ("'" ++ column ++ "'"))
  end.

Record RawData : Type := mkRawData {
  requisitions : list Requisition;
  candidates : list Candidate;
  communications : list Communication
}.

Record ProcessedData : Type := mkProcessedData {
  recruitment_metrics : DataFrame;
  skill_analytics : DataFrame;
  time_to_hire_analytics : DataFrame
}.

(** [config.get('chunk_size', ...)], [config.get('parallel_workers', ...)] *)
Record Config : Type := mkConfig {
  cfg_chunk_size : option Z;
  cfg_parallel_workers : option Z
}.

(** ** The collaborators of the service *)

(** The upstream stores.  Every access is numbered by the count of the
    accesses made before it, so that a store may fail now and answer
    later. *)
Record Upstream : Type := mkUpstream {
  get_pg_pool : nat -> result unit;
  get_mongo_db : nat -> result unit;
  pg_acquire : nat -> result unit;
  pg_cursor : nat -> Z -> Z -> result (list (list Requisition));
  find_candidates : nat -> Z -> Z -> result (list Candidate);
  find_communications : nat -> Z -> Z -> result (list Communication)
}.

Inductive SinkOp : Type :=
| OpGetPgPool | OpGetClient | OpAcquire | OpBegin
| OpInsertMetrics | OpInsertSkills | OpCommit | OpRollback | OpBulk.

Definition SinkOp_eqb (a b : SinkOp) : bool :=
  match a, b with
  | OpGetPgPool, OpGetPgPool | OpGetClient, OpGetClient
  | OpAcquire, OpAcquire | OpBegin, OpBegin
  | OpInsertMetrics, OpInsertMetrics | OpInsertSkills, OpInsertSkills
  | OpCommit, OpCommit | OpRollback, OpRollback | OpBulk, OpBulk => true
  | _, _ => false
  end.

(** The relational sink (two tables and the rows of the open transaction)
    and the search sink, with the log of the operations attempted on them
    and whether each succeeded. *)
Record Sinks : Type := mkSinks {
  pg_recruitment_metrics : list (list cell);
  pg_skill_metrics : list (list cell);
  pending : option (list (list cell) * list (list cell));
  es_recruitment_analytics : list row;
  sink_log : list (SinkOp * bool)
}.

Inductive LogLine : Type :=
| LogCompleted (seconds : Z)
| LogProcessed (requisitions : nat)
| LogGenerated (records : nat)
| LogFailed (message : string).

Record Env : Type := mkEnv {
  _chunk_size : Z;
  _parallel_workers : Z;
  upstream : Upstream;
  (** a sink operation fails with the exception given here, if any; the
      number is the length of the sink log *)
  sink_fault : SinkOp -> nat -> option exn;
  (** [MetricsProcessor.analyze_skills_data] is called by the service and
      defined by no source file *)
  analyze_skills_data : list Candidate -> result row
}.

Definition range_key : Type := (Z * Z)%type.

Definition range_key_eqb (a b : range_key) : bool :=
  Z.eqb (fst a) (fst b) && Z.eqb (snd a) (snd b).

Record World : Type := mkWorld {
  clock : Z;
  processor : MetricsProcessor.State;
  _cache : TTLCache.t range_key RawData;
  store_calls : nat;
  sinks : Sinks;
  stdout : list LogLine;
  (** the delays passed to [asyncio.sleep] *)
  sleeps : list Z
}.

(** [ETLService(db_manager, es_manager, ...)] in a fresh process. *)
Definition init (now : Z) : World :=
  {| clock := now;
     processor := MetricsProcessor.init 300;
     _cache := TTLCache.empty range_key RawData 100 3600;
     store_calls := 0;
     sinks := {| pg_recruitment_metrics := []; pg_skill_metrics := [];
                 pending := None; es_recruitment_analytics := [];
                 sink_log := [] |};
     stdout := [];
     sleeps := [] |}.

Definition set_processor (st : MetricsProcessor.State) (w : World) : World :=
  {| clock := clock w; processor := st; _cache := _cache w;
     store_calls := store_calls w; sinks := sinks w; stdout := stdout w;
     sleeps := sleeps w |}.

Definition set_cache (c : TTLCache.t range_key RawData) (w : World) : World :=
  {| clock := clock w; processor := processor w; _cache := c;
     store_calls := store_calls w; sinks := sinks w; stdout := stdout w;
     sleeps := sleeps w |}.

Definition set_store_calls (n : nat) (w : World) : World :=
  {| clock := clock w; processor := processor w; _cache := _cache w;
     store_calls := n; sinks := sinks w; stdout := stdout w;
     sleeps := sleeps w |}.

Definition set_sinks (s : Sinks) (w : World) : World :=
  {| clock := clock w; processor := processor w; _cache := _cache w;
     store_calls := store_calls w; sinks := s; stdout := stdout w;
     sleeps := sleeps w |}.

Definition print (l : LogLine) (w : World) : World :=
  {| clock := clock w; processor := processor w; _cache := _cache w;
     store_calls := store_calls w; sinks := sinks w;
     stdout := stdout w ++ [l]; sleeps := sleeps w |}.

(** Time passing between two calls. *)
Definition advance (dt : Z) (w : World) : World :=
  {| clock := (clock w + dt)%Z; processor := processor w; _cache := _cache w;
     store_calls := store_calls w; sinks := sinks w; stdout := stdout w;
     sleeps := sleeps w |}.

(** [await asyncio.sleep(delay)] *)
Definition sleep (delay : Z) (w : World) : World :=
  {| clock := (clock w + delay)%Z; processor := processor w;
     _cache := _cache w; store_calls := store_calls w; sinks := sinks w;
     stdout := stdout w; sleeps := sleeps w ++ [delay] |}.

(** ** Computations that read and change the world and may raise *)

Definition M (A : Type) : Type := World -> result A * World.

Definition ret {A} (a : A) : M A := fun w => (Ok a, w).

Definition raise {A} (e : exn) : M A := fun w => (Raise e, w).

Definition bind {A B} (m : M A) (k : A -> M B) : M B :=
  fun w =>
    match m w with
    | (Ok a, w') => k a w'
    | (Raise e, w') => (Raise e, w')
    end.

Definition lift {A} (r : result A) : M A := fun w => (r, w).

(** [try: m  except Exception as e: raise h(e)] *)
Definition reraise {A} (h : exn -> exn) (m : M A) : M A :=
  fun w =>
    match m w with
    | (Ok a, w') => (Ok a, w')
    | (Raise e, w') => (Raise (h e), w')
    end.

Declare Scope etl_scope.
Delimit Scope etl_scope with etl.
Notation "x <- m ;; k" := (bind m (fun x => k))
  (at level 61, m at next level, right associativity) : etl_scope.
Notation "m ;;; k" := (bind m (fun _ => k))
  (at level 61, right associativity) : etl_scope.
Local Open Scope etl_scope.

Section WithEnv.

Variable env : Env.

(** ** [extract_recruitment_data] *)

(** One access to an upstream store. *)
Definition store_call {A} (f : nat -> result A) : M A :=
  fun w => (f (store_calls w), set_store_calls (S (store_calls w)) w).

(** [f"recruitment_data_{date_range.start_date}_{date_range.end_date}"] is
    determined by the two dates, which stand for it. *)
Definition extract_cache_key (date_range : DateRange) : range_key :=
  (start_date date_range, end_date date_range).

Definition cache_store (key : range_key) (data : RawData) : M unit :=
  fun w =>
    (Ok tt, set_cache (TTLCache.setitem range_key_eqb key data (clock w) (_cache w)) w).

Definition wrap_extract_error (e : exn) : exn :=
  mkExn Exception_ ("Error extracting recruitment data: " ++ str e).

(** The body of the [try] block.  [chunk_size] only sets the batch size of
    the document cursors. *)
Definition extract_from_stores (date_range : DateRange) (chunk_size : Z)
  : M RawData :=
  let s := start_date date_range in
  let e := end_date date_range in
  _ <- store_call (get_pg_pool (upstream env)) ;;
  _ <- store_call (get_mongo_db (upstream env)) ;;
  _ <- store_call (pg_acquire (upstream env)) ;;
  chunks <- store_call (fun n => pg_cursor (upstream env) n s e) ;;
  let requisitions := concat chunks in
  candidates <- store_call (fun n => find_candidates (upstream env) n s e) ;;
  communications <- store_call (fun n => find_communications (upstream env) n s e) ;;
  let extracted_data :=
    {| requisitions := requisitions;
       candidates := candidates;
       communications := communications |} in
  cache_store (extract_cache_key date_range) extracted_data ;;;
  ret extracted_data.

(** [x or default] on an optional integer. *)
Definition py_or (x : option Z) (default : Z) : Z :=
  match x with
  | Some v => if (v =? 0)%Z then default else v
  | None => default
  end.

Definition extract_recruitment_data
    (date_range : DateRange) (chunk_size : option Z) : M RawData :=
  fun w =>
    let chunk_size := py_or chunk_size (_chunk_size env) in
    let cache_key := extract_cache_key date_range in
    if TTLCache.contains range_key_eqb cache_key (clock w) (_cache w) then
      match TTLCache.getitem range_key_eqb cache_key (clock w) (_cache w) with
      | (Some data, cache) => (Ok data, set_cache cache w)
      | (None, cache) => (Raise (mkExn KeyError "cache_key"), set_cache cache w)
      end
    else
      reraise wrap_extract_error (extract_from_stores date_range chunk_size) w.

(** ** [transform_metrics_data] and the service's [_process_metrics_chunk] *)

Fixpoint split_sizes {A} (sizes : list nat) (l : list A) : list (list A) :=
  match sizes with
  | [] => []
  | n :: sizes' => firstn n l :: split_sizes sizes' (skipn n l)
  end.

(** [np.array_split(df, sections)]: the first [len mod sections] parts have
    one row more than the others. *)
Definition array_split {A} (df : list A) (sections : Z)
  : result (list (list A)) :=
  if (sections <=? 0)%Z
  then Raise (mkExn ValueError "number sections must be larger than 0.")
  else
    let k := Z.to_nat sections in
    let each := (length df / k)%nat in
    let extras := (length df mod k)%nat in
    Ok (split_sizes (repeat (S each) extras ++ repeat each (k - extras)) df).

Record ChunkOutput : Type := mkChunkOutput {
  out_metrics : DataFrame;
  out_skills : DataFrame;
  out_time_to_hire : DataFrame
}.

Definition process_recruitment_metrics
    (raw_metrics : list Requisition) (level : AggregationLevel)
  : M RecruitmentMetrics :=
  fun w =>
    let '(r, st) :=
      MetricsProcessor.process_recruitment_metrics
        raw_metrics level true (clock w) (processor w) in
    (r, set_processor st w).

(** [DateRange(start_date=col.min(), end_date=col.max())].  On an empty
    chunk both ends are NaT; the call that receives the range then fails on
    the empty list of rows without reading it, so any range stands for
    it. *)
Definition chunk_range (req_chunk : list Requisition) : result DateRange :=
  match MetricsProcessor.ts_min (map created_at req_chunk),
        MetricsProcessor.ts_max (map created_at req_chunk) with
  | Some lo, Some hi => DateRange_new lo hi
  | _, _ => Ok (mkDateRange 0 0)
  end.

Definition _process_metrics_chunk
    (req_chunk : list Requisition) (cand_chunk : list Candidate)
    (comm_df : list Communication) : M ChunkOutput :=
  metrics <- process_recruitment_metrics req_chunk weekly ;;
  skills <- lift (analyze_skills_data env cand_chunk) ;;
  range <- lift (chunk_range req_chunk) ;;
  time_to_hire <- lift (MetricsProcessor.analyze_time_to_hire req_chunk range true) ;;
  ret {| out_metrics := [row_of_metrics metrics];
         out_skills := [skills];
         out_time_to_hire := [row_of_time_to_hire time_to_hire] |}.

(** The tasks made by [asyncio.create_task] never suspend on I/O: once
    the caller awaits, each runs to its end, in creation order, whether an
    earlier one failed or not. *)
Fixpoint run_tasks {A} (tasks : list (M A)) (w : World)
  : list (result A) * World :=
  match tasks with
  | [] => ([], w)
  | t :: tasks' =>
      let '(r, w1) := t w in
      let '(rs, w2) := run_tasks tasks' w1 in
      (r :: rs, w2)
  end.

(** [await asyncio.gather] over the tasks: the results in task order, or
    the exception of the first task that raised. *)
Fixpoint gathered {A} (rs : list (result A)) : result (list A) :=
  match rs with
  | [] => Ok []
  | Ok a :: rs' => rbind (gathered rs') (fun l => Ok (a :: l))
  | Raise e :: _ => Raise e
  end.

Definition gather {A} (tasks : list (M A)) : M (list A) :=
  fun w => let '(rs, w') := run_tasks tasks w in (gathered rs, w').

Definition wrap_transform_error (e : exn) : exn :=
  mkExn Exception_ ("Error transforming metrics data: " ++ str e).

Definition chunk_tasks (raw_data : RawData) (workers : Z)
    (req_chunks : list (list Requisition))
    (cand_chunks : list (list Candidate)) : list (M ChunkOutput) :=
  map (fun i =>
         _process_metrics_chunk (nth i req_chunks []) (nth i cand_chunks [])
           (communications raw_data))
      (seq 0 (Z.to_nat workers)).

Definition transform_metrics_data
    (raw_data : RawData) (parallel_workers : option Z) : M ProcessedData :=
  let workers := py_or parallel_workers (_parallel_workers env) in
  reraise wrap_transform_error
    (req_chunks <- lift (array_split (requisitions raw_data) workers) ;;
     cand_chunks <- lift (array_split (candidates raw_data) workers) ;;
     processed_chunks <-
       gather (chunk_tasks raw_data workers req_chunks cand_chunks) ;;
     ret {| recruitment_metrics := concat (map out_metrics processed_chunks);
            skill_analytics := concat (map out_skills processed_chunks);
            time_to_hire_analytics :=
              concat (map out_time_to_hire processed_chunks) |}).

(** ** [load_analytics_data] *)

Definition log_op (op : SinkOp) (ok : bool) (s : Sinks) : Sinks :=
  {| pg_recruitment_metrics := pg_recruitment_metrics s;
     pg_skill_metrics := pg_skill_metrics s;
     pending := pending s;
     es_recruitment_analytics := es_recruitment_analytics s;
     sink_log := sink_log s ++ [(op, ok)] |}.

Definition set_pending (p : option (list (list cell) * list (list cell)))
    (s : Sinks) : Sinks :=
  {| pg_recruitment_metrics := pg_recruitment_metrics s;
     pg_skill_metrics := pg_skill_metrics s;
     pending := p;
     es_recruitment_analytics := es_recruitment_analytics s;
     sink_log := sink_log s |}.

(** An insert goes to the open transaction, or straight to the table when
    none is open. *)
Definition insert_rows (metrics skills : list (list cell)) (s : Sinks) : Sinks :=
  match pending s with
  | Some (m, k) => set_pending (Some (m ++ metrics, k ++ skills)) s
  | None =>
      {| pg_recruitment_metrics := pg_recruitment_metrics s ++ metrics;
         pg_skill_metrics := pg_skill_metrics s ++ skills;
         pending := None;
         es_recruitment_analytics := es_recruitment_analytics s;
         sink_log := sink_log s |}
  end.

Definition apply_pending (s : Sinks) : Sinks :=
  match pending s with
  | Some (m, k) =>
      {| pg_recruitment_metrics := pg_recruitment_metrics s ++ m;
         pg_skill_metrics := pg_skill_metrics s ++ k;
         pending := None;
         es_recruitment_analytics := es_recruitment_analytics s;
         sink_log := sink_log s |}
  | None => s
  end.

Definition index_docs (docs : list row) (s : Sinks) : Sinks :=
  {| pg_recruitment_metrics := pg_recruitment_metrics s;
     pg_skill_metrics := pg_skill_metrics s;
     pending := pending s;
     es_recruitment_analytics := es_recruitment_analytics s ++ docs;
     sink_log := sink_log s |}.

(** One operation on a sink: it is logged, and fails if the environment
    says so. *)
Definition sink_op (op : SinkOp) : M unit :=
  fun w =>
    let s := sinks w in
    match sink_fault env op (length (sink_log s)) with
    | Some e => (Raise e, set_sinks (log_op op false s) w)
    | None => (Ok tt, set_sinks (log_op op true s) w)
    end.

Definition update_sinks (f : Sinks -> Sinks) : M unit :=
  fun w => (Ok tt, set_sinks (f (sinks w)) w).

(** [async with conn.transaction(): body]: commit when the body ends,
    roll back when it raises; a commit that fails leaves nothing
    written. *)
Definition transaction {A} (body : M A) : M A :=
  fun w =>
    match (sink_op OpBegin ;;; update_sinks (set_pending (Some ([], [])))) w with
    | (Raise e, w1) => (Raise e, w1)
    | (Ok _, w1) =>
        match body w1 with
        | (Raise e, w2) =>
            (Raise e,
             set_sinks (set_pending None (log_op OpRollback true (sinks w2))) w2)
        | (Ok a, w2) =>
            match sink_op OpCommit w2 with
            | (Ok _, w3) => (Ok a, set_sinks (apply_pending (sinks w3)) w3)
            | (Raise e, w3) =>
                (Raise e, set_sinks (set_pending None (sinks w3)) w3)
            end
        end
    end.

(** [await conn.executemany(sql, args)] *)
Definition executemany_metrics (args : list (list cell)) : M unit :=
  sink_op OpInsertMetrics ;;; update_sinks (insert_rows args []).

Definition executemany_skills (args : list (list cell)) : M unit :=
  sink_op OpInsertSkills ;;; update_sinks (insert_rows [] args).

(** [await es_client.bulk(docs)] *)
Definition bulk (docs : list row) : M unit :=
  sink_op OpBulk ;;; update_sinks (index_docs docs).

Definition columns (names : list string) (r : row) : result (list cell) :=
  mapM (row_get r) names.

Definition metrics_columns : list string :=
  ["requisition_id"; "time_to_hire"; "fill_rate"; "satisfaction_score";
   "created_at"]%string.

Definition skill_columns : list string :=
  ["skill_name"; "demand_count"; "growth_rate"; "created_at"]%string.

Definition wrap_load_error (e : exn) : exn :=
  mkExn Exception_ ("Error loading analytics data: " ++ str e).

Definition load_analytics_data (processed_data : ProcessedData) : M bool :=
  reraise wrap_load_error
    (sink_op OpGetPgPool ;;;
     sink_op OpGetClient ;;;
     sink_op OpAcquire ;;;
     transaction
       (let metrics_records := recruitment_metrics processed_data in
        args <- lift (mapM (columns metrics_columns) metrics_records) ;;
        executemany_metrics args ;;;
        let skill_records := skill_analytics processed_data in
        args <- lift (mapM (columns skill_columns) skill_records) ;;
        executemany_skills args) ;;;
     bulk (recruitment_metrics processed_data) ;;;
     ret true).

(** ** [run_etl_pipeline] *)

Definition config_get (field : Config -> option Z) (config : option Config)
    (default : Z) : Z :=
  match config with
  | Some c => match field c with Some v => v | None => default end
  | None => default
  end.

Section Pipeline.

(** The three stage methods, which a caller or a test may replace. *)
Variable extract_stage : DateRange -> option Z -> M RawData.
Variable transform_stage : RawData -> option Z -> M ProcessedData.
Variable load_stage : ProcessedData -> M bool.

Definition report (start_time : Z) (raw_data : RawData)
    (processed_data : ProcessedData) : M unit :=
  fun w =>
    (Ok tt,
     print (LogGenerated (length (recruitment_metrics processed_data)))
       (print (LogProcessed (length (requisitions raw_data)))
          (print (LogCompleted (clock w - start_time)) w))).

(** The body of the [try] block. *)
Definition pipeline_stages (date_range : DateRange) (config : option Config)
    (start_time : Z) : M bool :=
  raw_data <- extract_stage date_range
                (Some (config_get cfg_chunk_size config (_chunk_size env))) ;;
  processed_data <- transform_stage raw_data
                (Some (config_get cfg_parallel_workers config
                         (_parallel_workers env))) ;;
  success <- load_stage processed_data ;;
  report start_time raw_data processed_data ;;;
  ret success.

(** [except Exception as e: print(...); raise] *)
Definition run_etl_pipeline_with (date_range : DateRange)
    (config : option Config) : M bool :=
  fun w =>
    let start_time := clock w in
    match pipeline_stages date_range config start_time w with
    | (Ok success, w') => (Ok success, w')
    | (Raise e, w') =>
        (Raise e, print (LogFailed ("ETL Pipeline failed: " ++ str e)) w')
    end.

End Pipeline.

Definition run_etl_pipeline : DateRange -> option Config -> M bool :=
  run_etl_pipeline_with
    extract_recruitment_data transform_metrics_data load_analytics_data.

End WithEnv.

End ETLService.

(* ================================================================== *)
(** * [services/analytics_service.py]: the retry helper *)
(* ================================================================== *)

Module AnalyticsService.

Import ETLService.
Local Open Scope etl_scope.

Section Retry.

Variable A : Type.

(** [self._analytics_model.get_metrics(date_range, metric_types)] *)
Variable get_metrics : M A.

(** [self._config['max_retries']] *)
Variable max_retries : Z.

(** The [while retries < max_retries] loop.  Every turn that does not
    leave the loop adds one to [retries], so [max_retries - retries]
    turns are enough; [attempts] counts the turns that are left. *)
Fixpoint retry_loop (attempts : nat) (retries : Z) : M (option A) :=
  match attempts with
  | O => ret None
  | S attempts' =>
      fun w =>
        match get_metrics w with
        | (Ok a, w') => (Ok (Some a), w')
        | (Raise e, w') =>
            let retries := (retries + 1)%Z in
            if (retries =? max_retries)%Z then (Raise e, w')
            else retry_loop attempts' retries (sleep (2 ^ retries) w')
        end
  end.

(** Falling out of the loop returns [None]. *)
Definition _get_metrics_with_retry : M (option A) :=
  retry_loop (Z.to_nat max_retries) 0.

End Retry.

End AnalyticsService.

(* ================================================================== *)
(** * [services/analytics_service.py]: cached retrieval and trend
      statistics *)
(* ================================================================== *)

Module AnalyticsServiceMetrics.

(** [MetricType] of [analytics_types.py] *)
Inductive MetricType : Type :=
| mt_time_to_hire | mt_satisfaction | mt_requisition_fill_rate | mt_skill_demand.

Definition MetricType_eqb (a b : MetricType) : bool :=
  match a, b with
  | mt_time_to_hire, mt_time_to_hire | mt_satisfaction, mt_satisfaction
  | mt_requisition_fill_rate, mt_requisition_fill_rate
  | mt_skill_demand, mt_skill_demand => true
  | _, _ => false
  end.

(** [f"metrics_{start_date}_{end_date}_{str(metric_types)}"] is determined
    by the two dates and the optional list of types, which stand for it. *)
Definition metrics_key : Type := (Z * Z * option (list MetricType))%type.

Definition metrics_key_eqb (a b : metrics_key) : bool :=
  Z.eqb (fst (fst a)) (fst (fst b))
  && Z.eqb (snd (fst a)) (snd (fst b))
  && MetricsProcessor.option_eqb (MetricsProcessor.list_eqb MetricType_eqb)
       (snd a) (snd b).

(** What the service's logger is given. *)
Inductive LogEntry : Type :=
| LogInfo (message : string)
| LogError (message : string) (e : exn).

Section Service.

(** The metrics dict the analytics model returns. *)
Variable A : Type.

(** [self._analytics_model.get_metrics] *)
Variable get_metrics : DateRange -> option (list MetricType) -> ETLService.M A.

(** [self._config['max_retries']] *)
Variable max_retries : Z.

(** The service: the world its model works in, its own response cache
    ([TTLCache(maxsize=1000, ttl=CACHE_TTL)], fifteen minutes) and its
    logger.  A cached value may be [None], which is what the retry helper
    returns when it makes no attempt. *)
Record Service : Type := mkService {
  world : ETLService.World;
  _cache : TTLCache.t metrics_key (option A);
  _logger : list LogEntry
}.

Definition CACHE_TTL : Z := 15 * 60.

Definition init (w : ETLService.World) : Service :=
  {| world := w;
     _cache := TTLCache.empty metrics_key (option A) 1000 CACHE_TTL;
     _logger := [] |}.

Definition log (entry : LogEntry) (s : Service) : Service :=
  {| world := world s; _cache := _cache s; _logger := _logger s ++ [entry] |}.

(** [except Exception as e: self._logger.error(...); raise] *)
Definition log_and_reraise {B} (r : result B * Service) : result B * Service :=
  match r with
  | (Ok b, s) => (Ok b, s)
  | (Raise e, s) =>
      (Raise e, log (LogError "Error retrieving recruitment metrics" e) s)
  end.

Definition get_recruitment_metrics (start_date end_date : Z)
    (metric_types : option (list MetricType)) (s : Service)
  : result (option A) * Service :=
  let cache_key : metrics_key := (start_date, end_date, metric_types) in
  let now := ETLService.clock (world s) in
  log_and_reraise
    (if TTLCache.contains metrics_key_eqb cache_key now (_cache s) then
       let s := log (LogInfo "Returning cached recruitment metrics") s in
       match TTLCache.getitem metrics_key_eqb cache_key now (_cache s) with
       | (Some cached, cache) =>
           (Ok cached,
            {| world := world s; _cache := cache; _logger := _logger s |})
       | (None, cache) =>
           (Raise (mkExn KeyError "cache_key"),
            {| world := world s; _cache := cache; _logger := _logger s |})
       end
     else
       match DateRange_new start_date end_date with
       | Raise e => (Raise e, s)
       | Ok date_range =>
           match AnalyticsService._get_metrics_with_retry
                   (get_metrics date_range metric_types) max_retries
                   (world s) with
           | (Raise e, w') =>
               (Raise e,
                {| world := w'; _cache := _cache s; _logger := _logger s |})
           | (Ok metrics, w') =>
               (Ok metrics,
                {| world := w';
                   _cache := TTLCache.setitem metrics_key_eqb cache_key metrics
                               (ETLService.clock w') (_cache s);
                   _logger := _logger s |})
           end
       end).

End Service.

(** ** [_calculate_trend] *)

Record TrendStatistics : Type := mkTrendStatistics {
  mean : float;
  median : float;
  std_dev : float;
  trend_direction : string;
  change_rate : float
}.

(** The value of a positional access, or the [IndexError] it raises. *)
Inductive positional (B : Type) : Type :=
| Value (b : B)
| IndexError (message : string).
Arguments Value {B} b.
Arguments IndexError {B} message.

(** [series.iloc[0]] and [series.iloc[-1]] *)
Definition iloc_first (series : list float) : option float := hd_error series.

Definition iloc_last (series : list float) : option float :=
  hd_error (rev series).

(** The entries of the dict are evaluated in order: the three reductions
    never raise, the first positional access does on an empty series. *)
Definition _calculate_trend (series : list float) : positional TrendStatistics :=
  match iloc_last series, iloc_first series with
  | Some last, Some first =>
      Value {| mean := Float64.mean series;
               median := Float64.median series;
               std_dev := Float64.std series;
               trend_direction :=
                 if (first <? last)%float then "up" else "down";
               change_rate := ((last - first) / first * 100)%float |}
  | _, _ => IndexError "single positional indexer is out-of-bounds"
  end.

End AnalyticsServiceMetrics.

(* ================================================================== *)
(** * Facts about binary64 results *)
(* ================================================================== *)

Module Float64Facts.

Import Float64.
Local Open Scope float_scope.

Lemma round_aux_sign s m e l :
  sign_in s (binary_round_aux prec emax s m e l).
Proof.
  unfold binary_round_aux.
  destruct (shr_fexp prec emax m e l) as [r1 e1].
  destruct (shr_fexp prec emax _ e1 loc_Exact) as [r2 e2].
  destruct (shr_m r2); simpl; auto.
  destruct (_ <=? _)%Z; simpl; auto.
Qed.

Lemma sign_in_nonneg r : sign_in false r -> nonneg r.
Proof. destruct r; simpl; auto. Qed.

Lemma SFsqrt_nonneg x : nonneg (SFsqrt prec emax x).
Proof.
  destruct x as [b|b| |b m e]; simpl; auto.
  - destruct b; simpl; auto.
  - destruct b; simpl; auto.
    destruct (SFsqrt_core_binary prec emax (Z.pos m) e) as [[mz ez] lz].
    apply sign_in_nonneg, round_aux_sign.
Qed.

Lemma SFsqrt_sign x : sign_in false x -> sign_in false (SFsqrt prec emax x).
Proof.
  destruct x as [b|b| |b m e]; simpl; intros H; subst; simpl; auto.
  destruct (SFsqrt_core_binary prec emax (Z.pos m) e) as [[mz ez] lz].
  apply round_aux_sign.
Qed.

Lemma SFmul_nonneg m e a :
  nonneg a -> nonneg (SFmul prec emax (S754_finite false m e) a).
Proof.
  destruct a as [b|b| |b m' e']; simpl; intros H; subst; simpl; auto.
  apply sign_in_nonneg, round_aux_sign.
Qed.

Lemma SFdiv_nonneg a b :
  nonneg a -> sign_in false b -> nonneg (SFdiv prec emax a b).
Proof.
  destruct a as [sa|sa| |sa ma ea], b as [sb|sb| |sb mb eb];
    simpl; intros Ha Hb; subst; simpl; auto.
  destruct (SFdiv_core_binary prec emax (Z.pos ma) ea (Z.pos mb) eb)
    as [[mz ez] lz].
  apply sign_in_nonneg, round_aux_sign.
Qed.

Lemma SFltb_nonneg_zero a s : nonneg a -> SFltb a (S754_zero s) = false.
Proof.
  destruct a as [b|b| |b m e]; simpl; intros H; subst; reflexivity.
Qed.

Lemma of_nat_sign n : sign_in false (Prim2SF (of_nat n)).
Proof.
  unfold of_nat. rewrite of_uint63_spec.
  pose proof (Uint63.to_Z_bounded (Uint63.of_Z (Z.of_nat n))) as [Hlo _].
  unfold binary_normalize.
  destruct (Uint63.to_Z (Uint63.of_Z (Z.of_nat n))) as [|p|p]; simpl; auto.
  - unfold binary_round.
    destruct (shl_align p 0 _) as [mz ez]. apply round_aux_sign.
  - lia.
Qed.

(** [1.96 * s / sqrt(n)] is never below zero when [s] is a square root
    or NaN: it is NaN, a zero or positive. *)
Lemma margin_nonneg (s : float) (n : nat) :
  nonneg (Prim2SF s) ->
  nonneg (Prim2SF (z95 * s / PrimFloat.sqrt (of_nat n))).
Proof.
  intros Hs.
  rewrite div_spec, mul_spec, sqrt_spec.
  apply SFdiv_nonneg.
  - change (Prim2SF z95) with (S754_finite false 8827055269646172 (-52)).
    apply SFmul_nonneg, Hs.
  - apply SFsqrt_sign, of_nat_sign.
Qed.

Lemma std_nonneg l : nonneg (Prim2SF (std l)).
Proof.
  unfold std. destruct (length (dropna l) <=? 1)%nat.
  - vm_compute. exact I.
  - rewrite sqrt_spec. apply SFsqrt_nonneg.
Qed.

Lemma nonneg_not_ltb_zero x : nonneg (Prim2SF x) -> (x <? 0) = false.
Proof.
  intros H. rewrite ltb_spec.
  change (Prim2SF 0) with (S754_zero false).
  now apply SFltb_nonneg_zero.
Qed.

(** Division by a zero never gives a finite value. *)
Lemma div_zero_not_finite x g :
  is_zero g = true -> is_finite (x / g) = false.
Proof.
  unfold is_zero, is_finite, is_nan, is_infinity.
  rewrite !eqb_spec, abs_spec, div_spec.
  change (Prim2SF zero) with (S754_zero false).
  change (Prim2SF infinity) with (S754_infinity false).
  destruct (Prim2SF g) as [sg|sg| |sg mg eg]; simpl;
    try discriminate; try (destruct sg; discriminate).
  intros _.
  destruct (Prim2SF x) as [sx|sx| |sx mx ex]; simpl;
    try destruct sx; destruct sg; reflexivity.
Qed.

End Float64Facts.

(* ================================================================== *)
(** * Properties of the metrics processor *)
(* ================================================================== *)

Module MetricsFacts.

Import MetricsProcessor.

(** ** Fill rate *)

Lemma percent_bounds a b :
  (0 < b)%nat -> (a <= b)%nat -> 0 <= percent a b /\ percent a b <= 100.
Proof.
  intros Hb Hab. unfold percent.
  assert (Hpos : 0 < inject_Z (Z.of_nat b)).
  { unfold Qlt, inject_Z; simpl. lia. }
  assert (Hq0 : 0 <= inject_Z (Z.of_nat a) / inject_Z (Z.of_nat b)).
  { apply Qle_shift_div_l; [exact Hpos|].
    rewrite Qmult_0_l. unfold Qle, inject_Z; simpl. lia. }
  assert (Hq1 : inject_Z (Z.of_nat a) / inject_Z (Z.of_nat b) <= 1).
  { apply Qle_shift_div_r; [exact Hpos|].
    rewrite Qmult_1_l. unfold Qle, inject_Z; simpl. lia. }
  split.
  - apply Qmult_le_0_compat; [exact Hq0|]. unfold Qle; simpl; lia.
  - setoid_replace 100 with (1 * 100) at 2 by reflexivity.
    apply Qmult_le_compat_r; [exact Hq1|]. unfold Qle; simpl; lia.
Qed.

Lemma filter_length_le {A} (f : A -> bool) (l : list A) :
  (length (filter f l) <= length l)%nat.
Proof.
  induction l as [|a l IH]; simpl; [lia|].
  destruct (f a); simpl; lia.
Qed.

(** What [_process_metrics_chunk] returns on a chunk with rows. *)
Lemma process_chunk_nonempty chunk level :
  chunk <> [] ->
  _process_metrics_chunk chunk level =
  Ok {| total_reqs := length chunk;
        filled_reqs := length (filter is_filled chunk);
        avg_time_to_hire := Float64.mean (map time_to_hire chunk);
        satisfaction_rate := Float64.mean (map satisfaction_score chunk);
        fill_rate := percent (length (filter is_filled chunk)) (length chunk);
        period_start := ts_min (map created_at chunk);
        period_end := ts_max (map created_at chunk);
        skill_metrics := _calculate_skill_metrics chunk |}.
Proof.
  intros Hne. unfold _process_metrics_chunk.
  destruct chunk as [|r chunk]; [congruence|]. reflexivity.
Qed.

(** C3, as the code has it: on every record set with at least one record
    the aggregate's fill rate is the number of records whose status is
    ['filled'] over the total, times 100, and lies in [[0, 100]]. *)
Theorem fill_rate_of_nonempty_chunk (chunk : list Requisition)
    (level : AggregationLevel) :
  chunk <> [] ->
  exists m,
    _process_metrics_chunk chunk level = Ok m
    /\ total_reqs m = length chunk
    /\ filled_reqs m = length (filter is_filled chunk)
    /\ fill_rate m ==
         inject_Z (Z.of_nat (filled_reqs m))
           / inject_Z (Z.of_nat (total_reqs m)) * 100
    /\ 0 <= fill_rate m /\ fill_rate m <= 100.
Proof.
  intros Hne. eexists. split; [apply process_chunk_nonempty, Hne|].
  simpl. repeat split; try reflexivity.
  - apply percent_bounds.
    + destruct chunk; [congruence|simpl; lia].
    + apply filter_length_le.
  - apply percent_bounds.
    + destruct chunk; [congruence|simpl; lia].
    + apply filter_length_le.
Qed.

Definition sample_requisition (rid st : string) (tth : float) (t : Z)
    (sk : list string) : Requisition :=
  {| requisition_id := rid; status := st; time_to_hire := tth;
     satisfaction_score := 4%float; created_at := t; filled_at := None;
     required_skills := sk |}.

Lemma fill_rate_of_nonempty_chunk_witness :
  exists m,
    _process_metrics_chunk
      [sample_requisition "r1" "filled" 10%float 0 ["coq"%string];
       sample_requisition "r2" "open" 20%float 86400 []] weekly = Ok m
    /\ fill_rate m == 50.
Proof.
  destruct (@fill_rate_of_nonempty_chunk
              [sample_requisition "r1" "filled" 10%float 0 ["coq"%string];
               sample_requisition "r2" "open" 20%float 86400 []] weekly
              ltac:(discriminate))
    as (m & Hm & Ht & Hf & Hr & _).
  exists m. split; [exact Hm|].
  rewrite Hr, Hf, Ht. reflexivity.
Defined.

(** C3 as stated fails on the empty record set: no fill rate of 0 is
    computed, the division raises. *)
Lemma fill_rate_of_empty_chunk_raises :
  _process_metrics_chunk [] weekly
    = Raise (mkExn ZeroDivisionError "division by zero")
  /\ ~ (exists m, _process_metrics_chunk [] weekly = Ok m /\ fill_rate m == 0).
Proof.
  split; [reflexivity|].
  intros (m & Hm & _). discriminate Hm.
Qed.

(** ** Counts, periods and skills of a record set cut into chunks *)

(** The dict a chunk with rows is turned into. *)
Definition aggregate_of (level : AggregationLevel) (chunk : list Requisition)
  : ChunkMetrics :=
  {| total_reqs := length chunk;
     filled_reqs := length (filter is_filled chunk);
     avg_time_to_hire := Float64.mean (map time_to_hire chunk);
     satisfaction_rate := Float64.mean (map satisfaction_score chunk);
     fill_rate := percent (length (filter is_filled chunk)) (length chunk);
     period_start := ts_min (map created_at chunk);
     period_end := ts_max (map created_at chunk);
     skill_metrics := _calculate_skill_metrics chunk |}.

Lemma mapM_process_chunks level chunks :
  Forall (fun c => c <> []) chunks ->
  mapM (fun c => _process_metrics_chunk c level) chunks
  = Ok (map (aggregate_of level) chunks).
Proof.
  induction 1 as [|c chunks Hc _ IH]; simpl; [reflexivity|].
  rewrite (process_chunk_nonempty level Hc), IH. reflexivity.
Qed.








Section Extremum.

Variable f : Z -> Z -> Z.
Hypothesis f_assoc : forall a b c, f a (f b c) = f (f a b) c.







End Extremum.



(** ** Skill percentages *)

Lemma skill_key_eqb_eq a b : skill_key_eqb a b = true <-> a = b.
Proof.
  destruct a as [x|], b as [y|]; simpl; split; intros H;
    try discriminate; try reflexivity.
  - apply String.eqb_eq in H. now subst.
  - injection H as ->. apply String.eqb_refl.
Qed.

Lemma unique_In k l : In k (unique l) <-> In k l.
Proof.
  induction l as [|x l IH]; simpl; [tauto|].
  rewrite filter_In, IH. split.
  - intros [H|[H _]]; auto.
  - intros [H|H]; [now left|].
    destruct (skill_key_eqb x k) eqn:E.
    + left. now apply skill_key_eqb_eq.
    + right. split; [exact H|reflexivity].
Qed.

(** The keys of a skill dict are distinct. *)
Lemma unique_NoDup l : NoDup (unique l).
Proof.
  induction l as [|x l IH]; simpl; constructor.
  - rewrite filter_In. intros [_ H].
    assert (E : skill_key_eqb x x = true) by now apply skill_key_eqb_eq.
    now rewrite E in H.
  - now apply NoDup_filter.
Qed.

Lemma skill_metrics_keys_distinct (df : list Requisition) :
  NoDup (map fst (_calculate_skill_metrics df)).
Proof.
  unfold _calculate_skill_metrics. rewrite map_map. simpl.
  rewrite map_id. apply unique_NoDup.
Qed.



Lemma explode_In k (col : list (list string)) :
  In k (explode col) <->
  exists x, In x col /\ match k with
                        | Some s => In s x
                        | None => x = []
                        end.
Proof.
  unfold explode. rewrite in_flat_map. split.
  - intros (x & Hx & Hk). exists x. split; [exact Hx|].
    destruct x as [|a x].
    + destruct Hk as [<-|[]]. reflexivity.
    + apply in_map_iff in Hk. destruct Hk as (s & <- & Hs). exact Hs.
  - intros (x & Hx & Hk). exists x. split; [exact Hx|].
    destruct k as [s|].
    + destruct x as [|a x]; [destruct Hk|]. now apply in_map.
    + subst x. now left.
Qed.













(** ** The slices of [process_recruitment_metrics] *)

Lemma firstn_plus {A} (n m : nat) (l : list A) :
  firstn (n + m) l = firstn n l ++ firstn m (skipn n l).
Proof.
  revert l. induction n as [|n IH]; intros l; simpl; [reflexivity|].
  destruct l as [|a l]; simpl.
  - now rewrite firstn_nil.
  - now rewrite IH.
Qed.

Lemma slices_concat {A} (size n : nat) (df : list A) :
  concat (map (fun i => firstn size (skipn (i * size) df)) (seq 0 n))
  = firstn (n * size) df.
Proof.
  induction n as [|n IH]; [reflexivity|].
  rewrite seq_S, map_app, concat_app, IH. simpl.
  rewrite app_nil_r, (Nat.add_comm size), firstn_plus. reflexivity.
Qed.

Lemma slice_count_covers (size len : nat) :
  (0 < size)%nat -> (len <= (len + size - 1) / size * size)%nat.
Proof.
  intros Hs.
  pose proof (Nat.div_mod_eq (len + size - 1) size) as Hd.
  pose proof (Nat.mod_upper_bound (len + size - 1) size ltac:(lia)) as Hm.
  rewrite (Nat.mul_comm _ size). lia.
Qed.

Lemma slice_starts_inside (size len i : nat) :
  (0 < size)%nat -> (i < (len + size - 1) / size)%nat -> (i * size < len)%nat.
Proof.
  intros Hs Hi.
  pose proof (Nat.div_mod_eq (len + size - 1) size) as Hd.
  assert (H : (S i * size <= (len + size - 1) / size * size)%nat)
    by (apply Nat.mul_le_mono_r; lia).
  rewrite (Nat.mul_comm _ size) in H. simpl in H. lia.
Qed.

Lemma iloc_chunks_concat size (df : list Requisition) :
  (0 < size)%nat -> concat (iloc_chunks size df) = df.
Proof.
  intros Hs. unfold iloc_chunks. rewrite slices_concat.
  apply firstn_all2, slice_count_covers, Hs.
Qed.

Lemma iloc_chunks_nonempty size (df : list Requisition) :
  (0 < size)%nat -> Forall (fun c => c <> []) (iloc_chunks size df).
Proof.
  intros Hs. unfold iloc_chunks. apply Forall_forall. intros c Hc.
  apply in_map_iff in Hc. destruct Hc as (i & <- & Hi).
  apply in_seq in Hi.
  pose proof (@slice_starts_inside size (length df) i Hs ltac:(lia)) as Hlt.
  intros Hnil.
  assert (Hlen : length (firstn size (skipn (i * size) df)) = 0%nat)
    by now rewrite Hnil.
  rewrite length_firstn, length_skipn in Hlen. lia.
Qed.

Lemma chunk_size_pos : (0 < chunk_size)%nat.
Proof. unfold chunk_size. lia. Qed.

End MetricsFacts.

(* ================================================================== *)
(** * Trend points and seasonal indices *)
(* ================================================================== *)

Module TrendFacts.

Import MetricsProcessor.
Local Open Scope Z_scope.

(** ** The calendar *)

Example month_epoch : Calendar.month 0 = 1.
Proof. reflexivity. Qed.

(** 2024-02-29T12:00:00 and 2024-03-01T00:00:00. *)
Example month_leap_day : Calendar.month 1709208000 = 2 /\ Calendar.month 1709251200 = 3.
Proof. split; reflexivity. Qed.

(** 1970-01-01 was a Thursday: its week ends on Sunday 1970-01-04. *)
Example week_label_epoch : Calendar.week_label 0 = 3 * Calendar.seconds_per_day.
Proof. reflexivity. Qed.

(** ** Weekly bins *)

Lemma fold_min_le l a :
  fold_left Z.min l a <= a /\ forall x, In x l -> fold_left Z.min l a <= x.
Proof.
  revert a. induction l as [|y l IH]; intros a; simpl.
  - split; [lia|intros x []].
  - destruct (IH (Z.min a y)) as [H1 H2]. split; [lia|].
    intros x [<-|Hx]; [lia|auto].
Qed.

Lemma fold_max_ge l a :
  a <= fold_left Z.max l a /\ forall x, In x l -> x <= fold_left Z.max l a.
Proof.
  revert a. induction l as [|y l IH]; intros a; simpl.
  - split; [lia|intros x []].
  - destruct (IH (Z.max a y)) as [H1 H2]. split; [lia|].
    intros x [<-|Hx]; [lia|auto].
Qed.

Lemma ts_bounds l x :
  In x l ->
  exists lo hi, ts_min l = Some lo /\ ts_max l = Some hi /\ lo <= x <= hi.
Proof.
  destruct l as [|a l]; [intros []|]. intros Hx. simpl.
  exists (fold_left Z.min l a), (fold_left Z.max l a).
  destruct (fold_min_le l a) as [H1 H2], (fold_max_ge l a) as [H3 H4].
  repeat split; destruct Hx as [<-|Hx]; auto.
Qed.

(** The week of an instant, counted from the epoch. *)
Definition week_number (t : Z) : Z := (t / 86400 + 3) / 7.

Lemma week_label_number t :
  Calendar.week_label t = (week_number t * 7 + 3) * 86400.
Proof.
  unfold Calendar.week_label, Calendar.weekday, Calendar.day_of,
    Calendar.seconds_per_day, week_number.
  pose proof (Z.div_mod (t / 86400 + 3) 7 ltac:(lia)) as Hd.
  f_equal. lia.
Qed.

Lemma week_number_mono a b : a <= b -> week_number a <= week_number b.
Proof.
  intros H. unfold week_number.
  apply Z.div_le_mono; [lia|].
  apply Z.add_le_mono_r, Z.div_le_mono; lia.
Qed.

Lemma week_label_in_bins (df : list Requisition) r :
  In r df -> In (Calendar.week_label (created_at r)) (week_bins df).
Proof.
  intros Hr. unfold week_bins.
  destruct (@ts_bounds (map created_at df) (created_at r) (in_map _ _ _ Hr))
    as (lo & hi & -> & -> & Hlo & Hhi).
  rewrite !week_label_number.
  pose proof (week_number_mono Hlo) as H1.
  pose proof (week_number_mono Hhi) as H2.
  apply in_map_iff.
  exists (Z.to_nat (week_number (created_at r) - week_number lo)).
  split.
  - unfold Calendar.week_seconds, Calendar.seconds_per_day. lia.
  - apply in_seq. split; [lia|]. simpl.
    replace ((week_number hi * 7 + 3) * 86400 - (week_number lo * 7 + 3) * 86400)
      with ((week_number hi - week_number lo) * Calendar.week_seconds)
      by (unfold Calendar.week_seconds, Calendar.seconds_per_day; lia).
    rewrite Z.div_mul
      by (unfold Calendar.week_seconds, Calendar.seconds_per_day; lia).
    lia.
Qed.

Lemma in_week_own_label r : in_week (Calendar.week_label (created_at r)) r = true.
Proof. unfold in_week. apply Z.eqb_refl. Qed.

(** ** Confidence of a trend point *)

Lemma trend_confidence_not_negative label group :
  (confidence (trend_point label group) <? 0)%float = false.
Proof.
  apply Float64Facts.nonneg_not_ltb_zero. simpl.
  apply Float64Facts.margin_nonneg, Float64Facts.std_nonneg.
Qed.

Lemma std_of_one x : Float64.std [x] = nan.
Proof. unfold Float64.std. simpl. destruct (is_nan x); reflexivity. Qed.

Lemma trend_confidence_single label r :
  is_nan (confidence (trend_point label [r])) = true.
Proof.
  unfold trend_point. simpl. rewrite std_of_one. vm_compute. reflexivity.
Qed.

(** C4, as the code has it: every week that holds a record emits one point
    whose value is the mean of the week's [time_to_hire] and whose
    confidence is [1.96 * stddev / sqrt n]; the confidence is never below
    zero, and it is NaN (not 0) for every week that holds one record,
    the sample deviation of one value being undefined. *)
Theorem trend_point_of_each_week (df : list Requisition) :
  (forall r, In r df ->
     In (trend_point (Calendar.week_label (created_at r))
           (filter (in_week (Calendar.week_label (created_at r))) df))
        (_calculate_trends df))
  /\
  (forall p, In p (_calculate_trends df) ->
     exists group,
       group <> []
       /\ group = filter (in_week (date p)) df
       /\ value p = Float64.mean (map time_to_hire group)
       /\ confidence p
          = (Float64.z95 * Float64.std (map time_to_hire group)
               / PrimFloat.sqrt (Float64.of_nat (length group)))%float
       /\ (confidence p <? 0)%float = false
       /\ (length group = 1%nat -> is_nan (confidence p) = true)).
Proof.
  split.
  - intros r Hr. unfold _calculate_trends. apply in_flat_map.
    exists (Calendar.week_label (created_at r)).
    split; [now apply week_label_in_bins|].
    destruct (filter _ df) as [|g group] eqn:E; [|now left].
    assert (Hin : In r (filter (in_week (Calendar.week_label (created_at r))) df))
      by (apply filter_In; split; [exact Hr|apply in_week_own_label]).
    rewrite E in Hin. destruct Hin.
  - intros p Hp. unfold _calculate_trends in Hp. apply in_flat_map in Hp.
    destruct Hp as (label & _ & Hp).
    destruct (filter (in_week label) df) as [|g group] eqn:E; [destruct Hp|].
    destruct Hp as [<-|[]]. exists (g :: group). simpl date.
    split; [discriminate|]. split; [now rewrite E|].
    split; [reflexivity|]. split; [reflexivity|].
    split; [apply trend_confidence_not_negative|].
    intros Hlen. destruct group; [apply trend_confidence_single|discriminate].
Qed.

(** C4 as stated fails on a week with a single record: the confidence is
    NaN, which is neither 0 nor at least 0. *)
Lemma single_record_confidence_is_nan :
  exists p,
    _calculate_trends
      [MetricsFacts.sample_requisition "r1" "filled" 10%float 0 []] = [p]
    /\ value p = 10%float
    /\ is_nan (confidence p) = true
    /\ (confidence p =? 0)%float = false
    /\ (0 <=? confidence p)%float = false.
Proof.
  eexists. split; [vm_compute; reflexivity|].
  repeat split; vm_compute; reflexivity.
Qed.

(** ** Seasonal indices *)

Lemma month_of_day_range d : 1 <= Calendar.month_of_day d <= 12.
Proof.
  unfold Calendar.month_of_day. cbv zeta.
  match goal with
  | |- context [(?mp <? 10)] => destruct (Z.ltb_spec mp 10)
  end; Z.div_mod_to_equations; lia.
Qed.

Lemma month_in_months t : In (Calendar.month t) months.
Proof.
  unfold Calendar.month.
  pose proof (month_of_day_range (Calendar.day_of t)) as H.
  unfold months.
  assert (Hc : Calendar.month_of_day (Calendar.day_of t) = 1
               \/ Calendar.month_of_day (Calendar.day_of t) = 2
               \/ Calendar.month_of_day (Calendar.day_of t) = 3
               \/ Calendar.month_of_day (Calendar.day_of t) = 4
               \/ Calendar.month_of_day (Calendar.day_of t) = 5
               \/ Calendar.month_of_day (Calendar.day_of t) = 6
               \/ Calendar.month_of_day (Calendar.day_of t) = 7
               \/ Calendar.month_of_day (Calendar.day_of t) = 8
               \/ Calendar.month_of_day (Calendar.day_of t) = 9
               \/ Calendar.month_of_day (Calendar.day_of t) = 10
               \/ Calendar.month_of_day (Calendar.day_of t) = 11
               \/ Calendar.month_of_day (Calendar.day_of t) = 12) by lia.
  simpl. intuition auto.
Qed.

Definition month_group (m : Z) (df : list Requisition) : list Requisition :=
  filter (in_month m) df.

(** The index the code gives a month: the mean of the month over the mean
    of all rows. *)
Definition seasonal_index (m : Z) (df : list Requisition) : float :=
  (Float64.mean (map time_to_hire (month_group m df))
     / Float64.mean (map time_to_hire df))%float.

Lemma monthly_avg_In (df : list Requisition) m avg :
  In (m, avg) (monthly_avg df) <->
  In m months /\ month_group m df <> []
  /\ avg = Float64.mean (map time_to_hire (month_group m df)).
Proof.
  unfold monthly_avg, month_group. rewrite in_flat_map. split.
  - intros (m' & Hm' & Hin).
    destruct (filter (in_month m') df) as [|g group] eqn:E; [destruct Hin|].
    destruct Hin as [Heq|[]]. injection Heq as <- <-.
    rewrite E. repeat split; [exact Hm'|discriminate].
  - intros (Hm & Hne & ->). exists m. split; [exact Hm|].
    destruct (filter (in_month m) df) as [|g group]; [congruence|now left].
Qed.

Lemma seasonality_In (df : list Requisition) k v :
  In (k, v) (_analyze_seasonality df) <->
  exists m, In m months /\ month_group m df <> []
            /\ k = month_key m /\ v = seasonal_index m df.
Proof.
  unfold _analyze_seasonality. rewrite in_map_iff. split.
  - intros ([m avg] & Heq & Hin). injection Heq as <- <-.
    apply monthly_avg_In in Hin. destruct Hin as (Hm & Hne & ->).
    exists m. repeat split; assumption.
  - intros (m & Hm & Hne & -> & ->).
    exists (m, Float64.mean (map time_to_hire (month_group m df))).
    split; [reflexivity|]. apply monthly_avg_In. repeat split; assumption.
Qed.

Lemma monthly_avg_months (df : list Requisition) (ms : list Z) :
  map fst
    (flat_map (fun m =>
                 match filter (in_month m) df with
                 | [] => []
                 | g => [(m, Float64.mean (map time_to_hire g))]
                 end) ms)
  = filter (fun m => match filter (in_month m) df with
                     | [] => false
                     | _ => true
                     end) ms.
Proof.
  induction ms as [|m ms IH]; [reflexivity|].
  cbn [flat_map filter].
  destruct (filter (in_month m) df); [exact IH|].
  cbn [app map fst]. f_equal. exact IH.
Qed.

Lemma distinct_keys_kept {A B} (keep : A -> bool) (key : A -> B) (xs : list A)
    (Hdistinct : NoDup (map key xs)) :
  NoDup (map key (filter keep xs)).
Proof.
  induction xs as [|a xs IH]; simpl in *; [constructor|].
  inversion Hdistinct as [|? ? Hnotin Hnd]; subst.
  destruct (keep a); simpl; [|now apply IH].
  constructor; [|now apply IH].
  intros Hin. apply Hnotin. apply in_map_iff in Hin.
  destruct Hin as (x & Hx & Hin). apply filter_In in Hin.
  rewrite <- Hx. apply in_map, Hin.
Qed.

Lemma month_keys_distinct : NoDup (map month_key months).
Proof.
  vm_compute.
  repeat (constructor; [simpl; intuition discriminate|]). constructor.
Qed.

Lemma seasonality_keys_distinct (df : list Requisition) :
  NoDup (map fst (_analyze_seasonality df)).
Proof.
  unfold _analyze_seasonality. rewrite map_map.
  rewrite (map_ext _ (fun x => month_key (fst x))) by (intros [m a]; reflexivity).
  rewrite <- (map_map fst month_key).
  unfold monthly_avg. rewrite monthly_avg_months.
  apply distinct_keys_kept, month_keys_distinct.
Qed.

(** C9, as the code has it: the global mean is taken over all rows, the
    rows are grouped by month number, and every month that holds a row
    gets the entry [month_<m>] with value [month mean / global mean]; the
    keys are distinct.  The entry is produced whatever the global mean is:
    when the global mean is a zero, the value is an infinity or NaN. *)
Theorem seasonal_index_of_each_month (df : list Requisition) :
  (forall r, In r df ->
     In (month_key (Calendar.month (created_at r)),
         seasonal_index (Calendar.month (created_at r)) df)
        (_analyze_seasonality df))
  /\ (forall k v, In (k, v) (_analyze_seasonality df) ->
        exists m, (1 <= m <= 12) /\ month_group m df <> []
                  /\ k = month_key m /\ v = seasonal_index m df)
  /\ NoDup (map fst (_analyze_seasonality df))
  /\ (is_zero (Float64.mean (map time_to_hire df)) = true ->
        forall k v, In (k, v) (_analyze_seasonality df) -> is_finite v = false).
Proof.
  split; [|split; [|split]].
  - intros r Hr. apply seasonality_In.
    exists (Calendar.month (created_at r)).
    split; [apply month_in_months|]. split; [|split; reflexivity].
    intros Hnil.
    assert (Hin : In r (month_group (Calendar.month (created_at r)) df)).
    { apply filter_In. split; [exact Hr|]. unfold in_month. apply Z.eqb_refl. }
    rewrite Hnil in Hin. destruct Hin.
  - intros k v Hin. apply seasonality_In in Hin.
    destruct Hin as (m & Hm & Hne & -> & ->). exists m.
    split; [|repeat split; assumption].
    unfold months in Hm. simpl in Hm. lia.
  - apply seasonality_keys_distinct.
  - intros Hz k v Hin. apply seasonality_In in Hin.
    destruct Hin as (m & _ & _ & _ & ->).
    apply Float64Facts.div_zero_not_finite, Hz.
Qed.

(** C9 as stated fails when the global mean is 0: the month still gets an
    entry, whose value is NaN. *)
Lemma zero_global_mean_keeps_entry :
  Float64.mean
    (map time_to_hire
       [MetricsFacts.sample_requisition "r1" "open" 0%float 0 []]) = 0%float
  /\ exists v,
       _analyze_seasonality
         [MetricsFacts.sample_requisition "r1" "open" 0%float 0 []]
       = [("month_1"%string, v)]
       /\ is_nan v = true.
Proof.
  split; [vm_compute; reflexivity|].
  eexists. split; vm_compute; reflexivity.
Qed.

End TrendFacts.

(* ================================================================== *)
(** * Properties of the ETL service *)
(* ================================================================== *)

Module ETLFacts.

Import ETLService.
Local Open Scope Z_scope.
Local Open Scope etl_scope.

(** An environment whose stores answer and whose sinks accept: two
    requisitions, one candidate, no communication. *)
Definition sample_rows : list Requisition :=
  [MetricsFacts.sample_requisition "r1" "filled" 10%float 0 ["coq"%string];
   MetricsFacts.sample_requisition "r2" "open" 20%float 86400 []].

Definition sample_upstream : Upstream :=
  {| get_pg_pool := fun _ => Ok tt;
     get_mongo_db := fun _ => Ok tt;
     pg_acquire := fun _ => Ok tt;
     pg_cursor := fun _ _ _ => Ok [sample_rows];
     find_candidates := fun _ _ _ =>
       Ok [{| candidate_id := "c1"; skills := ["coq"%string];
              experience_years := 3; cand_created_at := 0 |}];
     find_communications := fun _ _ _ => Ok [] |}.

Definition sample_env : Env :=
  {| _chunk_size := 1000;
     _parallel_workers := 4;
     upstream := sample_upstream;
     sink_fault := fun _ _ => None;
     analyze_skills_data := fun _ => Ok [] |}.

Definition sample_range : DateRange := mkDateRange 0 2592000.

(** ** The extraction cache *)

Lemma range_key_eqb_refl k : range_key_eqb k k = true.
Proof. unfold range_key_eqb. now rewrite !Z.eqb_refl. Qed.

Section CacheFacts.

Variables K V : Type.
Variable eqb : K -> K -> bool.
Hypothesis eqb_refl : forall k, eqb k k = true.

Lemma assoc_fresh_last (key : K) (x : V * Z) (l : list (K * (V * Z))) :
  assoc eqb key
    (filter (fun e => negb (eqb key (fst e))) l ++ [(key, x)]) = Some x.
Proof.
  induction l as [|[k' y] l IH]; simpl.
  - now rewrite eqb_refl.
  - destruct (eqb key k') eqn:E; simpl; [exact IH|].
    rewrite E. exact IH.
Qed.

Lemma drop_key_twice (key : K) (x : V * Z) (l : list (K * (V * Z))) :
  filter (fun e => negb (eqb key (fst e)))
    (filter (fun e => negb (eqb key (fst e))) l ++ [(key, x)])
  = filter (fun e => negb (eqb key (fst e))) l.
Proof.
  rewrite filter_app; simpl. rewrite eqb_refl; simpl. rewrite app_nil_r.
  induction l as [|e l IH]; simpl; [reflexivity|].
  destruct (negb (eqb key (fst e))) eqn:E; simpl; [|exact IH].
  rewrite E. now rewrite IH.
Qed.

(** A link that is the most recently used stays where it is. *)
Lemma move_to_end_last (key : K) (x : V * Z) (l : list (K * (V * Z))) :
  TTLCache.move_to_end eqb key
    (filter (fun e => negb (eqb key (fst e))) l ++ [(key, x)])
  = filter (fun e => negb (eqb key (fst e))) l ++ [(key, x)].
Proof.
  unfold TTLCache.move_to_end.
  now rewrite assoc_fresh_last, drop_key_twice.
Qed.

Lemma move_to_end_again (key : K) (l : list (K * (V * Z))) :
  TTLCache.move_to_end eqb key (TTLCache.move_to_end eqb key l)
  = TTLCache.move_to_end eqb key l.
Proof.
  unfold TTLCache.move_to_end at 2 3.
  destruct (assoc eqb key l) as [x|] eqn:E.
  - apply move_to_end_last.
  - unfold TTLCache.move_to_end. now rewrite E.
Qed.

Lemma assoc_move_to_end (key : K) (l : list (K * (V * Z))) :
  assoc eqb key (TTLCache.move_to_end eqb key l) = assoc eqb key l.
Proof.
  unfold TTLCache.move_to_end.
  destruct (assoc eqb key l) as [x|] eqn:E; [|exact E].
  apply assoc_fresh_last.
Qed.

(** The cache a read of [key] leaves. *)
Definition touch (key : K) (c : TTLCache.t K V) : TTLCache.t K V :=
  snd (TTLCache.getitem eqb key 0 c).

Lemma getitem_touch key now (c : TTLCache.t K V) :
  snd (TTLCache.getitem eqb key now c) = touch key c.
Proof.
  unfold touch, TTLCache.getitem.
  now destruct (assoc eqb key (TTLCache.links c)) as [[v e]|].
Qed.

Lemma links_touch key (c : TTLCache.t K V) :
  TTLCache.links (touch key c) = TTLCache.move_to_end eqb key (TTLCache.links c)
  /\ TTLCache.maxsize (touch key c) = TTLCache.maxsize c
  /\ TTLCache.ttl (touch key c) = TTLCache.ttl c.
Proof.
  unfold touch, TTLCache.getitem, TTLCache.move_to_end.
  now destruct (assoc eqb key (TTLCache.links c)) as [[v e]|].
Qed.

Lemma touch_again key (c : TTLCache.t K V) :
  touch key (touch key c) = touch key c.
Proof.
  unfold touch, TTLCache.getitem.
  destruct (assoc eqb key (TTLCache.links c)) as [[v e]|] eqn:E; simpl.
  - rewrite assoc_move_to_end, E; simpl. now rewrite move_to_end_again.
  - now rewrite E.
Qed.

Lemma contains_touch key now (c : TTLCache.t K V) :
  TTLCache.contains eqb key now (touch key c)
  = TTLCache.contains eqb key now c.
Proof.
  unfold TTLCache.contains.
  destruct (links_touch key c) as (-> & _). now rewrite assoc_move_to_end.
Qed.

Lemma getitem_after_touch key now (c : TTLCache.t K V) :
  fst (TTLCache.getitem eqb key now (touch key c))
  = fst (TTLCache.getitem eqb key now c).
Proof.
  unfold TTLCache.getitem.
  destruct (links_touch key c) as (-> & _). rewrite assoc_move_to_end.
  now destruct (assoc eqb key (TTLCache.links c)) as [[v e]|].
Qed.

(** A read just after the write of the key finds the value while it lives
    and leaves the cache as the write left it. *)
Lemma getitem_setitem key v now now' (c : TTLCache.t K V) :
  TTLCache.getitem eqb key now' (TTLCache.setitem eqb key v now c)
  = (if now' <? now + TTLCache.ttl c then Some v else None,
     TTLCache.setitem eqb key v now c).
Proof.
  unfold TTLCache.getitem, TTLCache.setitem; simpl.
  now rewrite assoc_fresh_last, move_to_end_last.
Qed.

Lemma contains_setitem key v now now' (c : TTLCache.t K V) :
  TTLCache.contains eqb key now' (TTLCache.setitem eqb key v now c)
  = (now' <? now + TTLCache.ttl c).
Proof.
  unfold TTLCache.contains, TTLCache.setitem; simpl.
  now rewrite assoc_fresh_last.
Qed.

Lemma contains_getitem key now (c : TTLCache.t K V) :
  TTLCache.contains eqb key now c = true ->
  exists v, TTLCache.getitem eqb key now c = (Some v, touch key c).
Proof.
  intros H. rewrite <- (getitem_touch key now c). revert H.
  unfold TTLCache.contains, TTLCache.getitem.
  destruct (assoc eqb key (TTLCache.links c)) as [[v e]|]; [|discriminate].
  intros ->. now exists v.
Qed.

Lemma contains_earlier key now dt (c : TTLCache.t K V) :
  0 <= dt ->
  TTLCache.contains eqb key (now + dt) c = true ->
  TTLCache.contains eqb key now c = true
  /\ TTLCache.getitem eqb key (now + dt) c = TTLCache.getitem eqb key now c.
Proof.
  unfold TTLCache.contains, TTLCache.getitem. intros Hdt.
  destruct (assoc eqb key (TTLCache.links c)) as [[v e]|]; [|discriminate].
  intros H. apply Z.ltb_lt in H.
  assert (Hn : (now <? e) = true) by (apply Z.ltb_lt; lia).
  assert (Hd : (now + dt <? e) = true) by (apply Z.ltb_lt; lia).
  now rewrite Hn, Hd.
Qed.

End CacheFacts.

Arguments touch {K V} eqb key c.

(** A call that finds the key in the cache returns the cached bundle; the
    read makes the link of the key the most recently used and nothing
    else changes. *)
Lemma extract_hit env r cs w :
  TTLCache.contains range_key_eqb (extract_cache_key r) (clock w) (_cache w)
    = true ->
  exists b,
    fst (TTLCache.getitem range_key_eqb (extract_cache_key r) (clock w)
           (_cache w)) = Some b
    /\ extract_recruitment_data env r cs w
       = (Ok b,
          set_cache (touch range_key_eqb (extract_cache_key r) (_cache w)) w).
Proof.
  intros Hc. pose proof Hc as Hg.
  apply contains_getitem in Hg.
  destruct Hg as [b Hb]. exists b. rewrite Hb. split; [reflexivity|].
  unfold extract_recruitment_data. now rewrite Hc, Hb.
Qed.

(** A call that misses and succeeds has cached what it returns, at the
    instant of the call; only the cache and the count of store accesses
    changed. *)
Lemma extract_miss env r cs w b w1 :
  TTLCache.contains range_key_eqb (extract_cache_key r) (clock w) (_cache w)
    = false ->
  extract_recruitment_data env r cs w = (Ok b, w1) ->
  clock w1 = clock w
  /\ _cache w1
     = TTLCache.setitem range_key_eqb (extract_cache_key r) b (clock w) (_cache w)
  /\ store_calls w1 = (store_calls w + 6)%nat.
Proof.
  intros Hc. unfold extract_recruitment_data. rewrite Hc.
  unfold reraise, extract_from_stores, bind, store_call, cache_store, ret.
  simpl.
  destruct (get_pg_pool _ _); [|discriminate].
  destruct (get_mongo_db _ _); [|discriminate].
  destruct (pg_acquire _ _); [|discriminate].
  destruct (pg_cursor _ _ _ _); [|discriminate].
  destruct (find_candidates _ _ _ _); [|discriminate].
  destruct (find_communications _ _ _ _); [|discriminate].
  intros H. injection H as <- <-. simpl.
  repeat split. lia.
Qed.

(** C7, as the code has it: when [extract(r)] has returned a bundle, a
    second [extract(r)] within the time to live of the cached entry
    returns the same bundle and changes nothing: no store is accessed and
    no counter moves. *)
Theorem extract_twice_within_ttl (env : Env) (r : DateRange)
    (cs1 cs2 : option Z) (w w1 : World) (b : RawData) (dt : Z) :
  extract_recruitment_data env r cs1 w = (Ok b, w1) ->
  0 <= dt ->
  (TTLCache.contains range_key_eqb (extract_cache_key r) (clock w) (_cache w)
     = false
   /\ dt < TTLCache.ttl (_cache w))
  \/ TTLCache.contains range_key_eqb (extract_cache_key r) (clock w + dt)
       (_cache w) = true ->
  extract_recruitment_data env r cs2 (advance dt w1) = (Ok b, advance dt w1)
  /\ store_calls (snd (extract_recruitment_data env r cs2 (advance dt w1)))
     = store_calls w1
  /\ processor (snd (extract_recruitment_data env r cs2 (advance dt w1)))
     = processor w1.
Proof.
  intros H1 Hdt Hlive.
  assert (Hsecond :
    extract_recruitment_data env r cs2 (advance dt w1) = (Ok b, advance dt w1)).
  { destruct Hlive as [[Hmiss Httl]|Hhit].
    - destruct (extract_miss env r cs1 w Hmiss H1) as (Hclk & Hcache & _).
      unfold extract_recruitment_data; simpl.
      rewrite Hclk, Hcache.
      rewrite contains_setitem by apply range_key_eqb_refl.
      rewrite getitem_setitem by apply range_key_eqb_refl.
      assert (Hlt : (clock w + dt <? clock w + TTLCache.ttl (_cache w)) = true)
        by (apply Z.ltb_lt; lia).
      rewrite Hlt. unfold set_cache, advance; simpl.
      now rewrite Hclk, Hcache.
    - pose proof Hhit as Hearly.
      apply contains_earlier in Hearly; [|exact Hdt].
      destruct Hearly as [Hnow Hget].
      destruct (extract_hit env r cs1 w Hnow) as (b' & Hb' & Hcall).
      rewrite Hcall in H1. injection H1 as -> <-.
      unfold extract_recruitment_data; simpl.
      rewrite contains_touch by apply range_key_eqb_refl.
      rewrite Hhit.
      pose proof (getitem_after_touch range_key_eqb range_key_eqb_refl
                    (extract_cache_key r) (clock w + dt) (_cache w)) as Hfst.
      pose proof (getitem_touch range_key_eqb (extract_cache_key r)
                    (clock w + dt)
                    (touch range_key_eqb (extract_cache_key r) (_cache w)))
        as Hsnd.
      rewrite touch_again in Hsnd by apply range_key_eqb_refl.
      rewrite Hget, Hb' in Hfst.
      destruct (TTLCache.getitem range_key_eqb (extract_cache_key r)
                  (clock w + dt)
                  (touch range_key_eqb (extract_cache_key r) (_cache w)))
        as [o c']. simpl in Hfst, Hsnd. subst o c'. reflexivity. }
  rewrite Hsecond. simpl. auto.
Qed.

Lemma extract_twice_within_ttl_witness :
  exists b w1,
    extract_recruitment_data sample_env sample_range None (init 0) = (Ok b, w1)
    /\ store_calls w1 = 6%nat
    /\ extract_recruitment_data sample_env sample_range None (advance 3599 w1)
       = (Ok b, advance 3599 w1).
Proof.
  eexists _, _. split; [vm_compute; reflexivity|]. split; [reflexivity|].
  refine (proj1 (@extract_twice_within_ttl sample_env sample_range None None
                   (init 0) _ _ 3599 _ _ _)).
  - vm_compute. reflexivity.
  - lia.
  - left. split; [reflexivity|vm_compute; reflexivity].
Defined.

(** C7 as stated fails on the hit counter: the extraction cache keeps
    none, and the counters of the metrics processor, the only ones the
    service holds, stay at zero through both calls. *)
Lemma second_extract_counts_no_hit :
  exists b w1 w2,
    extract_recruitment_data sample_env sample_range None (init 0) = (Ok b, w1)
    /\ extract_recruitment_data sample_env sample_range None (advance 10 w1)
       = (Ok b, w2)
    /\ store_calls w2 = store_calls w1
    /\ MetricsProcessor.get_processing_stats (processor w1) = (0, 0, 0)%nat
    /\ MetricsProcessor.get_processing_stats (processor w2) = (0, 0, 0)%nat.
Proof.
  eexists _, _, _. split; [vm_compute; reflexivity|].
  split; [vm_compute; reflexivity|].
  repeat split.
Qed.

(** ** Fan-out and fan-in of the transformation *)

Lemma gathered_first_failure {A} (rs : list (result A)) i e :
  nth_error rs i = Some (Raise e) ->
  exists j e0,
    (j <= i)%nat
    /\ nth_error rs j = Some (Raise e0)
    /\ (forall k, (k < j)%nat -> exists a, nth_error rs k = Some (Ok a))
    /\ gathered rs = Raise e0.
Proof.
  revert i. induction rs as [|r rs IH]; intros i Hi.
  - destruct i; discriminate.
  - destruct r as [a|e1].
    + destruct i as [|i]; [discriminate|]. simpl in Hi.
      destruct (IH i Hi) as (j & e0 & Hj & Hnth & Hbefore & Hg).
      exists (S j), e0.
      split; [lia|]. split; [exact Hnth|]. split.
      * intros [|k] Hk; [now exists a|]. apply Hbefore. lia.
      * simpl. now rewrite Hg.
    + exists 0%nat, e1.
      split; [lia|]. split; [reflexivity|]. split; [|reflexivity].
      intros k Hk. lia.
Qed.

Lemma transform_unfold env raw pw w req_chunks cand_chunks :
  array_split (requisitions raw) (py_or pw (_parallel_workers env))
    = Ok req_chunks ->
  array_split (candidates raw) (py_or pw (_parallel_workers env))
    = Ok cand_chunks ->
  fst (transform_metrics_data env raw pw w)
  = match gathered
            (fst (run_tasks
                    (chunk_tasks env raw (py_or pw (_parallel_workers env))
                       req_chunks cand_chunks) w)) with
    | Ok processed_chunks =>
        Ok {| recruitment_metrics := concat (map out_metrics processed_chunks);
              skill_analytics := concat (map out_skills processed_chunks);
              time_to_hire_analytics :=
                concat (map out_time_to_hire processed_chunks) |}
    | Raise e => Raise (wrap_transform_error e)
    end.
Proof.
  intros Hr Hc. unfold transform_metrics_data, reraise, bind, lift, gather, ret.
  rewrite Hr, Hc.
  destruct (run_tasks _ w) as [rs w']. simpl.
  destruct (gathered rs); reflexivity.
Qed.

(** C5: if the task of any chunk fails, the transformation raises the
    wrapped error of the first task that failed, and returns no bundle,
    whatever the other tasks produced. *)
Theorem transform_all_or_nothing (env : Env) (raw : RawData)
    (pw : option Z) (w : World)
    (req_chunks : list (list Requisition))
    (cand_chunks : list (list Candidate)) (i : nat) (e : exn) :
  array_split (requisitions raw) (py_or pw (_parallel_workers env))
    = Ok req_chunks ->
  array_split (candidates raw) (py_or pw (_parallel_workers env))
    = Ok cand_chunks ->
  nth_error
    (fst (run_tasks
            (chunk_tasks env raw (py_or pw (_parallel_workers env))
               req_chunks cand_chunks) w)) i = Some (Raise e) ->
  exists j e0,
    (j <= i)%nat
    /\ nth_error
         (fst (run_tasks
                 (chunk_tasks env raw (py_or pw (_parallel_workers env))
                    req_chunks cand_chunks) w)) j = Some (Raise e0)
    /\ (forall k, (k < j)%nat ->
          exists out,
            nth_error
              (fst (run_tasks
                      (chunk_tasks env raw (py_or pw (_parallel_workers env))
                         req_chunks cand_chunks) w)) k = Some (Ok out))
    /\ fst (transform_metrics_data env raw pw w)
       = Raise (wrap_transform_error e0)
    /\ is_ok (fst (transform_metrics_data env raw pw w)) = false.
Proof.
  intros Hr Hc Hi.
  destruct (gathered_first_failure _ _ Hi) as (j & e0 & Hj & Hnth & Hbefore & Hg).
  exists j, e0.
  rewrite (transform_unfold env raw pw w Hr Hc), Hg.
  split; [exact Hj|]. split; [exact Hnth|]. split; [exact Hbefore|].
  split; reflexivity.
Qed.

Definition sample_raw : RawData :=
  {| requisitions := sample_rows; candidates := []; communications := [] |}.

Lemma transform_all_or_nothing_witness :
  exists e0,
    fst (transform_metrics_data sample_env sample_raw None (init 0))
    = Raise (wrap_transform_error e0)
    /\ is_ok (fst (transform_metrics_data sample_env sample_raw None (init 0)))
       = false.
Proof.
  destruct (@transform_all_or_nothing sample_env sample_raw None (init 0)
              [[MetricsFacts.sample_requisition "r1" "filled" 10%float 0
                  ["coq"%string]];
               [MetricsFacts.sample_requisition "r2" "open" 20%float 86400 []];
               []; []]
              [[]; []; []; []] 3
              (MetricsProcessor.wrap_processing_error
                 (MetricsProcessor.astype_error "requisition_id"))
              ltac:(vm_compute; reflexivity)
              ltac:(vm_compute; reflexivity)
              ltac:(vm_compute; reflexivity))
    as (j & e0 & _ & _ & _ & Hraise & Hnot).
  exists e0. split; assumption.
Defined.

(** With as many rows as workers every task has a row, and every task
    stops at the merge of its processor: the transformation raises, two
    misses are counted and no row counts as processed. *)
Example transform_with_enough_rows_raises :
  exists w',
    transform_metrics_data sample_env sample_raw (Some 2) (init 0)
    = (Raise (mkExn Exception_
                "Error transforming metrics data: Error processing recruitment metrics: 'MetricsProcessor' object has no attribute '_combine_processed_chunks'"),
       w')
    /\ MetricsProcessor.get_processing_stats (processor w') = (0, 2, 0)%nat.
Proof. eexists. split; [vm_compute; reflexivity|reflexivity]. Qed.

(** The processor counts no hit when the same rows come again within its
    time to live: the first call raised before it cached anything. *)
Example processor_counts_no_hit :
  exists e st1 st2,
    MetricsProcessor.process_recruitment_metrics sample_rows
      weekly true 0 (MetricsProcessor.init 300) = (Raise e, st1)
    /\ MetricsProcessor.process_recruitment_metrics sample_rows
         weekly true 299 st1 = (Raise e, st2)
    /\ exn_cls e = ValueError
    /\ MetricsProcessor.get_processing_stats st1 = (0, 1, 0)%nat
    /\ MetricsProcessor.get_processing_stats st2 = (0, 2, 0)%nat.
Proof.
  eexists _, _, _. split; [vm_compute; reflexivity|].
  split; [vm_compute; reflexivity|]. repeat split.
Qed.

(** ** Chunks without rows *)

(** No entry of the processor's cache is keyed by an empty list of rows. *)
Definition processor_ok (st : MetricsProcessor.State) : Prop :=
  forall level,
    assoc MetricsProcessor.cache_key_eqb (level, [])
      (MetricsProcessor._cache_timestamps st) = None.

Lemma processor_ok_init ttl : processor_ok (MetricsProcessor.init ttl).
Proof. intros level. reflexivity. Qed.

Lemma process_recruitment_metrics_ok raw level use_cache now st :
  processor_ok st ->
  processor_ok
    (snd (MetricsProcessor.process_recruitment_metrics
            raw level use_cache now st)).
Proof.
  intros Hok. unfold MetricsProcessor.process_recruitment_metrics.
  destruct (use_cache && MetricsProcessor._is_cache_valid (level, raw) now st).
  - destruct (assoc _ _ _); exact Hok.
  - destruct raw as [|r raw]; [exact Hok|].
    destruct (mapM _ _); exact Hok.
Qed.

(** With such a cache, processing no row raises. *)
Lemma process_no_rows_raises level now st :
  processor_ok st ->
  fst (MetricsProcessor.process_recruitment_metrics
         [] level true now st)
  = Raise (MetricsProcessor.wrap_processing_error
             (MetricsProcessor.astype_error "requisition_id")).
Proof.
  intros Hok. unfold MetricsProcessor.process_recruitment_metrics,
    MetricsProcessor._is_cache_valid.
  rewrite (Hok level). reflexivity.
Qed.

Lemma chunk_task_ok env req cand comm w :
  processor_ok (processor w) ->
  processor_ok (processor (snd (_process_metrics_chunk env req cand comm w))).
Proof.
  intros Hok.
  unfold _process_metrics_chunk, bind, process_recruitment_metrics, lift, ret.
  pose proof (@process_recruitment_metrics_ok req weekly true
                (clock w) (processor w) Hok) as Hnext.
  destruct (MetricsProcessor.process_recruitment_metrics _ _ _ _ _)
    as [[m|e] st]; simpl in *; [|exact Hnext].
  destruct (analyze_skills_data env cand); simpl; [|exact Hnext].
  destruct (chunk_range req); simpl; [|exact Hnext].
  destruct (MetricsProcessor.analyze_time_to_hire _ _ _); exact Hnext.
Qed.

Lemma chunk_task_no_rows env cand comm w :
  processor_ok (processor w) ->
  fst (_process_metrics_chunk env [] cand comm w)
  = Raise (MetricsProcessor.wrap_processing_error
             (MetricsProcessor.astype_error "requisition_id")).
Proof.
  intros Hok.
  unfold _process_metrics_chunk, bind, process_recruitment_metrics.
  pose proof (@process_no_rows_raises weekly (clock w)
                (processor w) Hok) as Hfail.
  destruct (MetricsProcessor.process_recruitment_metrics _ _ _ _ _)
    as [r st]; simpl in *. now rewrite Hfail.
Qed.

(** The result of the [i]-th task is what that task returns in the world
    the earlier ones left. *)
Lemma run_tasks_nth {A} (P : World -> Prop) (tasks : list (M A)) :
  (forall t w, In t tasks -> P w -> P (snd (t w))) ->
  forall w i t,
    P w ->
    nth_error tasks i = Some t ->
    exists w', P w' /\ nth_error (fst (run_tasks tasks w)) i = Some (fst (t w')).
Proof.
  induction tasks as [|t0 tasks IH]; intros Hpres w i t Hw Hi.
  - destruct i; discriminate.
  - simpl. destruct (t0 w) as [r0 w0] eqn:E0.
    destruct (run_tasks tasks w0) as [rs w1] eqn:E1. simpl.
    destruct i as [|i].
    + injection Hi as <-. exists w. split; [exact Hw|]. now rewrite E0.
    + simpl in Hi.
      assert (Hw0 : P w0).
      { pose proof (Hpres t0 w (or_introl eq_refl) Hw) as H.
        now rewrite E0 in H. }
      destruct (IH (fun t' w' Hin => Hpres t' w' (or_intror Hin)) w0 i t Hw0 Hi)
        as (w' & Hw' & Hnth).
      exists w'. split; [exact Hw'|]. now rewrite E1 in Hnth.
Qed.

Lemma split_sizes_empty_part {A} (sizes : list nat) (l : list A) i :
  nth i sizes 0%nat = 0%nat -> nth i (split_sizes sizes l) [] = [].
Proof.
  revert l i. induction sizes as [|n sizes IH]; intros l i Hi.
  - destruct i; reflexivity.
  - destruct i as [|i]; simpl in *.
    + now subst n.
    + now apply IH.
Qed.

(** With fewer rows than sections, the section numbered by the row count
    is empty. *)
Lemma array_split_short {A} (df : list A) (sections : Z) :
  Z.of_nat (length df) < sections ->
  exists chunks,
    array_split df sections = Ok chunks
    /\ nth (length df) chunks [] = [].
Proof.
  intros Hlt. unfold array_split.
  destruct (Z.leb_spec sections 0) as [Hle|Hpos]; [lia|].
  eexists. split; [reflexivity|].
  assert (Hk : (length df < Z.to_nat sections)%nat) by lia.
  rewrite (Nat.div_small _ _ Hk), (Nat.mod_small _ _ Hk).
  apply split_sizes_empty_part.
  rewrite app_nth2 by (rewrite repeat_length; lia).
  rewrite repeat_length, Nat.sub_diag.
  destruct (Z.to_nat sections - length df)%nat eqn:E; [lia|reflexivity].
Qed.

Lemma array_split_defined {A} (df : list A) (sections : Z) :
  0 < sections -> exists chunks, array_split df sections = Ok chunks.
Proof.
  intros Hpos. unfold array_split.
  destruct (Z.leb_spec sections 0) as [Hle|_]; [lia|]. eexists. reflexivity.
Qed.

Lemma nth_error_map_seq {A} (f : nat -> A) (n i : nat) :
  (i < n)%nat -> nth_error (map f (seq 0 n)) i = Some (f i).
Proof.
  intros Hi. rewrite nth_error_map, nth_error_seq.
  destruct (Nat.ltb_spec i n); [reflexivity|lia].
Qed.

(** C10: a bundle with fewer requisitions than workers, in particular one
    with none, makes the transformation raise: a chunk has no row, and
    processing no row fails.  (The cache of the processor never holds an
    entry for an empty list of rows: [processor_ok] holds of a new
    service and is kept by every call.) *)
Theorem transform_fails_below_worker_count (env : Env) (raw : RawData)
    (pw : option Z) (w : World) :
  processor_ok (processor w) ->
  requisitions raw = []
  \/ Z.of_nat (length (requisitions raw)) < py_or pw (_parallel_workers env) ->
  exists e,
    fst (transform_metrics_data env raw pw w) = Raise (wrap_transform_error e)
    /\ is_ok (fst (transform_metrics_data env raw pw w)) = false.
Proof.
  intros Hok Hshort.
  destruct (Z.leb_spec (py_or pw (_parallel_workers env)) 0) as [Hle|Hpos].
  - (* no section to split into *)
    assert (Hsplit : array_split (requisitions raw)
                       (py_or pw (_parallel_workers env))
                     = Raise (mkExn ValueError
                                "number sections must be larger than 0.")).
    { unfold array_split.
      destruct (Z.leb_spec (py_or pw (_parallel_workers env)) 0); [reflexivity|lia]. }
    eexists. unfold transform_metrics_data, reraise, bind, lift.
    rewrite Hsplit. split; reflexivity.
  - assert (Hlt : Z.of_nat (length (requisitions raw))
                  < py_or pw (_parallel_workers env)).
    { destruct Hshort as [->|H]; [simpl; lia|exact H]. }
    destruct (array_split_short (requisitions raw) Hlt)
      as (req_chunks & Hreq & Hempty).
    destruct (array_split_defined (candidates raw) Hpos) as (cand_chunks & Hcand).
    set (i := length (requisitions raw)) in *.
    assert (Hi : (i < Z.to_nat (py_or pw (_parallel_workers env)))%nat) by lia.
    destruct (@run_tasks_nth ChunkOutput
                (fun w => processor_ok (processor w))
                (chunk_tasks env raw (py_or pw (_parallel_workers env))
                   req_chunks cand_chunks))
      with (w := w) (i := i)
           (t := _process_metrics_chunk env (nth i req_chunks [])
                   (nth i cand_chunks []) (communications raw))
      as (w' & Hw' & Hnth).
    + intros t w0 Hin Hw0. unfold chunk_tasks in Hin.
      apply in_map_iff in Hin. destruct Hin as (j & <- & _).
      now apply chunk_task_ok.
    + exact Hok.
    + unfold chunk_tasks.
      now apply (nth_error_map_seq
                   (fun j => _process_metrics_chunk env (nth j req_chunks [])
                               (nth j cand_chunks []) (communications raw))).
    + rewrite Hempty, (chunk_task_no_rows env _ _ w' Hw') in Hnth.
      destruct (gathered_first_failure _ _ Hnth) as (j & e0 & _ & _ & _ & Hg).
      exists e0.
      rewrite (transform_unfold env raw pw w Hreq Hcand), Hg.
      split; reflexivity.
Qed.

Lemma transform_fails_below_worker_count_witness :
  exists e,
    fst (transform_metrics_data sample_env sample_raw None (init 0))
    = Raise (wrap_transform_error e).
Proof.
  destruct (@transform_fails_below_worker_count sample_env sample_raw None
              (init 0) (processor_ok_init 300)
              ltac:(right; vm_compute; reflexivity))
    as (e & He & _).
  exists e. exact He.
Defined.

(** The service keeps [processor_ok]. *)
Lemma transform_keeps_processor_ok env raw pw w :
  processor_ok (processor w) ->
  processor_ok (processor (snd (transform_metrics_data env raw pw w))).
Proof.
  intros Hok.
  unfold transform_metrics_data, reraise, bind, lift, gather, ret.
  destruct (array_split (requisitions raw) _) as [req_chunks|]; [|exact Hok].
  destruct (array_split (candidates raw) _) as [cand_chunks|]; [|exact Hok].
  assert (Hrun : forall tasks w0,
             (forall t, In t tasks ->
                forall w1, processor_ok (processor w1) ->
                           processor_ok (processor (snd (t w1)))) ->
             processor_ok (processor w0) ->
             processor_ok (processor (snd (@run_tasks ChunkOutput tasks w0)))).
  { induction tasks as [|t tasks IH]; intros w0 Ht Hw0; [exact Hw0|].
    simpl. pose proof (Ht t (or_introl eq_refl) w0 Hw0) as H1.
    destruct (t w0) as [r1 w1]. simpl in H1.
    pose proof (IH w1 (fun t' Hin => Ht t' (or_intror Hin)) H1) as H2.
    destruct (run_tasks tasks w1) as [rs w2]. exact H2. }
  pose proof (Hrun (chunk_tasks env raw (py_or pw (_parallel_workers env))
                      req_chunks cand_chunks) w) as Hfinal.
  destruct (run_tasks _ w) as [rs w']. simpl in *.
  assert (Hw' : processor_ok (processor w')).
  { apply Hfinal; [|exact Hok]. intros t Hin w1 Hw1.
    unfold chunk_tasks in Hin. apply in_map_iff in Hin.
    destruct Hin as (j & <- & _). now apply chunk_task_ok. }
  destruct (gathered rs); exact Hw'.
Qed.

(** ** The loader *)

(** The rows of the two relational tables. *)
Definition tables (s : Sinks) : list (list cell) * list (list cell) :=
  (pg_recruitment_metrics s, pg_skill_metrics s).

Ltac sink_step env :=
  match goal with
  | |- context [sink_fault env ?op ?n] =>
      let E := fresh "Efault" in
      destruct (sink_fault env op n) eqn:E; cbn -[mapM app]
  end.

Ltac close_log :=
  rewrite <- ?app_assoc; cbn [app];
  eexists; split; [reflexivity|].

(** C6: the two inserts are committed together or not at all.  Unless
    both inserts and the commit succeed, the load fails, the tables are
    as before, the rows of the transaction are dropped and the search sink
    gets no bulk request.  The bulk index comes right after the successful
    commit; if it fails the load fails and the committed rows stay. *)
Theorem load_commits_then_indexes (env : Env) (processed_data : ProcessedData)
    (w : World) :
  let r := fst (load_analytics_data env processed_data w) in
  let s := sinks w in
  let s' := sinks (snd (load_analytics_data env processed_data w)) in
  exists ops,
    sink_log s' = sink_log s ++ ops
    /\ ((* the transaction did not commit *)
        (~ In (OpCommit, true) ops
         /\ is_ok r = false
         /\ tables s' = tables s
         /\ (In (OpBegin, true) ops -> pending s' = None)
         /\ es_recruitment_analytics s' = es_recruitment_analytics s
         /\ forall b, ~ In (OpBulk, b) ops)
        \/
        (* it committed, and the bulk index ran next *)
        (exists metrics_rows skill_rows before indexed,
           ops = before ++ [(OpCommit, true); (OpBulk, indexed)]
           /\ In (OpInsertMetrics, true) before
           /\ In (OpInsertSkills, true) before
           /\ (forall b, ~ In (OpBulk, b) before)
           /\ mapM (columns metrics_columns) (recruitment_metrics processed_data)
              = Ok metrics_rows
           /\ mapM (columns skill_columns) (skill_analytics processed_data)
              = Ok skill_rows
           /\ tables s'
              = (pg_recruitment_metrics s ++ metrics_rows,
                 pg_skill_metrics s ++ skill_rows)
           /\ pending s' = None
           /\ (indexed = false ->
                 is_ok r = false
                 /\ es_recruitment_analytics s' = es_recruitment_analytics s)
           /\ (indexed = true ->
                 r = Ok true
                 /\ es_recruitment_analytics s'
                    = es_recruitment_analytics s
                        ++ recruitment_metrics processed_data))).
Proof.
  cbv zeta.
  unfold load_analytics_data, reraise, transaction, executemany_metrics,
    executemany_skills, bulk, bind, lift, ret, update_sinks, sink_op.
  cbn -[mapM app].
  sink_step env.
  { close_log. left. simpl. intuition (try discriminate; auto). }
  sink_step env.
  { close_log. left. simpl. intuition (try discriminate; auto). }
  sink_step env.
  { close_log. left. simpl. intuition (try discriminate; auto). }
  sink_step env.
  { close_log. left. simpl. intuition (try discriminate; auto). }
  destruct (mapM (columns metrics_columns) (recruitment_metrics processed_data))
    as [metrics_rows|e1] eqn:Em; cbn -[mapM app].
  2:{ close_log. left. simpl. intuition (try discriminate; auto). }
  sink_step env.
  { close_log. left. simpl. intuition (try discriminate; auto). }
  destruct (mapM (columns skill_columns) (skill_analytics processed_data))
    as [skill_rows|e2] eqn:Es; cbn -[mapM app].
  2:{ close_log. left. simpl. intuition (try discriminate; auto). }
  sink_step env.
  { close_log. left. simpl. intuition (try discriminate; auto). }
  sink_step env.
  { close_log. left. simpl. intuition (try discriminate; auto). }
  sink_step env.
  - close_log. right.
    exists metrics_rows, skill_rows,
      [(OpGetPgPool, true); (OpGetClient, true); (OpAcquire, true);
       (OpBegin, true); (OpInsertMetrics, true); (OpInsertSkills, true)],
      false.
    unfold tables. simpl. rewrite ?app_nil_r.
    intuition (try discriminate; auto).
  - close_log. right.
    exists metrics_rows, skill_rows,
      [(OpGetPgPool, true); (OpGetClient, true); (OpAcquire, true);
       (OpBegin, true); (OpInsertMetrics, true); (OpInsertSkills, true)],
      true.
    unfold tables. simpl. rewrite ?app_nil_r.
    intuition (try discriminate; auto).
Qed.

(** ** What each stage touches *)

Lemma extract_frame env r cs w :
  let w' := snd (extract_recruitment_data env r cs w) in
  sleeps w' = sleeps w
  /\ sinks w' = sinks w
  /\ processor w' = processor w
  /\ stdout w' = stdout w
  /\ clock w' = clock w
  /\ (store_calls w <= store_calls w' <= store_calls w + 6)%nat.
Proof.
  cbv zeta. unfold extract_recruitment_data.
  destruct (TTLCache.contains _ _ _ _).
  - destruct (TTLCache.getitem _ _ _ _) as [[b|] c]; simpl; repeat split; lia.
  - unfold reraise, extract_from_stores, bind, store_call, cache_store, ret.
    simpl.
    destruct (get_pg_pool _ _); [|simpl; repeat split; lia].
    destruct (get_mongo_db _ _); [|simpl; repeat split; lia].
    destruct (pg_acquire _ _); [|simpl; repeat split; lia].
    destruct (pg_cursor _ _ _ _); [|simpl; repeat split; lia].
    destruct (find_candidates _ _ _ _); [|simpl; repeat split; lia].
    destruct (find_communications _ _ _ _); simpl; repeat split; lia.
Qed.

(** An extraction that raises raises the wrapped error of a store. *)
Lemma extract_error_tagged env r cs w e :
  fst (extract_recruitment_data env r cs w) = Raise e ->
  exists e', e = wrap_extract_error e'.
Proof.
  unfold extract_recruitment_data.
  destruct (TTLCache.contains _ _ _ _) eqn:Ec.
  - apply contains_getitem in Ec. destruct Ec as [b ->]. simpl. discriminate.
  - unfold reraise.
    destruct (extract_from_stores env r _ w) as [[b|e'] w']; simpl;
      [discriminate|].
    intros H. injection H as <-. now exists e'.
Qed.

Lemma chunk_task_frame env req cand comm w :
  exists st, snd (_process_metrics_chunk env req cand comm w) = set_processor st w.
Proof.
  unfold _process_metrics_chunk, bind, process_recruitment_metrics, lift, ret.
  destruct (MetricsProcessor.process_recruitment_metrics _ _ _ _ _)
    as [[m|e] st]; [|now exists st].
  destruct (analyze_skills_data env cand); [|now exists st].
  destruct (chunk_range req); [|now exists st].
  destruct (MetricsProcessor.analyze_time_to_hire _ _ _); now exists st.
Qed.

Lemma set_processor_twice st1 st2 w :
  set_processor st2 (set_processor st1 w) = set_processor st2 w.
Proof. reflexivity. Qed.

Lemma set_processor_same w : set_processor (processor w) w = w.
Proof. destruct w; reflexivity. Qed.

Lemma run_tasks_frame {A} (tasks : list (M A)) :
  (forall t, In t tasks -> forall w, exists st, snd (t w) = set_processor st w) ->
  forall w, exists st, snd (run_tasks tasks w) = set_processor st w.
Proof.
  induction tasks as [|t tasks IH]; intros Ht w.
  - exists (processor w). simpl. symmetry. apply set_processor_same.
  - simpl. destruct (Ht t (or_introl eq_refl) w) as [st1 H1].
    destruct (t w) as [r1 w1]. simpl in H1. subst w1.
    destruct (IH (fun t' Hin => Ht t' (or_intror Hin)) (set_processor st1 w))
      as [st2 H2].
    destruct (run_tasks tasks (set_processor st1 w)) as [rs w2].
    simpl in *. subst w2. now exists st2.
Qed.

Lemma transform_frame env raw pw w :
  exists st, snd (transform_metrics_data env raw pw w) = set_processor st w.
Proof.
  unfold transform_metrics_data, reraise, bind, lift, gather, ret.
  destruct (array_split (requisitions raw) _) as [req_chunks|];
    [|exists (processor w); symmetry; apply set_processor_same].
  destruct (array_split (candidates raw) _) as [cand_chunks|];
    [|exists (processor w); symmetry; apply set_processor_same].
  destruct (@run_tasks_frame ChunkOutput
              (chunk_tasks env raw (py_or pw (_parallel_workers env))
                 req_chunks cand_chunks)) with (w := w) as [st Hst].
  { intros t Hin w0. unfold chunk_tasks in Hin. apply in_map_iff in Hin.
    destruct Hin as (j & <- & _). apply chunk_task_frame. }
  destruct (run_tasks _ w) as [rs w']. simpl in *. subst w'.
  exists st. destruct (gathered rs); reflexivity.
Qed.

Lemma transform_error_tagged env raw pw w e :
  fst (transform_metrics_data env raw pw w) = Raise e ->
  exists e', e = wrap_transform_error e'.
Proof.
  unfold transform_metrics_data, reraise.
  match goal with
  | |- context [bind ?m ?k w] => destruct (bind m k w) as [[pd|e'] w']
  end; simpl; [discriminate|].
  intros H. injection H as <-. now exists e'.
Qed.

(** The operations one load attempts, in order: there are eleven ways a
    load can go. *)
Definition load_logs : list (list (SinkOp * bool)) :=
  [ [(OpGetPgPool, false)];
    [(OpGetPgPool, true); (OpGetClient, false)];
    [(OpGetPgPool, true); (OpGetClient, true); (OpAcquire, false)];
    [(OpGetPgPool, true); (OpGetClient, true); (OpAcquire, true);
     (OpBegin, false)];
    [(OpGetPgPool, true); (OpGetClient, true); (OpAcquire, true);
     (OpBegin, true); (OpRollback, true)];
    [(OpGetPgPool, true); (OpGetClient, true); (OpAcquire, true);
     (OpBegin, true); (OpInsertMetrics, false); (OpRollback, true)];
    [(OpGetPgPool, true); (OpGetClient, true); (OpAcquire, true);
     (OpBegin, true); (OpInsertMetrics, true); (OpRollback, true)];
    [(OpGetPgPool, true); (OpGetClient, true); (OpAcquire, true);
     (OpBegin, true); (OpInsertMetrics, true); (OpInsertSkills, false);
     (OpRollback, true)];
    [(OpGetPgPool, true); (OpGetClient, true); (OpAcquire, true);
     (OpBegin, true); (OpInsertMetrics, true); (OpInsertSkills, true);
     (OpCommit, false)];
    [(OpGetPgPool, true); (OpGetClient, true); (OpAcquire, true);
     (OpBegin, true); (OpInsertMetrics, true); (OpInsertSkills, true);
     (OpCommit, true); (OpBulk, false)];
    [(OpGetPgPool, true); (OpGetClient, true); (OpAcquire, true);
     (OpBegin, true); (OpInsertMetrics, true); (OpInsertSkills, true);
     (OpCommit, true); (OpBulk, true)] ].

Lemma load_frame env processed_data w :
  exists s ops,
    snd (load_analytics_data env processed_data w) = set_sinks s w
    /\ sink_log s = sink_log (sinks w) ++ ops
    /\ In ops load_logs.
Proof.
  unfold load_analytics_data, reraise, transaction, executemany_metrics,
    executemany_skills, bulk, bind, lift, ret, update_sinks, sink_op.
  cbn -[mapM app load_logs].
  repeat
    (first
       [ sink_step env
       | match goal with
         | |- context [mapM ?f ?l] =>
             destruct (mapM f l); cbn -[mapM app load_logs]
         end ]);
    (eexists _, _; split; [reflexivity|];
     cbn -[app load_logs]; rewrite <- ?app_assoc; cbn [app];
     split; [reflexivity|];
     unfold load_logs; simpl; auto 15).
Qed.

Lemma load_error_tagged env processed_data w e :
  fst (load_analytics_data env processed_data w) = Raise e ->
  exists e', e = wrap_load_error e'.
Proof.
  unfold load_analytics_data, reraise.
  match goal with
  | |- context [bind ?m ?k w] => destruct (bind m k w) as [[b|e'] w']
  end; simpl; [discriminate|].
  intros H. injection H as <-. now exists e'.
Qed.

Lemma load_returns_true env processed_data w b :
  fst (load_analytics_data env processed_data w) = Ok b -> b = true.
Proof.
  unfold load_analytics_data, reraise, transaction, executemany_metrics,
    executemany_skills, bulk, bind, lift, ret, update_sinks, sink_op.
  cbn -[mapM app].
  repeat
    (first
       [ sink_step env
       | match goal with
         | |- context [mapM ?f ?l] => destruct (mapM f l); cbn -[mapM app]
         end ]);
    intros H; try discriminate H; now injection H.
Qed.

(** ** The pipeline *)

(** How a run ends, whatever the three stage methods are: with the flag of
    the load stage after a report, or with the exception of the stage
    that raised, unchanged, after one line on the output. *)
Lemma pipeline_outcome env
    (ex : DateRange -> option Z -> M RawData)
    (tr : RawData -> option Z -> M ProcessedData)
    (ld : ProcessedData -> M bool) dr cfg w :
  let cs := Some (config_get cfg_chunk_size cfg (_chunk_size env)) in
  let pw := Some (config_get cfg_parallel_workers cfg (_parallel_workers env)) in
  let out := run_etl_pipeline_with env ex tr ld dr cfg w in
  (exists raw w1 pd w2 success w3,
      ex dr cs w = (Ok raw, w1)
      /\ tr raw pw w1 = (Ok pd, w2)
      /\ ld pd w2 = (Ok success, w3)
      /\ out = (Ok success,
                print (LogGenerated (length (recruitment_metrics pd)))
                  (print (LogProcessed (length (requisitions raw)))
                     (print (LogCompleted (clock w3 - clock w)) w3))))
  \/ (exists e w',
        out = (Raise e, print (LogFailed ("ETL Pipeline failed: " ++ str e)) w')
        /\ (ex dr cs w = (Raise e, w')
            \/ (exists raw w1,
                  ex dr cs w = (Ok raw, w1) /\ tr raw pw w1 = (Raise e, w'))
            \/ (exists raw w1 pd w2,
                  ex dr cs w = (Ok raw, w1)
                  /\ tr raw pw w1 = (Ok pd, w2)
                  /\ ld pd w2 = (Raise e, w')))).
Proof.
  cbv zeta.
  unfold run_etl_pipeline_with, pipeline_stages, report, bind, ret.
  destruct (ex dr _ w) as [[raw|e] w1] eqn:Eex.
  2:{ right. exists e, w1. split; [reflexivity|]. now left. }
  destruct (tr raw _ w1) as [[pd|e] w2] eqn:Etr.
  2:{ right. exists e, w2. split; [reflexivity|]. right; left.
      now exists raw, w1. }
  destruct (ld pd w2) as [[success|e] w3] eqn:Eld.
  2:{ right. exists e, w3. split; [reflexivity|]. right; right.
      now exists raw, w1, pd, w2. }
  left. exists raw, w1, pd, w2, success, w3. auto.
Qed.

(** C8, as the code has it: whatever the three stage methods do, a run in
    which they all succeed returns the boolean flag of the load stage,
    after printing the duration and the two record counts; a run in which
    a stage fails prints one line and raises that stage's exception,
    unchanged, to the caller.  No structured outcome is built in either
    case. *)
Theorem pipeline_returns_flag_or_raises (env : Env)
    (ex : DateRange -> option Z -> M RawData)
    (tr : RawData -> option Z -> M ProcessedData)
    (ld : ProcessedData -> M bool)
    (dr : DateRange) (cfg : option Config) (w : World) :
  let cs := Some (config_get cfg_chunk_size cfg (_chunk_size env)) in
  let pw := Some (config_get cfg_parallel_workers cfg (_parallel_workers env)) in
  let out := run_etl_pipeline_with env ex tr ld dr cfg w in
  (forall success,
      fst out = Ok success ->
      exists raw w1 pd w2 w3,
        ex dr cs w = (Ok raw, w1)
        /\ tr raw pw w1 = (Ok pd, w2)
        /\ ld pd w2 = (Ok success, w3)
        /\ stdout (snd out)
           = stdout w3 ++ [LogCompleted (clock w3 - clock w);
                           LogProcessed (length (requisitions raw));
                           LogGenerated (length (recruitment_metrics pd))])
  /\ (forall e,
        fst out = Raise e ->
        exists w',
          (ex dr cs w = (Raise e, w')
           \/ (exists raw w1,
                 ex dr cs w = (Ok raw, w1) /\ tr raw pw w1 = (Raise e, w'))
           \/ (exists raw w1 pd w2,
                 ex dr cs w = (Ok raw, w1)
                 /\ tr raw pw w1 = (Ok pd, w2)
                 /\ ld pd w2 = (Raise e, w')))
          /\ stdout (snd out)
             = stdout w' ++ [LogFailed ("ETL Pipeline failed: " ++ str e)]).
Proof.
  cbv zeta.
  destruct (pipeline_outcome env ex tr ld dr cfg w)
    as [(raw & w1 & pd & w2 & success & w3 & Hex & Htr & Hld & ->)
       |(e & w' & -> & Hstage)];
    cbn [fst snd]; (split; [intros b Hb|intros e0 He0]);
    try discriminate.
  - injection Hb as <-. exists raw, w1, pd, w2, w3.
    split; [exact Hex|]. split; [exact Htr|]. split; [exact Hld|].
    simpl. rewrite <- !app_assoc. reflexivity.
  - injection He0 as <-. exists w'. split; [exact Hstage|reflexivity].
Qed.

Definition failing_upstream : Upstream :=
  {| get_pg_pool := fun _ => Raise (mkExn ConnectionError_ "connection refused");
     get_mongo_db := fun _ => Ok tt;
     pg_acquire := fun _ => Ok tt;
     pg_cursor := fun _ _ _ => Ok [];
     find_candidates := fun _ _ _ => Ok [];
     find_communications := fun _ _ _ => Ok [] |}.

Definition failing_env : Env :=
  {| _chunk_size := 1000;
     _parallel_workers := 4;
     upstream := failing_upstream;
     sink_fault := fun _ _ => None;
     analyze_skills_data := fun _ => Ok [] |}.

(** C8 as stated fails when a stage fails: the run ends with an exception
    raised to the caller, not with a returned outcome. *)
Lemma pipeline_raises_past_its_boundary :
  fst (run_etl_pipeline failing_env sample_range None (init 0))
  = Raise (mkExn Exception_
             "Error extracting recruitment data: connection refused")
  /\ is_ok (fst (run_etl_pipeline failing_env sample_range None (init 0)))
     = false.
Proof. split; vm_compute; reflexivity. Qed.

(** ** Loading: two runs of the loader, and the frames of the service *)

Definition sample_frames : ProcessedData :=
  {| recruitment_metrics :=
       [[("requisition_id", CStr "r1"); ("time_to_hire", CFloat 10);
         ("fill_rate", CRatio 50); ("satisfaction_score", CFloat 4);
         ("created_at", CTime (Some 0))]]%string;
     skill_analytics :=
       [[("skill_name", CStr "coq"); ("demand_count", CInt 1);
         ("growth_rate", CFloat 0); ("created_at", CTime (Some 0))]]%string;
     time_to_hire_analytics := [] |}.

Definition env_failing_at (op : SinkOp) (message : string) : Env :=
  {| _chunk_size := 1000;
     _parallel_workers := 4;
     upstream := sample_upstream;
     sink_fault := fun o _ =>
       if SinkOp_eqb o op then Some (mkExn ConnectionError_ message) else None;
     analyze_skills_data := fun _ => Ok [] |}.

Example bulk_failure_keeps_committed_rows :
  exists w',
    load_analytics_data (env_failing_at OpBulk "index unavailable")
      sample_frames (init 0)
    = (Raise (mkExn Exception_ "Error loading analytics data: index unavailable"),
       w')
    /\ length (pg_recruitment_metrics (sinks w')) = 1%nat
    /\ length (pg_skill_metrics (sinks w')) = 1%nat
    /\ es_recruitment_analytics (sinks w') = [].
Proof. eexists. split; [vm_compute; reflexivity|]. repeat split. Qed.

Example insert_failure_rolls_back :
  exists w',
    load_analytics_data (env_failing_at OpInsertSkills "deadlock detected")
      sample_frames (init 0)
    = (Raise (mkExn Exception_ "Error loading analytics data: deadlock detected"),
       w')
    /\ tables (sinks w') = ([], [])
    /\ pending (sinks w') = None
    /\ es_recruitment_analytics (sinks w') = []
    /\ map fst (sink_log (sinks w'))
       = [OpGetPgPool; OpGetClient; OpAcquire; OpBegin; OpInsertMetrics;
          OpInsertSkills; OpRollback].
Proof. eexists. split; [vm_compute; reflexivity|]. repeat split. Qed.

(** The rows the service builds from a [RecruitmentMetrics] have no
    [requisition_id] column. *)
Lemma service_row_lacks_requisition_id m :
  columns metrics_columns (row_of_metrics m)
  = Raise (mkExn KeyError "'requisition_id'").
Proof. reflexivity. Qed.

Lemma load_of_service_rows_fails env m rest skill_frame tth_frame w :
  is_ok (fst (load_analytics_data env
                {| recruitment_metrics := row_of_metrics m :: rest;
                   skill_analytics := skill_frame;
                   time_to_hire_analytics := tth_frame |} w)) = false.
Proof.
  unfold load_analytics_data, reraise, transaction, executemany_metrics,
    executemany_skills, bulk, bind, lift, ret, update_sinks, sink_op.
  cbn -[app].
  repeat (sink_step env; try reflexivity).
Qed.

Lemma chunk_task_output env req cand comm w out :
  fst (_process_metrics_chunk env req cand comm w) = Ok out ->
  exists m, out_metrics out = [row_of_metrics m].
Proof.
  unfold _process_metrics_chunk, bind, process_recruitment_metrics, lift, ret.
  destruct (MetricsProcessor.process_recruitment_metrics _ _ _ _ _)
    as [[m|e] st]; simpl; [|discriminate].
  destruct (analyze_skills_data env cand); simpl; [|discriminate].
  destruct (chunk_range req); simpl; [|discriminate].
  destruct (MetricsProcessor.analyze_time_to_hire _ _ _); simpl; [|discriminate].
  intros H. injection H as <-. now exists m.
Qed.

Lemma run_tasks_all {A} (Q : result A -> Prop) (tasks : list (M A)) :
  (forall t, In t tasks -> forall w, Q (fst (t w))) ->
  forall w,
    Forall Q (fst (run_tasks tasks w))
    /\ length (fst (run_tasks tasks w)) = length tasks.
Proof.
  induction tasks as [|t tasks IH]; intros Ht w; simpl; [split; auto|].
  pose proof (Ht t (or_introl eq_refl) w) as H1.
  destruct (t w) as [r1 w1]. simpl in H1.
  destruct (IH (fun t' Hin => Ht t' (or_intror Hin)) w1) as [H2 H3].
  destruct (run_tasks tasks w1) as [rs w2]. simpl in *.
  split; [constructor; assumption|now rewrite H3].
Qed.

Lemma gathered_ok {A} (rs : list (result A)) l :
  gathered rs = Ok l -> rs = map Ok l.
Proof.
  revert l. induction rs as [|[a|e] rs IH]; intros l H; simpl in H.
  - injection H as <-. reflexivity.
  - destruct (gathered rs) as [l'|]; [|discriminate].
    simpl in H. injection H as <-. simpl. f_equal. now apply IH.
  - discriminate.
Qed.

(** The frames a transformation returns are never accepted by the loader:
    the recruitment-metrics frame has a row, and its rows lack the first
    column the insert reads. *)
Lemma transform_output_never_loads env raw pw w pd w' w2 :
  transform_metrics_data env raw pw w = (Ok pd, w') ->
  is_ok (fst (load_analytics_data env pd w2)) = false.
Proof.
  unfold transform_metrics_data, reraise, bind, lift, gather, ret.
  unfold array_split at 1.
  destruct (Z.leb_spec (py_or pw (_parallel_workers env)) 0) as [Hle|Hpos];
    [discriminate|].
  destruct (array_split (candidates raw) _) as [cand_chunks|]; [|discriminate].
  match goal with
  | |- context [run_tasks ?ts w] =>
      destruct (@run_tasks_all ChunkOutput
                  (fun r => forall out, r = Ok out ->
                                        exists m, out_metrics out = [row_of_metrics m])
                  ts) with (w := w) as [Hall Hlen];
        [|destruct (run_tasks ts w) as [rs w1] eqn:Erun]
  end.
  { intros t Hin w0 out Hout. unfold chunk_tasks in Hin.
    apply in_map_iff in Hin. destruct Hin as (j & <- & _).
    eapply chunk_task_output. exact Hout. }
  simpl in Hall, Hlen. unfold chunk_tasks in Hlen.
  rewrite length_map, length_seq in Hlen.
  destruct (gathered rs) as [l|] eqn:Eg; [|discriminate].
  intros H. injection H as <- _.
  apply gathered_ok in Eg. subst rs. rewrite length_map in Hlen.
  destruct l as [|out l]; [simpl in Hlen; lia|].
  inversion Hall as [|? ? Hout _]; subst.
  destruct (Hout out eq_refl) as [m Hm].
  simpl. rewrite Hm. simpl. apply load_of_service_rows_fails.
Qed.

(** With the stage methods of the service itself, no run returns. *)
Lemma service_pipeline_always_raises env dr cfg w :
  is_ok (fst (run_etl_pipeline env dr cfg w)) = false.
Proof.
  unfold run_etl_pipeline.
  destruct (pipeline_outcome env (extract_recruitment_data env)
              (transform_metrics_data env) (load_analytics_data env) dr cfg w)
    as [(raw & w1 & pd & w2 & success & w3 & Hex & Htr & Hld & ->)
       |(e & w' & -> & _)]; [|reflexivity].
  pose proof (transform_output_never_loads _ _ _ _ w2 Htr) as Hno.
  rewrite Hld in Hno. discriminate.
Qed.

(** ** One attempt per stage *)

(** Calls of [process_recruitment_metrics] so far: each counts a hit or a
    miss. *)
Definition processor_calls (st : MetricsProcessor.State) : nat :=
  MetricsProcessor.cache_hits st + MetricsProcessor.cache_misses st.

(** Attempts of one operation in a sink log. *)
Definition attempts (op : SinkOp) (ops : list (SinkOp * bool)) : nat :=
  length (filter (fun o => SinkOp_eqb (fst o) op) ops).

Lemma process_recruitment_metrics_one_call raw level uc now st :
  processor_calls
    (snd (MetricsProcessor.process_recruitment_metrics raw level uc now st))
  = S (processor_calls st).
Proof.
  unfold MetricsProcessor.process_recruitment_metrics, processor_calls.
  destruct (uc && MetricsProcessor._is_cache_valid (level, raw) now st).
  - destruct (assoc _ _ _); simpl; lia.
  - destruct raw as [|r raw]; [simpl; lia|].
    destruct (mapM _ _); simpl; lia.
Qed.

Lemma chunk_task_one_call env req cand comm w :
  processor_calls (processor (snd (_process_metrics_chunk env req cand comm w)))
  = S (processor_calls (processor w)).
Proof.
  unfold _process_metrics_chunk, bind, process_recruitment_metrics, lift, ret.
  pose proof (process_recruitment_metrics_one_call req
                weekly true (clock w) (processor w)) as Hcall.
  destruct (MetricsProcessor.process_recruitment_metrics _ _ _ _ _)
    as [[m|e] st]; simpl in *; [|exact Hcall].
  destruct (analyze_skills_data env cand); simpl; [|exact Hcall].
  destruct (chunk_range req); simpl; [|exact Hcall].
  destruct (MetricsProcessor.analyze_time_to_hire _ _ _); exact Hcall.
Qed.

Lemma run_tasks_calls {A} (tasks : list (M A)) :
  (forall t, In t tasks ->
     forall w, processor_calls (processor (snd (t w)))
               = S (processor_calls (processor w))) ->
  forall w,
    processor_calls (processor (snd (run_tasks tasks w)))
    = (processor_calls (processor w) + length tasks)%nat.
Proof.
  induction tasks as [|t tasks IH]; intros Ht w; simpl; [lia|].
  pose proof (Ht t (or_introl eq_refl) w) as H1.
  destruct (t w) as [r1 w1]. simpl in H1.
  pose proof (IH (fun t' Hin => Ht t' (or_intror Hin)) w1) as H2.
  destruct (run_tasks tasks w1) as [rs w2]. simpl in *. lia.
Qed.

Lemma transform_calls env raw pw w :
  (processor_calls (processor (snd (transform_metrics_data env raw pw w)))
   <= processor_calls (processor w)
      + Z.to_nat (py_or pw (_parallel_workers env)))%nat.
Proof.
  unfold transform_metrics_data, reraise, bind, lift, gather, ret.
  destruct (array_split (requisitions raw) _) as [req_chunks|]; [|simpl; lia].
  destruct (array_split (candidates raw) _) as [cand_chunks|]; [|simpl; lia].
  pose proof (@run_tasks_calls ChunkOutput
                (chunk_tasks env raw (py_or pw (_parallel_workers env))
                   req_chunks cand_chunks)) as Hrun.
  specialize (Hrun (fun t Hin w0 =>
    match proj1 (in_map_iff _ _ _) Hin with
    | ex_intro _ j (conj Hj _) =>
        eq_ind _ (fun t => processor_calls (processor (snd (t w0)))
                           = S (processor_calls (processor w0)))
          (chunk_task_one_call env _ _ _ w0) _ Hj
    end) w).
  unfold chunk_tasks in Hrun at 2. rewrite length_map, length_seq in Hrun.
  destruct (run_tasks _ w) as [rs w']. simpl in *.
  destruct (gathered rs); simpl; lia.
Qed.

Lemma load_logs_attempts ops :
  In ops load_logs ->
  (attempts OpGetPgPool ops <= 1)%nat
  /\ (attempts OpBegin ops <= 1)%nat
  /\ (attempts OpBulk ops <= 1)%nat.
Proof.
  unfold load_logs. simpl.
  intros H. repeat (destruct H as [<-|H]; [vm_compute; repeat split; lia|]).
  destruct H.
Qed.

(** What one run of the pipeline leaves behind. *)
Lemma pipeline_footprint env dr cfg w :
  let out := run_etl_pipeline env dr cfg w in
  sleeps (snd out) = sleeps w
  /\ (store_calls (snd out) <= store_calls w + 6)%nat
  /\ (processor_calls (processor (snd out))
      <= processor_calls (processor w)
         + Z.to_nat
             (py_or (Some (config_get cfg_parallel_workers cfg
                             (_parallel_workers env)))
                (_parallel_workers env)))%nat
  /\ exists ops,
       sink_log (sinks (snd out)) = sink_log (sinks w) ++ ops
       /\ (ops = [] \/ In ops load_logs).
Proof.
  cbv zeta. unfold run_etl_pipeline.
  set (cs := Some (config_get cfg_chunk_size cfg (_chunk_size env))).
  set (pw := Some (config_get cfg_parallel_workers cfg (_parallel_workers env))).
  destruct (extract_frame env dr cs w) as (Hsl & Hsk & Hpr & _ & _ & Hst).
  destruct (pipeline_outcome env (extract_recruitment_data env)
              (transform_metrics_data env) (load_analytics_data env) dr cfg w)
    as [(raw & w1 & pd & w2 & success & w3 & Hex & Htr & Hld & ->)
       |(e & w' & -> & [Hex|[(raw & w1 & Hex & Htr)
                            |(raw & w1 & pd & w2 & Hex & Htr & Hld)]])];
    fold cs in Hex; try fold pw in Htr; rewrite Hex in *; cbn [fst snd] in *.
  - destruct (transform_frame env raw pw w1) as [st Hw2].
    pose proof (transform_calls env raw pw w1) as Hcalls.
    rewrite Htr in Hw2, Hcalls. cbn [fst snd] in *.
    destruct (load_frame env pd w2) as (s & ops & Hw3 & Hlog & Hin).
    rewrite Hld in Hw3. cbn [fst snd] in *. subst w3 w2. simpl in *.
    rewrite Hpr in Hcalls. rewrite Hsk in Hlog.
    repeat split; [assumption|lia|lia|]. exists ops. auto.
  - simpl. rewrite Hsk. repeat split; [assumption|lia|rewrite Hpr; lia|].
    exists []. rewrite app_nil_r. auto.
  - destruct (transform_frame env raw pw w1) as [st Hw2].
    pose proof (transform_calls env raw pw w1) as Hcalls.
    rewrite Htr in Hw2, Hcalls. cbn [fst snd] in *. subst w'. simpl in *.
    rewrite Hpr in Hcalls. rewrite Hsk.
    repeat split; [assumption|lia|lia|].
    exists []. rewrite app_nil_r. auto.
  - destruct (transform_frame env raw pw w1) as [st Hw2].
    pose proof (transform_calls env raw pw w1) as Hcalls.
    rewrite Htr in Hw2, Hcalls. cbn [fst snd] in *.
    destruct (load_frame env pd w2) as (s & ops & Hw3 & Hlog & Hin).
    rewrite Hld in Hw3. cbn [fst snd] in *. subst w' w2. simpl in *.
    rewrite Hpr in Hcalls. rewrite Hsk in Hlog.
    repeat split; [assumption|lia|lia|]. exists ops. auto.
Qed.

(** C2, as the code has it: a run attempts each stage at most once and
    never waits.  Extract goes through its six store accesses at most
    once, Transform runs at most one task per worker, Load begins at most
    one transaction and attempts at most one bulk index, and no delay is
    slept.  When a stage fails, its exception reaches the caller as the
    stage raised it, with the stage named in its message. *)
Theorem pipeline_attempts_each_stage_once (env : Env) (dr : DateRange)
    (cfg : option Config) (w : World) :
  let cs := Some (config_get cfg_chunk_size cfg (_chunk_size env)) in
  let pw := Some (config_get cfg_parallel_workers cfg (_parallel_workers env)) in
  let out := run_etl_pipeline env dr cfg w in
  sleeps (snd out) = sleeps w
  /\ (store_calls (snd out) <= store_calls w + 6)%nat
  /\ (processor_calls (processor (snd out))
      <= processor_calls (processor w)
         + Z.to_nat (py_or pw (_parallel_workers env)))%nat
  /\ (exists ops,
        sink_log (sinks (snd out)) = sink_log (sinks w) ++ ops
        /\ (attempts OpGetPgPool ops <= 1)%nat
        /\ (attempts OpBegin ops <= 1)%nat
        /\ (attempts OpBulk ops <= 1)%nat)
  /\ (forall e,
        fst out = Raise e ->
        (fst (extract_recruitment_data env dr cs w) = Raise e
         /\ exists e', e = wrap_extract_error e')
        \/ (exists raw w1,
              extract_recruitment_data env dr cs w = (Ok raw, w1)
              /\ fst (transform_metrics_data env raw pw w1) = Raise e
              /\ exists e', e = wrap_transform_error e')
        \/ (exists raw w1 pd w2,
              extract_recruitment_data env dr cs w = (Ok raw, w1)
              /\ transform_metrics_data env raw pw w1 = (Ok pd, w2)
              /\ fst (load_analytics_data env pd w2) = Raise e
              /\ exists e', e = wrap_load_error e')).
Proof.
  cbv zeta.
  destruct (pipeline_footprint env dr cfg w) as (Hsl & Hst & Hpc & ops & Hlog & Hops).
  split; [exact Hsl|]. split; [exact Hst|]. split; [exact Hpc|]. split.
  - exists ops. split; [exact Hlog|].
    destruct Hops as [->|Hin]; [vm_compute; repeat split; lia|].
    now apply load_logs_attempts.
  - intros e He. unfold run_etl_pipeline in He.
    destruct (pipeline_outcome env (extract_recruitment_data env)
                (transform_metrics_data env) (load_analytics_data env) dr cfg w)
      as [(raw & w1 & pd & w2 & success & w3 & Hex & Htr & Hld & Hout)
         |(e0 & w' & Hout & Hstage)];
      rewrite Hout in He; cbn [fst] in He; [discriminate|].
    injection He as ->.
    destruct Hstage as [Hex|[(raw & w1 & Hex & Htr)
                            |(raw & w1 & pd & w2 & Hex & Htr & Hld)]].
    + left. rewrite Hex. split; [reflexivity|].
      apply (@extract_error_tagged env dr
               (Some (config_get cfg_chunk_size cfg (_chunk_size env))) w).
      now rewrite Hex.
    + right; left. exists raw, w1. rewrite Htr.
      split; [exact Hex|]. split; [reflexivity|].
      apply (@transform_error_tagged env raw
               (Some (config_get cfg_parallel_workers cfg
                        (_parallel_workers env))) w1).
      now rewrite Htr.
    + right; right. exists raw, w1, pd, w2. rewrite Hld.
      split; [exact Hex|]. split; [exact Htr|]. split; [reflexivity|].
      apply (@load_error_tagged env pd w2). now rewrite Hld.
Qed.

(** An extractor that fails on its first [failures] calls and answers
    afterwards; the count of store accesses counts its calls. *)
Definition flaky_extract (failures : nat) (_ : DateRange) (_ : option Z)
  : M RawData :=
  fun w =>
    let w' := set_store_calls (S (store_calls w)) w in
    if (store_calls w <? failures)%nat
    then (Raise (mkExn ConnectionError_ "store unreachable"), w')
    else (Ok sample_raw, w').

Definition empty_frames : ProcessedData :=
  {| recruitment_metrics := []; skill_analytics := [];
     time_to_hire_analytics := [] |}.

(** C2 as stated fails on its own scenario: with an extractor that fails
    twice and then succeeds, the run calls it once, sleeps no delay and
    ends with the first failure.  (The service reads no [max_retries]
    setting, from its constructor or from [config].) *)
Lemma flaky_extract_is_not_retried :
  exists w',
    run_etl_pipeline_with sample_env (flaky_extract 2)
      (fun _ _ => ret empty_frames) (fun _ => ret true)
      sample_range None (init 0)
    = (Raise (mkExn ConnectionError_ "store unreachable"), w')
    /\ store_calls w' = 1%nat
    /\ sleeps w' = [].
Proof. eexists. split; [vm_compute; reflexivity|]. split; reflexivity. Qed.

(** ** The retry helper of the analytics service *)

(** [get_metrics] failing on its first [failures] calls. *)
Definition flaky_metrics (failures : nat) : M nat :=
  fun w =>
    let w' := set_store_calls (S (store_calls w)) w in
    if (store_calls w <? failures)%nat
    then (Raise (mkExn ConnectionError_ "store unreachable"), w')
    else (Ok (store_calls w), w').

(** The delays slept between [n] failed attempts and the next one. *)
Fixpoint backoff (from : Z) (n : nat) : list Z :=
  match n with
  | O => []
  | S n' => 2 ^ from :: backoff (from + 1) n'
  end.

Lemma retry_loop_flaky failures max_retries :
  forall turns retries w,
    0 <= retries ->
    retries + Z.of_nat turns = max_retries ->
    (store_calls w + turns)%nat = Z.to_nat max_retries ->
    (failures < Z.to_nat max_retries)%nat ->
    (store_calls w <= failures)%nat ->
    exists w',
      AnalyticsService.retry_loop (flaky_metrics failures) max_retries
        turns retries w = (Ok (Some failures), w')
      /\ sleeps w'
         = sleeps w ++ backoff (retries + 1) (failures - store_calls w)
      /\ store_calls w' = S failures.
Proof.
  induction turns as [|turns IH]; intros retries w Hr Hsum Hcalls Hf Hw.
  - lia.
  - simpl. unfold flaky_metrics at 1.
    destruct (Nat.ltb_spec (store_calls w) failures) as [Hlt|Hge].
    + destruct (Z.eqb_spec (retries + 1) max_retries) as [Heq|Hne]; [lia|].
      destruct (IH (retries + 1)
                  (sleep (2 ^ (retries + 1))
                     (set_store_calls (S (store_calls w)) w)))
        as (w' & Hrun & Hsl & Hst); simpl; try lia.
      exists w'. split; [exact Hrun|]. split; [|exact Hst].
      rewrite Hsl. simpl. rewrite <- app_assoc. simpl.
      replace (failures - store_calls w)%nat
        with (S (failures - S (store_calls w))) by lia.
      reflexivity.
    + assert (store_calls w = failures) by lia. subst failures.
      eexists. split; [reflexivity|]. simpl.
      rewrite Nat.sub_diag. simpl. now rewrite app_nil_r.
Qed.

(** [_get_metrics_with_retry] is where the service retries: after [k]
    failures, [k] below [max_retries], it has slept [2^1, ..., 2^k] and
    returns the value of attempt [k + 1]. *)
Lemma get_metrics_with_retry_recovers failures max_retries w :
  store_calls w = 0%nat ->
  (failures < Z.to_nat max_retries)%nat ->
  exists w',
    AnalyticsService._get_metrics_with_retry (flaky_metrics failures)
      max_retries w = (Ok (Some failures), w')
    /\ sleeps w' = sleeps w ++ backoff 1 failures
    /\ store_calls w' = S failures.
Proof.
  intros Hw Hf. unfold AnalyticsService._get_metrics_with_retry.
  destruct (@retry_loop_flaky failures max_retries (Z.to_nat max_retries) 0 w)
    as (w' & Hrun & Hsl & Hst); try lia.
  exists w'. rewrite Hw, Nat.sub_0_r in Hsl. auto.
Qed.

Example retry_twice_then_success :
  exists w',
    AnalyticsService._get_metrics_with_retry (flaky_metrics 2) 3 (init 0)
    = (Ok (Some 2%nat), w')
    /\ sleeps w' = [2; 4]
    /\ store_calls w' = 3%nat.
Proof. eexists. split; [vm_compute; reflexivity|]. split; reflexivity. Qed.

Example retry_exhausted_raises_last_error :
  exists w',
    AnalyticsService._get_metrics_with_retry (flaky_metrics 5) 3 (init 0)
    = (Raise (mkExn ConnectionError_ "store unreachable"), w')
    /\ sleeps w' = [2; 4]
    /\ store_calls w' = 3%nat.
Proof. eexists. split; [vm_compute; reflexivity|]. split; reflexivity. Qed.

End ETLFacts.

(* ================================================================== *)
(** * The result cache of the metrics processor *)
(* ================================================================== *)

Module ProcessorFacts.

Import MetricsProcessor.
Local Open Scope Z_scope.

Lemma list_eqb_refl {A} (eqb : A -> A -> bool) (l : list A) :
  (forall a, eqb a a = true) -> list_eqb eqb l l = true.
Proof.
  intros Hrefl. induction l as [|a l IH]; simpl; [reflexivity|].
  now rewrite Hrefl, IH.
Qed.

(** ** A call that computes *)

(** What a computation ends with.  Without rows the cast of the frame
    fails.  With rows the frame is cast and cut into slices, each slice is
    aggregated, and the merge of the aggregates is looked up on the
    processor, which has no such method. *)
Definition processing_error (raw : list Requisition) : exn :=
  wrap_processing_error
    match raw with
    | [] => astype_error "requisition_id"
    | _ :: _ => missing_attribute "_combine_processed_chunks"
    end.

(** A call that is not served from the cache raises, having counted a
    miss and changed nothing else. *)
Lemma process_miss raw level use_cache now st :
  use_cache && _is_cache_valid (level, raw) now st = false ->
  process_recruitment_metrics raw level use_cache now st
  = (Raise (processing_error raw), count_miss st).
Proof.
  intros Hmiss. unfold process_recruitment_metrics. rewrite Hmiss.
  destruct raw as [|r raw]; [reflexivity|].
  rewrite (MetricsFacts.mapM_process_chunks level
             (MetricsFacts.iloc_chunks_nonempty (r :: raw)
                MetricsFacts.chunk_size_pos)).
  reflexivity.
Qed.

Lemma no_timestamp_no_hit key now st :
  _cache_timestamps st = [] -> _is_cache_valid key now st = false.
Proof. unfold _is_cache_valid. now intros ->. Qed.

(** X4: in a processor that holds no cache timestamp (as after
    [__init__]), a call of [process_recruitment_metrics] fails with and
    without rows, whatever the level and the cache flag.  Without rows it
    raises the [ValueError] that wraps the cast error; with rows it raises
    the [ValueError] that wraps the [AttributeError] of the merge method
    the class does not define.  Either way it counts a miss and leaves the
    cache, the row counter and the id supply as they were. *)
Theorem processing_fails_with_and_without_rows
    (raw : list Requisition) (level : AggregationLevel) (use_cache : bool)
    (now : Z) (st : State) :
  _cache_timestamps st = [] ->
  let out := process_recruitment_metrics raw level use_cache now st in
  snd out = count_miss st
  /\ (raw = [] ->
      fst out
      = Raise (mkExn ValueError
                 ("Error processing recruitment metrics: "
                  ++ str (astype_error "requisition_id"))))
  /\ (raw <> [] ->
      fst out
      = Raise (mkExn ValueError
                 "Error processing recruitment metrics: 'MetricsProcessor' object has no attribute '_combine_processed_chunks'")).
Proof.
  intros Hts out. subst out. rewrite process_miss.
  - split; [reflexivity|]. split.
    + now intros ->.
    + destruct raw as [|r raw]; [congruence|reflexivity].
  - rewrite (no_timestamp_no_hit _ _ _ Hts). apply andb_false_r.
Qed.

Lemma processing_fails_with_and_without_rows_witness :
  fst (process_recruitment_metrics ETLFacts.sample_rows weekly true 0 (init 300))
  = Raise (mkExn ValueError
             "Error processing recruitment metrics: 'MetricsProcessor' object has no attribute '_combine_processed_chunks'")
  /\ get_processing_stats
       (snd (process_recruitment_metrics ETLFacts.sample_rows weekly true 0
               (init 300))) = (0, 1, 0)%nat.
Proof.
  destruct (@processing_fails_with_and_without_rows ETLFacts.sample_rows weekly
              true 0 (init 300) eq_refl)
    as (Hst & _ & Hfail).
  rewrite Hst. split; [|reflexivity].
  apply Hfail. discriminate.
Defined.

(** X3: a call with [use_cache=False] neither reads nor writes the cache,
    whatever the cache holds: the entries and their timestamps stay, no hit
    is counted, one miss is, and the call raises the [ValueError] of a
    computation, having processed no row and drawn no id. *)
Theorem uncached_call_leaves_cache_alone
    (raw : list Requisition) (level : AggregationLevel) (now : Z)
    (st : State) :
  let out := process_recruitment_metrics raw level false now st in
  _cache (snd out) = _cache st
  /\ _cache_timestamps (snd out) = _cache_timestamps st
  /\ cache_hits (snd out) = cache_hits st
  /\ cache_misses (snd out) = S (cache_misses st)
  /\ total_processed (snd out) = total_processed st
  /\ uuid_counter (snd out) = uuid_counter st
  /\ fst out = Raise (processing_error raw)
  /\ exn_cls (processing_error raw) = ValueError.
Proof.
  cbv zeta. rewrite process_miss by reflexivity. repeat split.
Qed.

(** ** The counters over a sequence of calls *)

(** One call of [process_recruitment_metrics]: its arguments and the time
    at which it is made. *)
Record Call : Type := mkCall {
  call_rows : list Requisition;
  call_level : AggregationLevel;
  call_use_cache : bool;
  call_time : Z
}.

Definition call (c : Call) (st : State) : State :=
  snd (process_recruitment_metrics (call_rows c) (call_level c)
         (call_use_cache c) (call_time c) st).

(** The calls are made one after the other on the same processor, whether
    they return or raise. *)
Definition run_calls (calls : list Call) (st : State) : State :=
  fold_left (fun st c => call c st) calls st.

Lemma call_counters (c : Call) (st : State) :
  _cache_ttl (call c st) = _cache_ttl st
  /\ ((cache_hits (call c st) = S (cache_hits st)
       /\ cache_misses (call c st) = cache_misses st
       /\ total_processed (call c st) = total_processed st
       /\ uuid_counter (call c st) = uuid_counter st)
      \/ (cache_hits (call c st) = cache_hits st
          /\ cache_misses (call c st) = S (cache_misses st)
          /\ (total_processed st <= total_processed (call c st)
              <= total_processed st + length (call_rows c))%nat
          /\ (uuid_counter st <= uuid_counter (call c st)
              <= S (uuid_counter st))%nat)).
Proof.
  unfold call, process_recruitment_metrics.
  destruct (call_use_cache c && _is_cache_valid _ _ st).
  - split; [now destruct (assoc _ _ _)|]. left.
    destruct (assoc _ _ _); repeat split.
  - destruct (call_rows c) as [|r rows] eqn:Erows.
    + split; [reflexivity|]. right. simpl. repeat split; lia.
    + rewrite <- Erows. destruct (mapM _ _).
      * split; [reflexivity|]. right. simpl. repeat split; lia.
      * split; [reflexivity|]. right. simpl. repeat split; lia.
Qed.

(** X25: the counters of the processor over any sequence of calls, of any
    rows, levels, cache flags and times, returning or raising.  Every
    call counts as exactly one hit or one miss, so hits plus misses is the
    number of calls made; [total_processed] never decreases and grows by
    at most the number of rows passed in; an id is drawn only on a miss;
    the time to live never changes. *)
Theorem counters_account_for_every_call (calls : list Call) (st : State) :
  let st' := run_calls calls st in
  (cache_hits st' + cache_misses st'
   = cache_hits st + cache_misses st + length calls)%nat
  /\ (cache_hits st <= cache_hits st')%nat
  /\ (cache_misses st <= cache_misses st')%nat
  /\ (total_processed st <= total_processed st'
      <= total_processed st
         + list_sum (map (fun c => length (call_rows c)) calls))%nat
  /\ (uuid_counter st' - uuid_counter st
      <= cache_misses st' - cache_misses st)%nat
  /\ (uuid_counter st <= uuid_counter st')%nat
  /\ _cache_ttl st' = _cache_ttl st.
Proof.
  cbv zeta. revert st. unfold run_calls.
  induction calls as [|c calls IH]; intros st; cbn [fold_left map list_sum length].
  - repeat split; lia.
  - specialize (IH (call c st)).
    destruct IH as (Hsum & Hh & Hm & Ht & Hid & Hu & Httl).
    destruct (call_counters c st)
      as [Httl1 [(H1 & H2 & H3 & H4)|(H1 & H2 & H3 & H4)]];
      rewrite Httl, Httl1; unfold list_sum in *; cbn [fold_right];
      repeat split; lia.
Qed.

(** ** A processor never fills its cache *)

Lemma call_without_timestamps c st :
  _cache_timestamps st = [] -> call c st = count_miss st.
Proof.
  intros Hts. unfold call. rewrite process_miss; [reflexivity|].
  rewrite (no_timestamp_no_hit _ _ _ Hts). apply andb_false_r.
Qed.

Lemma run_calls_without_timestamps calls st :
  _cache_timestamps st = [] ->
  _cache (run_calls calls st) = _cache st
  /\ _cache_timestamps (run_calls calls st) = []
  /\ cache_hits (run_calls calls st) = cache_hits st
  /\ cache_misses (run_calls calls st) = (cache_misses st + length calls)%nat
  /\ total_processed (run_calls calls st) = total_processed st
  /\ uuid_counter (run_calls calls st) = uuid_counter st.
Proof.
  revert st. unfold run_calls.
  induction calls as [|c calls IH]; intros st Hts; cbn [fold_left length].
  - repeat split; [exact Hts|lia].
  - rewrite (@call_without_timestamps c st Hts).
    destruct (IH (count_miss st) Hts) as (H1 & H2 & H3 & H4 & H5 & H6).
    rewrite H1, H2, H3, H4, H5, H6. simpl. repeat split. lia.
Qed.

(** X1: a processor never serves a result from its cache, because it never
    has one to store.  After any sequence of calls on a new processor, of
    any rows, levels, cache flags and times, the two cache dicts are still
    empty, no hit was counted, every call counted as a miss, no row counts
    as processed and no id was drawn; and the next call, whatever it is,
    a repetition of an earlier one within the time to live included,
    raises the [ValueError] of a computation. *)
Theorem new_processor_never_caches
    (ttl : Z) (calls : list Call) (next : Call) :
  let st := run_calls calls (init ttl) in
  _cache st = []
  /\ _cache_timestamps st = []
  /\ get_processing_stats st = (0, length calls, 0)%nat
  /\ uuid_counter st = 0%nat
  /\ process_recruitment_metrics (call_rows next) (call_level next)
       (call_use_cache next) (call_time next) st
     = (Raise (processing_error (call_rows next)), count_miss st)
  /\ exn_cls (processing_error (call_rows next)) = ValueError.
Proof.
  cbv zeta.
  destruct (@run_calls_without_timestamps calls (init ttl) eq_refl)
    as (H1 & H2 & H3 & H4 & H5 & H6).
  split; [exact H1|]. split; [exact H2|]. split.
  { unfold get_processing_stats. now rewrite H3, H4, H5. }
  split; [exact H6|]. split; [|reflexivity].
  apply process_miss. rewrite (no_timestamp_no_hit _ _ _ H2).
  apply andb_false_r.
Qed.

(** The same rows twice, 299 seconds apart, on a processor that keeps its
    results for 300 seconds. *)
Example same_rows_twice_within_ttl :
  let c := mkCall ETLFacts.sample_rows weekly true 1000 in
  let st1 := run_calls [c] (init 300) in
  process_recruitment_metrics ETLFacts.sample_rows weekly true 1299 st1
  = (Raise (mkExn ValueError
              "Error processing recruitment metrics: 'MetricsProcessor' object has no attribute '_combine_processed_chunks'"),
     count_miss st1)
  /\ get_processing_stats (count_miss st1) = (0, 2, 0)%nat.
Proof. split; vm_compute; reflexivity. Qed.

End ProcessorFacts.

(* ================================================================== *)
(** * Aggregates of a chunk, trend points, range filter *)
(* ================================================================== *)

Module AggregateFacts.

Import MetricsProcessor.
Local Open Scope Z_scope.

Lemma fold_min_attained l a : In (fold_left Z.min l a) (a :: l).
Proof.
  revert a. induction l as [|y l IH]; intros a; simpl; [now left|].
  destruct (IH (Z.min a y)) as [H|H]; [|now right; right].
  rewrite <- H. destruct (Z.min_spec a y) as [[_ E]|[_ E]]; rewrite E; auto.
Qed.

Lemma fold_max_attained l a : In (fold_left Z.max l a) (a :: l).
Proof.
  revert a. induction l as [|y l IH]; intros a; simpl; [now left|].
  destruct (IH (Z.max a y)) as [H|H]; [|now right; right].
  rewrite <- H. destruct (Z.max_spec a y) as [[_ E]|[_ E]]; rewrite E; auto.
Qed.

(** X5: the aggregate of a chunk never counts more filled requisitions
    than requisitions, and its period is the tightest one that holds the
    rows: both ends are creation times of rows of the chunk, and every
    row was created between them. *)
Theorem chunk_aggregate_counts_and_period (chunk : list Requisition)
    (level : AggregationLevel) (m : ChunkMetrics) :
  _process_metrics_chunk chunk level = Ok m ->
  (filled_reqs m <= total_reqs m)%nat
  /\ exists lo hi,
       period_start m = Some lo /\ period_end m = Some hi
       /\ In lo (map created_at chunk) /\ In hi (map created_at chunk)
       /\ forall r, In r chunk -> lo <= created_at r <= hi.
Proof.
  intros H. destruct chunk as [|r0 chunk]; [discriminate|].
  rewrite MetricsFacts.process_chunk_nonempty in H by discriminate.
  injection H as <-. cbn [filled_reqs total_reqs period_start period_end].
  split; [apply (MetricsFacts.filter_length_le is_filled (r0 :: chunk))|].
  cbn [map ts_min ts_max]. eexists _, _.
  split; [reflexivity|]. split; [reflexivity|].
  split; [apply fold_min_attained|]. split; [apply fold_max_attained|].
  intros r Hr.
  destruct (TrendFacts.fold_min_le (map created_at chunk) (created_at r0))
    as [H1 H2].
  destruct (TrendFacts.fold_max_ge (map created_at chunk) (created_at r0))
    as [H3 H4].
  destruct Hr as [<-|Hr]; [lia|].
  pose proof (H2 _ (in_map created_at _ _ Hr)).
  pose proof (H4 _ (in_map created_at _ _ Hr)). lia.
Qed.

Lemma chunk_aggregate_counts_and_period_witness :
  exists m,
    _process_metrics_chunk ETLFacts.sample_rows weekly = Ok m
    /\ (filled_reqs m <= total_reqs m)%nat
    /\ period_start m = Some 0 /\ period_end m = Some 86400.
Proof.
  eexists. split; [reflexivity|].
  split; [|split; reflexivity].
  apply (@chunk_aggregate_counts_and_period ETLFacts.sample_rows weekly).
  reflexivity.
Defined.

Lemma percent_zero n : (percent 0 n == 0)%Q.
Proof. unfold percent. simpl. unfold Qdiv. now rewrite !Qmult_0_l. Qed.

Lemma percent_positive a b : (0 < a)%nat -> (0 < b)%nat -> (0 < percent a b)%Q.
Proof.
  intros Ha Hb. unfold percent.
  apply Qmult_lt_0_compat; [|reflexivity].
  apply Qlt_shift_div_l; [unfold Qlt, inject_Z; simpl; lia|].
  rewrite Qmult_0_l. unfold Qlt, inject_Z; simpl. lia.
Qed.

Lemma skill_reqs_present s (df : list Requisition) r :
  In r df -> In s (required_skills r) -> (0 < length (skill_reqs (Some s) df))%nat.
Proof.
  intros Hr Hs.
  assert (Hin : In r (skill_reqs (Some s) df)).
  { apply filter_In. split; [exact Hr|]. simpl. apply existsb_exists.
    exists s. split; [exact Hs|apply String.eqb_refl]. }
  destruct (skill_reqs (Some s) df); [destruct Hin|simpl; lia].
Qed.

Lemma skill_reqs_nan (df : list Requisition) : skill_reqs None df = [].
Proof. induction df as [|r df IH]; [reflexivity|exact IH]. Qed.

(** X6: the skill dict of a frame has one entry for each skill that some
    row lists and for no other skill; the value of every entry is a
    percentage between 0 and 100, above 0 for a skill, and 0 for the NaN
    key that rows with an empty skill list leave. *)
Theorem skill_metrics_cover_listed_skills (df : list Requisition) :
  (forall s,
      (exists r, In r df /\ In s (required_skills r))
      <-> exists p, In (Some s, p) (_calculate_skill_metrics df))
  /\ (forall k p, In (k, p) (_calculate_skill_metrics df) ->
        (0 <= p)%Q /\ (p <= 100)%Q)
  /\ (forall s p, In (Some s, p) (_calculate_skill_metrics df) -> (0 < p)%Q)
  /\ (forall p, In (None, p) (_calculate_skill_metrics df) -> (p == 0)%Q)
  /\ ((exists r, In r df /\ required_skills r = [])
      <-> exists p, In (None, p) (_calculate_skill_metrics df)).
Proof.
  assert (Hentry : forall k p,
    In (k, p) (_calculate_skill_metrics df) <->
    p = percent (length (skill_reqs k df)) (length df)
    /\ exists x, In x (map required_skills df)
                 /\ match k with Some s => In s x | None => x = [] end).
  { intros k p. unfold _calculate_skill_metrics. rewrite in_map_iff. split.
    - intros (k' & E & Hk'). injection E as -> <-.
      apply MetricsFacts.unique_In, MetricsFacts.explode_In in Hk'. auto.
    - intros (-> & Hx). exists k. split; [reflexivity|].
      now apply MetricsFacts.unique_In, MetricsFacts.explode_In. }
  assert (Hrows : forall k p, In (k, p) (_calculate_skill_metrics df) ->
                              (0 < length df)%nat).
  { intros k p Hk. apply Hentry in Hk. destruct Hk as (_ & x & Hx & _).
    apply in_map_iff in Hx. destruct Hx as (r & _ & Hr).
    destruct df; [destruct Hr|simpl; lia]. }
  split; [|split; [|split; [|split]]].
  - intros s. split.
    + intros (r & Hr & Hs). eexists. apply Hentry. split; [reflexivity|].
      exists (required_skills r). split; [now apply in_map|exact Hs].
    + intros (p & Hp). apply Hentry in Hp. destruct Hp as (_ & x & Hx & Hs).
      apply in_map_iff in Hx. destruct Hx as (r & <- & Hr). now exists r.
  - intros k p Hk. pose proof (Hrows _ _ Hk) as Hlen.
    apply Hentry in Hk. destruct Hk as (-> & _).
    apply MetricsFacts.percent_bounds; [exact Hlen|].
    apply MetricsFacts.filter_length_le.
  - intros s p Hp. pose proof (Hrows _ _ Hp) as Hlen.
    apply Hentry in Hp. destruct Hp as (-> & x & Hx & Hs).
    apply in_map_iff in Hx. destruct Hx as (r & <- & Hr).
    apply percent_positive; [|exact Hlen].
    now apply skill_reqs_present with (r := r).
  - intros p Hp. apply Hentry in Hp. destruct Hp as (-> & _).
    rewrite skill_reqs_nan. apply percent_zero.
  - split.
    + intros (r & Hr & Hs). eexists. apply Hentry. split; [reflexivity|].
      exists (required_skills r). split; [now apply in_map|exact Hs].
    + intros (p & Hp). apply Hentry in Hp. destruct Hp as (_ & x & Hx & Hs).
      apply in_map_iff in Hx. destruct Hx as (r & <- & Hr). now exists r.
Qed.

(** ** The order of the trend points *)

(** Whether the week that ends at [label] holds a row. *)
Definition has_rows (df : list Requisition) (label : Z) : bool :=
  match filter (in_week label) df with
  | [] => false
  | _ => true
  end.

Lemma trend_dates (df : list Requisition) :
  map date (_calculate_trends df) = filter (has_rows df) (week_bins df).
Proof.
  unfold _calculate_trends, has_rows.
  induction (week_bins df) as [|label labels IH]; [reflexivity|].
  cbn [flat_map filter]. rewrite map_app, IH.
  destruct (filter (in_week label) df); reflexivity.
Qed.

Lemma has_rows_row (df : list Requisition) label :
  has_rows df label = true ->
  exists r, In r df /\ Calendar.week_label (created_at r) = label.
Proof.
  unfold has_rows. destruct (filter (in_week label) df) as [|r g] eqn:E;
    [discriminate|]. intros _.
  assert (Hr : In r (filter (in_week label) df)) by (rewrite E; now left).
  apply filter_In in Hr. destruct Hr as [Hr Hw]. exists r.
  split; [exact Hr|]. now apply Z.eqb_eq in Hw.
Qed.

Lemma week_steps_increase first a n :
  StronglySorted Z.lt
    (map (fun i => first + Calendar.week_seconds * Z.of_nat i) (seq a n)).
Proof.
  revert a. induction n as [|n IH]; intros a; cbn [seq map]; constructor.
  - apply IH.
  - apply Forall_forall. intros x Hx. apply in_map_iff in Hx.
    destruct Hx as (i & <- & Hi). apply in_seq in Hi.
    unfold Calendar.week_seconds, Calendar.seconds_per_day. lia.
Qed.

Lemma week_bins_increase (df : list Requisition) :
  StronglySorted Z.lt (week_bins df).
Proof.
  unfold week_bins.
  destruct (ts_min _); [|constructor]. destruct (ts_max _); [|constructor].
  apply week_steps_increase.
Qed.

Lemma filter_increase (keep : Z -> bool) (l : list Z) :
  StronglySorted Z.lt l -> StronglySorted Z.lt (filter keep l).
Proof.
  induction 1 as [|a l Hs IH Ha]; simpl; [constructor|].
  destruct (keep a); [|exact IH]. constructor; [exact IH|].
  apply Forall_forall. intros x Hx. apply filter_In in Hx.
  rewrite Forall_forall in Ha. now apply Ha.
Qed.

Lemma increase_distinct (l : list Z) : StronglySorted Z.lt l -> NoDup l.
Proof.
  induction 1 as [|a l Hs IH Ha]; constructor; [|exact IH].
  intros Hin. rewrite Forall_forall in Ha. specialize (Ha a Hin). lia.
Qed.

Lemma trend_date_row (df : list Requisition) label :
  In label (map date (_calculate_trends df)) ->
  exists r, In r df /\ Calendar.week_label (created_at r) = label.
Proof.
  intros Hl. rewrite trend_dates in Hl. apply filter_In in Hl.
  now apply has_rows_row.
Qed.

Lemma trend_point_row (df : list Requisition) p :
  In p (_calculate_trends df) ->
  exists r, In r df /\ date p = Calendar.week_label (created_at r).
Proof.
  intros Hp. apply (in_map date) in Hp. apply trend_date_row in Hp.
  destruct Hp as (r & Hr & E).
  now exists r.
Qed.

(** X7: the trend points come in strictly increasing order of their
    dates, so no two of them stand for the same week; every date is the
    week label of a row, there are never more points than rows, and a
    frame with a row gives at least one point. *)
Theorem trend_points_follow_the_weeks (df : list Requisition) :
  StronglySorted Z.lt (map date (_calculate_trends df))
  /\ (forall p, In p (_calculate_trends df) ->
        exists r, In r df /\ date p = Calendar.week_label (created_at r))
  /\ (length (_calculate_trends df) <= length df)%nat
  /\ (df <> [] -> _calculate_trends df <> []).
Proof.
  assert (Hsorted : StronglySorted Z.lt (map date (_calculate_trends df))).
  { rewrite trend_dates. apply filter_increase, week_bins_increase. }
  pose proof (@trend_date_row df) as Hrow.
  split; [exact Hsorted|]. split; [|split].
  - intros p Hp. now apply trend_point_row.
  - rewrite <- (length_map date),
      <- (length_map (fun r => Calendar.week_label (created_at r)) df).
    apply NoDup_incl_length; [now apply increase_distinct|].
    intros label Hl. destruct (Hrow label Hl) as (r & Hr & <-).
    now apply (in_map (fun r => Calendar.week_label (created_at r))).
  - intros Hne. destruct df as [|r df]; [congruence|].
    assert (Hin : In (Calendar.week_label (created_at r))
                    (map date (_calculate_trends (r :: df)))).
    { rewrite trend_dates. apply filter_In.
      split; [apply TrendFacts.week_label_in_bins; now left|].
      unfold has_rows.
      assert (Hr : In r (filter (in_week (Calendar.week_label (created_at r)))
                           (r :: df))).
      { apply filter_In. split; [now left|apply TrendFacts.in_week_own_label]. }
      destruct (filter _ (r :: df)); [destruct Hr|reflexivity]. }
    intros E. rewrite E in Hin. destruct Hin.
Qed.

(** ** The range filter of [analyze_time_to_hire] *)


End AggregateFacts.

(* ================================================================== *)
(** * The stages of the service, one by one *)
(* ================================================================== *)

Module StageFacts.

Import ETLService.
Local Open Scope Z_scope.
Local Open Scope etl_scope.

(** ** Extraction *)

(** A key that is absent or expired stays so as time passes. *)
Lemma contains_later (key : range_key) now dt (c : TTLCache.t range_key RawData) :
  0 <= dt ->
  TTLCache.contains range_key_eqb key now c = false ->
  TTLCache.contains range_key_eqb key (now + dt) c = false.
Proof.
  intros Hdt Hnow.
  destruct (TTLCache.contains range_key_eqb key (now + dt) c) eqn:E;
    [|reflexivity].
  apply ETLFacts.contains_earlier in E; [|exact Hdt].
  destruct E as [E _]. congruence.
Qed.

(** X9: an extraction that raises has cached nothing.  The error is the
    wrapped error of the store that failed, at least one store and at most
    six were accessed, the cache is as it was, and the key of the range is
    still absent at any later time: the next call for the range goes to
    the stores again. *)
Theorem failed_extract_caches_nothing (env : Env) (r : DateRange)
    (cs : option Z) (w w1 : World) (e : exn) :
  extract_recruitment_data env r cs w = (Raise e, w1) ->
  (exists store_error, e = wrap_extract_error store_error)
  /\ _cache w1 = _cache w
  /\ (store_calls w < store_calls w1 <= store_calls w + 6)%nat
  /\ forall dt, 0 <= dt ->
       TTLCache.contains range_key_eqb (extract_cache_key r) (clock w1 + dt)
         (_cache w1) = false.
Proof.
  intros H.
  assert (Hmiss : TTLCache.contains range_key_eqb (extract_cache_key r)
                    (clock w) (_cache w) = false).
  { destruct (TTLCache.contains _ _ _ _) eqn:Ec; [|reflexivity].
    destruct (ETLFacts.extract_hit env r cs w Ec) as (b & _ & Hb).
    rewrite Hb in H. discriminate. }
  assert (Hshape : _cache w1 = _cache w /\ clock w1 = clock w
                   /\ (store_calls w < store_calls w1 <= store_calls w + 6)%nat).
  { revert H. unfold extract_recruitment_data. rewrite Hmiss.
    unfold reraise, extract_from_stores, bind, store_call, cache_store, ret.
    simpl.
    destruct (get_pg_pool _ _);
      [|intros H; injection H as _ <-; simpl; repeat split; lia].
    destruct (get_mongo_db _ _);
      [|intros H; injection H as _ <-; simpl; repeat split; lia].
    destruct (pg_acquire _ _);
      [|intros H; injection H as _ <-; simpl; repeat split; lia].
    destruct (pg_cursor _ _ _ _);
      [|intros H; injection H as _ <-; simpl; repeat split; lia].
    destruct (find_candidates _ _ _ _);
      [|intros H; injection H as _ <-; simpl; repeat split; lia].
    destruct (find_communications _ _ _ _);
      [discriminate|intros H; injection H as _ <-; simpl; repeat split; lia]. }
  destruct Hshape as (Hcache & Hclock & Hcalls).
  split; [|split; [exact Hcache|split; [exact Hcalls|]]].
  - apply (ETLFacts.extract_error_tagged env r cs w). now rewrite H.
  - intros dt Hdt. rewrite Hcache, Hclock. now apply contains_later.
Qed.

Lemma failed_extract_caches_nothing_witness :
  exists e w1,
    extract_recruitment_data ETLFacts.failing_env ETLFacts.sample_range None
      (init 0) = (Raise e, w1)
    /\ _cache w1 = _cache (init 0)
    /\ store_calls w1 = 1%nat.
Proof.
  eexists _, _. split; [vm_compute; reflexivity|].
  split; [|reflexivity].
  refine (proj1 (proj2 (@failed_extract_caches_nothing ETLFacts.failing_env
                          ETLFacts.sample_range None (init 0) _ _ _))).
  vm_compute. reflexivity.
Defined.

(** X10: the cached bundle of a range is served for [ttl] seconds and no
    longer.  When a call has fetched a bundle, a call for the same range
    at least [ttl] seconds later finds the key gone and accesses the
    stores again, whether they answer or not. *)
Theorem extract_after_ttl_reads_stores_again (env : Env) (r : DateRange)
    (cs1 cs2 : option Z) (w w1 : World) (b : RawData) (dt : Z) :
  extract_recruitment_data env r cs1 w = (Ok b, w1) ->
  TTLCache.contains range_key_eqb (extract_cache_key r) (clock w) (_cache w)
    = false ->
  TTLCache.ttl (_cache w) <= dt ->
  TTLCache.contains range_key_eqb (extract_cache_key r) (clock w1 + dt)
    (_cache w1) = false
  /\ (store_calls w1
      < store_calls (snd (extract_recruitment_data env r cs2 (advance dt w1))))%nat.
Proof.
  intros H Hmiss Hdt.
  destruct (ETLFacts.extract_miss env r cs1 w Hmiss H) as (Hclock & Hcache & _).
  assert (Hgone : TTLCache.contains range_key_eqb (extract_cache_key r)
                    (clock w1 + dt) (_cache w1) = false).
  { rewrite Hclock, Hcache.
    rewrite ETLFacts.contains_setitem by apply ETLFacts.range_key_eqb_refl.
    apply Z.ltb_ge. lia. }
  split; [exact Hgone|].
  unfold extract_recruitment_data. cbn [advance clock _cache]. rewrite Hgone.
  unfold reraise, extract_from_stores, bind, store_call, cache_store, ret.
  simpl.
  destruct (get_pg_pool _ _); [|simpl; lia].
  destruct (get_mongo_db _ _); [|simpl; lia].
  destruct (pg_acquire _ _); [|simpl; lia].
  destruct (pg_cursor _ _ _ _); [|simpl; lia].
  destruct (find_candidates _ _ _ _); [|simpl; lia].
  destruct (find_communications _ _ _ _); simpl; lia.
Qed.

Lemma extract_after_ttl_reads_stores_again_witness :
  exists b w1,
    extract_recruitment_data ETLFacts.sample_env ETLFacts.sample_range None
      (init 0) = (Ok b, w1)
    /\ (store_calls w1
        < store_calls
            (snd (extract_recruitment_data ETLFacts.sample_env
                    ETLFacts.sample_range None (advance 3600 w1))))%nat.
Proof.
  eexists _, _. split; [vm_compute; reflexivity|].
  refine (proj2 (@extract_after_ttl_reads_stores_again ETLFacts.sample_env
                   ETLFacts.sample_range None None (init 0) _ _ 3600 _ _ _)).
  - vm_compute. reflexivity.
  - reflexivity.
  - simpl. lia.
Defined.

(** ** The split into chunks *)

Lemma split_sizes_count {A} (sizes : list nat) (l : list A) :
  length (split_sizes sizes l) = length sizes.
Proof.
  revert l. induction sizes as [|n sizes IH]; intros l; simpl; [reflexivity|].
  now rewrite IH.
Qed.

Lemma split_sizes_concat {A} (sizes : list nat) (l : list A) :
  concat (split_sizes sizes l) = firstn (list_sum sizes) l.
Proof.
  revert l. induction sizes as [|n sizes IH]; intros l; simpl; [reflexivity|].
  now rewrite IH, MetricsFacts.firstn_plus.
Qed.

Lemma split_sizes_lengths {A} (sizes : list nat) (l : list A) :
  (list_sum sizes <= length l)%nat ->
  map (@length A) (split_sizes sizes l) = sizes.
Proof.
  revert l. induction sizes as [|n sizes IH]; intros l Hsum; simpl in *;
    [reflexivity|].
  rewrite length_firstn, IH by (rewrite length_skipn; lia).
  f_equal. lia.
Qed.

Lemma list_sum_repeat (n k : nat) : list_sum (repeat n k) = (k * n)%nat.
Proof. induction k as [|k IH]; simpl; [reflexivity|]. now rewrite IH. Qed.

Lemma nth_repeat_inside {A} (a d : A) (n i : nat) :
  (i < n)%nat -> nth i (repeat a n) d = a.
Proof.
  revert i. induction n as [|n IH]; intros i Hi; [lia|].
  destruct i as [|i]; simpl; [reflexivity|]. apply IH. lia.
Qed.

(** The sizes [np.array_split] cuts [len] rows into. *)
Definition section_sizes (len k : nat) : list nat :=
  (repeat (S (len / k)) (len mod k) ++ repeat (len / k) (k - len mod k))%nat.

Lemma section_sizes_sum (len k : nat) :
  (0 < k)%nat -> list_sum (section_sizes len k) = len.
Proof.
  intros Hk. unfold section_sizes.
  rewrite list_sum_app, !list_sum_repeat.
  pose proof (Nat.div_mod_eq len k) as Hd.
  pose proof (Nat.mod_upper_bound len k ltac:(lia)) as Hm.
  nia.
Qed.

Lemma section_sizes_nth (len k i : nat) :
  (i < k)%nat ->
  nth i (section_sizes len k) 0%nat
  = (len / k + if (i <? len mod k)%nat then 1 else 0)%nat.
Proof.
  intros Hi. unfold section_sizes.
  pose proof (Nat.mod_upper_bound len k ltac:(lia)) as Hm.
  destruct (Nat.ltb_spec i (len mod k)) as [Hlt|Hge].
  - rewrite app_nth1 by now rewrite repeat_length.
    rewrite nth_repeat_inside by exact Hlt. lia.
  - rewrite app_nth2 by (rewrite repeat_length; lia).
    rewrite repeat_length, nth_repeat_inside by lia. lia.
Qed.

Lemma array_split_sections {A} (df : list A) (sections : Z) :
  0 < sections ->
  array_split df sections
  = Ok (split_sizes (section_sizes (length df) (Z.to_nat sections)) df).
Proof.
  intros Hs. unfold array_split.
  destruct (Z.leb_spec sections 0); [lia|reflexivity].
Qed.

Lemma section_chunk_size {A} (df : list A) (k i : nat) :
  (i < k)%nat ->
  length (nth i (split_sizes (section_sizes (length df) k) df) [])
  = (length df / k + if (i <? length df mod k)%nat then 1 else 0)%nat.
Proof.
  intros Hi.
  change (length (nth i (split_sizes _ df) []))
    with ((fun c : list A => length c)
            (nth i (split_sizes (section_sizes (length df) k) df) [])).
  rewrite <- (map_nth (fun c : list A => length c)).
  rewrite split_sizes_lengths by (rewrite section_sizes_sum; lia).
  now apply section_sizes_nth.
Qed.

(** Chunk [i] is empty exactly when the frame has at most [i] rows. *)
Lemma section_chunk_empty {A} (df : list A) (k i : nat) :
  (i < k)%nat ->
  nth i (split_sizes (section_sizes (length df) k) df) [] = []
  <-> (length df <= i)%nat.
Proof.
  intros Hi. rewrite <- length_zero_iff_nil, section_chunk_size by exact Hi.
  pose proof (Nat.div_mod_eq (length df) k) as Hd.
  pose proof (Nat.mod_upper_bound (length df) k ltac:(lia)) as Hm.
  destruct (Nat.ltb_spec i (length df mod k)); nia.
Qed.

(** X11: [np.array_split], as the transformation calls it.  A number of
    sections that is not positive raises [ValueError].  Otherwise the
    frame is cut into exactly that many chunks, which put back together
    in order give the frame; chunk [i] has [len / k] rows, and one more
    when [i < len mod k], so the sizes differ by at most one, and it is
    empty exactly when the frame has at most [i] rows. *)
Theorem array_split_partitions {A : Type} (df : list A) (sections : Z) :
  (sections <= 0 ->
   array_split df sections
   = Raise (mkExn ValueError "number sections must be larger than 0."))
  /\ (0 < sections ->
      exists chunks,
        array_split df sections = Ok chunks
        /\ length chunks = Z.to_nat sections
        /\ concat chunks = df
        /\ forall i, (i < Z.to_nat sections)%nat ->
             length (nth i chunks [])
             = (length df / Z.to_nat sections
                + if (i <? length df mod Z.to_nat sections)%nat
                  then 1 else 0)%nat
             /\ (nth i chunks [] = [] <-> (length df <= i)%nat)).
Proof.
  split; intros Hs.
  - unfold array_split. destruct (Z.leb_spec sections 0); [reflexivity|lia].
  - assert (Hk : (0 < Z.to_nat sections)%nat) by lia.
    eexists. split; [now apply array_split_sections|]. split; [|split].
    + rewrite split_sizes_count. unfold section_sizes.
      rewrite length_app, !repeat_length.
      pose proof (Nat.mod_upper_bound (length df) (Z.to_nat sections)). lia.
    + rewrite split_sizes_concat, section_sizes_sum by exact Hk.
      apply firstn_all.
    + intros i Hi.
      split; [now apply section_chunk_size|now apply section_chunk_empty].
Qed.

(** ** The date range of a chunk *)





(** ** The transformation *)

(** The three frames of a task that returns (its processor then served
    the metrics from an entry of its cache) have one row each. *)
Lemma chunk_task_rows env req cand comm w out :
  fst (_process_metrics_chunk env req cand comm w) = Ok out ->
  exists m skills a,
    out = {| out_metrics := [row_of_metrics m];
             out_skills := [skills];
             out_time_to_hire := [row_of_time_to_hire a] |}.
Proof.
  unfold _process_metrics_chunk, bind, process_recruitment_metrics, lift, ret.
  destruct (MetricsProcessor.process_recruitment_metrics _ _ _ _ _)
    as [[m|e] st]; simpl; [|discriminate].
  destruct (analyze_skills_data env cand) as [skills|]; simpl; [|discriminate].
  destruct (chunk_range req) as [range|]; simpl; [|discriminate].
  destruct (MetricsProcessor.analyze_time_to_hire _ _ _) as [a|]; simpl;
    [|discriminate].
  intros H. injection H as <-. now exists m, skills, a.
Qed.

(** What a transformation that returns has gathered: one output per
    worker, each from a task that returned. *)
Lemma transform_gathered env raw pw w pd w' :
  transform_metrics_data env raw pw w = (Ok pd, w') ->
  exists outs,
    length outs = Z.to_nat (py_or pw (_parallel_workers env))
    /\ 0 < py_or pw (_parallel_workers env)
    /\ Forall (fun out => exists m skills a,
                 out = {| out_metrics := [row_of_metrics m];
                          out_skills := [skills];
                          out_time_to_hire := [row_of_time_to_hire a] |}) outs
    /\ pd = {| recruitment_metrics := concat (map out_metrics outs);
               skill_analytics := concat (map out_skills outs);
               time_to_hire_analytics := concat (map out_time_to_hire outs) |}
    /\ ETLFacts.processor_calls (processor w')
       = (ETLFacts.processor_calls (processor w)
          + Z.to_nat (py_or pw (_parallel_workers env)))%nat.
Proof.
  unfold transform_metrics_data, reraise, bind, lift, gather, ret.
  unfold array_split at 1.
  destruct (Z.leb_spec (py_or pw (_parallel_workers env)) 0) as [Hle|Hpos];
    [discriminate|].
  destruct (array_split (candidates raw) _) as [cand_chunks|]; [|discriminate].
  match goal with
  | |- context [run_tasks ?ts w] => set (tasks := ts)
  end.
  assert (Htask : forall t, In t tasks -> exists req cand,
            t = _process_metrics_chunk env req cand (communications raw)).
  { intros t Hin. unfold tasks, chunk_tasks in Hin. apply in_map_iff in Hin.
    destruct Hin as (j & <- & _). now eexists _, _. }
  destruct (@ETLFacts.run_tasks_all ChunkOutput
              (fun r => forall out, r = Ok out ->
                 exists m skills a,
                   out = {| out_metrics := [row_of_metrics m];
                            out_skills := [skills];
                            out_time_to_hire := [row_of_time_to_hire a] |})
              tasks) with (w := w) as [Hall Hlen].
  { intros t Hin w0 out Hout. destruct (Htask t Hin) as (req & cand & ->).
    eapply chunk_task_rows. exact Hout. }
  pose proof (@ETLFacts.run_tasks_calls ChunkOutput tasks) as Hcalls.
  specialize (Hcalls (fun t Hin w0 =>
    match Htask t Hin with
    | ex_intro _ req (ex_intro _ cand Ht) =>
        eq_ind_r (fun t => ETLFacts.processor_calls (processor (snd (t w0)))
                           = S (ETLFacts.processor_calls (processor w0)))
          (ETLFacts.chunk_task_one_call env req cand (communications raw) w0) Ht
    end) w).
  assert (Hcount : length tasks = Z.to_nat (py_or pw (_parallel_workers env))).
  { unfold tasks, chunk_tasks. now rewrite length_map, length_seq. }
  destruct (run_tasks tasks w) as [rs w1]. simpl in Hall, Hlen, Hcalls.
  destruct (gathered rs) as [outs|] eqn:Eg; [|discriminate].
  intros H. injection H as <- <-.
  apply ETLFacts.gathered_ok in Eg. subst rs. rewrite length_map in Hlen.
  exists outs. split; [congruence|]. split; [exact Hpos|].
  split; [|split; [reflexivity|congruence]].
  apply Forall_forall. intros out Hout. rewrite Forall_forall in Hall.
  apply (Hall (Ok out)); [now apply in_map|reflexivity].
Qed.

(** A task on a processor without cache timestamps stops at its first
    step: the processor raises, and only its miss counter has moved. *)
Lemma chunk_task_without_timestamps env req cand comm w :
  MetricsProcessor._cache_timestamps (processor w) = [] ->
  _process_metrics_chunk env req cand comm w
  = (Raise (ProcessorFacts.processing_error req),
     set_processor (MetricsProcessor.count_miss (processor w)) w).
Proof.
  intros Hts.
  unfold _process_metrics_chunk, bind, process_recruitment_metrics.
  rewrite ProcessorFacts.process_miss; [reflexivity|].
  rewrite (ProcessorFacts.no_timestamp_no_hit _ _ _ Hts). apply andb_false_r.
Qed.

Lemma run_tasks_keeps {A} (P : World -> Prop) (tasks : list (M A)) :
  (forall t w, In t tasks -> P w -> P (snd (t w))) ->
  forall w, P w -> P (snd (run_tasks tasks w)).
Proof.
  induction tasks as [|t tasks IH]; intros Hkeep w Hw; [exact Hw|].
  simpl. pose proof (Hkeep t w (or_introl eq_refl) Hw) as H1.
  destruct (t w) as [r1 w1]. simpl in H1.
  pose proof (IH (fun t' w' Hin => Hkeep t' w' (or_intror Hin)) w1 H1) as H2.
  destruct (run_tasks tasks w1) as [rs w2]. exact H2.
Qed.

Lemma processing_error_of_first_chunk (df : list Requisition) (k : nat) :
  (0 < k)%nat ->
  ProcessorFacts.processing_error
    (nth 0 (split_sizes (section_sizes (length df) k) df) [])
  = ProcessorFacts.processing_error df.
Proof.
  intros Hk. pose proof (section_chunk_empty df Hk) as Hempty.
  destruct (nth 0 (split_sizes (section_sizes (length df) k) df) [])
    as [|r0 chunk]; destruct df as [|r df]; try reflexivity.
  - destruct Hempty as [Hlen _]. specialize (Hlen eq_refl). simpl in Hlen. lia.
  - destruct Hempty as [_ Hnil]. simpl in Hnil.
    specialize (Hnil (Nat.le_refl 0)). discriminate.
Qed.

(** X13: the transformation returns no frames.  In a service whose
    processor holds no cache timestamp (as after [__init__]), with a
    positive number of workers, the task of the first chunk fails in the
    processor and [asyncio.gather] raises its error, which the
    transformation wraps: the wrapped cast error when there is no
    requisition, the wrapped [AttributeError] of the missing merge method
    when there is one.  The processor still holds no cache timestamp
    afterwards, so the next transformation ends the same way. *)
Theorem transform_raises_at_the_first_task (env : Env) (raw : RawData)
    (pw : option Z) (w : World) :
  MetricsProcessor._cache_timestamps (processor w) = [] ->
  0 < py_or pw (_parallel_workers env) ->
  let out := transform_metrics_data env raw pw w in
  fst out
  = Raise (wrap_transform_error
             (ProcessorFacts.processing_error (requisitions raw)))
  /\ (requisitions raw <> [] ->
      fst out
      = Raise (mkExn Exception_
                 "Error transforming metrics data: Error processing recruitment metrics: 'MetricsProcessor' object has no attribute '_combine_processed_chunks'"))
  /\ MetricsProcessor._cache_timestamps (processor (snd out)) = []
  /\ MetricsProcessor.total_processed (processor (snd out))
     = MetricsProcessor.total_processed (processor w).
Proof.
  intros Hts Hpos. cbv zeta.
  set (k := Z.to_nat (py_or pw (_parallel_workers env))).
  assert (Hk : (0 < k)%nat) by (unfold k; lia).
  pose proof (array_split_sections (requisitions raw) Hpos) as Hreq.
  pose proof (array_split_sections (candidates raw) Hpos) as Hcand.
  fold k in Hreq, Hcand.
  set (req_chunks := split_sizes (section_sizes (length (requisitions raw)) k)
                       (requisitions raw)) in *.
  set (cand_chunks := split_sizes (section_sizes (length (candidates raw)) k)
                        (candidates raw)) in *.
  set (tasks := chunk_tasks env raw (py_or pw (_parallel_workers env))
                  req_chunks cand_chunks).
  set (P := fun w0 : World =>
              MetricsProcessor._cache_timestamps (processor w0) = []
              /\ MetricsProcessor.total_processed (processor w0)
                 = MetricsProcessor.total_processed (processor w)).
  assert (Hkeep : forall t w0, In t tasks -> P w0 -> P (snd (t w0))).
  { intros t w0 Hin [Hw0 Htot]. unfold tasks, chunk_tasks in Hin.
    apply in_map_iff in Hin. destruct Hin as (j & <- & _).
    rewrite chunk_task_without_timestamps by exact Hw0.
    split; [exact Hw0|exact Htot]. }
  assert (Hfirst : fst (transform_metrics_data env raw pw w)
                   = Raise (wrap_transform_error
                              (ProcessorFacts.processing_error
                                 (requisitions raw)))).
  { rewrite (ETLFacts.transform_unfold env raw pw w Hreq Hcand).
    fold tasks.
    destruct (@ETLFacts.run_tasks_nth ChunkOutput P tasks Hkeep w 0%nat
                (_process_metrics_chunk env (nth 0 req_chunks [])
                   (nth 0 cand_chunks []) (communications raw)))
      as (w0 & [Hw0 _] & Hnth).
    - split; [exact Hts|reflexivity].
    - unfold tasks, chunk_tasks.
      exact (ETLFacts.nth_error_map_seq
               (fun j => _process_metrics_chunk env (nth j req_chunks [])
                           (nth j cand_chunks []) (communications raw)) Hk).
    - rewrite chunk_task_without_timestamps in Hnth by exact Hw0.
      cbn [fst] in Hnth.
      destruct (fst (run_tasks tasks w)) as [|r rs]; [discriminate|].
      injection Hnth as ->. cbn [gathered].
      unfold req_chunks. now rewrite processing_error_of_first_chunk. }
  split; [exact Hfirst|]. split.
  { intros Hrows. rewrite Hfirst.
    destruct (requisitions raw); [congruence|reflexivity]. }
  assert (Hend : P (snd (transform_metrics_data env raw pw w))).
  { unfold transform_metrics_data, reraise, bind, lift, gather, ret.
    rewrite Hreq, Hcand. fold tasks.
    pose proof (@run_tasks_keeps ChunkOutput P tasks Hkeep w
                  (conj Hts eq_refl)) as Hrun.
    destruct (run_tasks tasks w) as [rs w1]. cbn [snd] in Hrun.
    destruct (gathered rs); exact Hrun. }
  exact Hend.
Qed.

Lemma transform_raises_at_the_first_task_witness :
  fst (transform_metrics_data ETLFacts.sample_env ETLFacts.sample_raw (Some 2)
         (init 0))
  = Raise (mkExn Exception_
             "Error transforming metrics data: Error processing recruitment metrics: 'MetricsProcessor' object has no attribute '_combine_processed_chunks'")
  /\ MetricsProcessor._cache_timestamps
       (processor (snd (transform_metrics_data ETLFacts.sample_env
                          ETLFacts.sample_raw (Some 2) (init 0)))) = [].
Proof.
  destruct (@transform_raises_at_the_first_task ETLFacts.sample_env
              ETLFacts.sample_raw (Some 2) (init 0) eq_refl eq_refl)
    as (_ & Hrows & Hts & _).
  split; [|exact Hts]. apply Hrows. discriminate.
Defined.

(** X28: the transformation starts every task or none.  With a number
    of workers that is zero or negative after the default is applied,
    [np.array_split] raises: the transformation fails with the wrapped
    [ValueError] before any task is created and the world is as before.
    With a positive number, every task is created and runs to its end
    even when an earlier one has failed: the processor is called once per
    worker whether the transformation returns or raises, and nothing but
    the processor changes. *)
Theorem transform_runs_every_task_or_none (env : Env) (raw : RawData)
    (pw : option Z) (w : World) :
  let workers := py_or pw (_parallel_workers env) in
  let out := transform_metrics_data env raw pw w in
  (workers <= 0 ->
   out = (Raise (wrap_transform_error
                   (mkExn ValueError "number sections must be larger than 0.")),
          w))
  /\ (0 < workers ->
      ETLFacts.processor_calls (processor (snd out))
      = (ETLFacts.processor_calls (processor w) + Z.to_nat workers)%nat
      /\ exists st, snd out = set_processor st w).
Proof.
  cbv zeta. split; intros Hworkers.
  - unfold transform_metrics_data, reraise, bind, lift, array_split.
    destruct (Z.leb_spec (py_or pw (_parallel_workers env)) 0); [|lia].
    reflexivity.
  - split; [|apply ETLFacts.transform_frame].
    unfold transform_metrics_data, reraise, bind, lift, gather, ret.
    rewrite !array_split_sections by exact Hworkers.
    match goal with
    | |- context [run_tasks ?ts w] => set (tasks := ts)
    end.
    assert (Hcalls : ETLFacts.processor_calls (processor (snd (run_tasks tasks w)))
                     = (ETLFacts.processor_calls (processor w) + length tasks)%nat).
    { apply ETLFacts.run_tasks_calls. intros t Hin w0.
      unfold tasks, chunk_tasks in Hin. apply in_map_iff in Hin.
      destruct Hin as (j & <- & _). apply ETLFacts.chunk_task_one_call. }
    unfold tasks at 2 in Hcalls. unfold chunk_tasks in Hcalls.
    rewrite length_map, length_seq in Hcalls.
    destruct (run_tasks tasks w) as [rs w1]. cbn [snd] in Hcalls.
    destruct (gathered rs); exact Hcalls.
Qed.

(** ** The loader *)

(** A load that meets no fault and finds every column. *)
Lemma load_without_fault env pd w metrics_rows skill_rows :
  (forall op n, sink_fault env op n = None) ->
  mapM (columns metrics_columns) (recruitment_metrics pd) = Ok metrics_rows ->
  mapM (columns skill_columns) (skill_analytics pd) = Ok skill_rows ->
  exists s,
    load_analytics_data env pd w = (Ok true, set_sinks s w)
    /\ pg_recruitment_metrics s = pg_recruitment_metrics (sinks w) ++ metrics_rows
    /\ pg_skill_metrics s = pg_skill_metrics (sinks w) ++ skill_rows
    /\ es_recruitment_analytics s
       = es_recruitment_analytics (sinks w) ++ recruitment_metrics pd.
Proof.
  intros Hfault Hm Hs.
  unfold load_analytics_data, reraise, transaction, executemany_metrics,
    executemany_skills, bulk, bind, lift, ret, update_sinks, sink_op.
  cbn -[mapM app].
  repeat (rewrite Hfault; cbn -[mapM app]).
  rewrite Hm. cbn -[mapM app].
  repeat (rewrite Hfault; cbn -[mapM app]).
  rewrite Hs. cbn -[mapM app].
  repeat (rewrite Hfault; cbn -[mapM app]).
  eexists. split; [reflexivity|]. cbn -[app].
  rewrite ?app_nil_r. repeat split.
Qed.

(** X15: the loader inserts and never updates.  With sinks that accept
    every operation and frames that have every column the inserts read,
    loading the same frames twice succeeds twice and leaves every row
    twice in both tables and every document twice in the search index. *)
Theorem load_twice_writes_rows_twice (env : Env) (pd : ProcessedData)
    (w : World) (metrics_rows skill_rows : list (list cell)) :
  (forall op n, sink_fault env op n = None) ->
  mapM (columns metrics_columns) (recruitment_metrics pd) = Ok metrics_rows ->
  mapM (columns skill_columns) (skill_analytics pd) = Ok skill_rows ->
  exists w1 w2,
    load_analytics_data env pd w = (Ok true, w1)
    /\ load_analytics_data env pd w1 = (Ok true, w2)
    /\ pg_recruitment_metrics (sinks w2)
       = pg_recruitment_metrics (sinks w) ++ metrics_rows ++ metrics_rows
    /\ pg_skill_metrics (sinks w2)
       = pg_skill_metrics (sinks w) ++ skill_rows ++ skill_rows
    /\ es_recruitment_analytics (sinks w2)
       = es_recruitment_analytics (sinks w)
           ++ recruitment_metrics pd ++ recruitment_metrics pd.
Proof.
  intros Hfault Hm Hs.
  destruct (@load_without_fault env pd w _ _ Hfault Hm Hs)
    as (s1 & H1 & Hm1 & Hs1 & He1).
  destruct (@load_without_fault env pd (set_sinks s1 w) _ _ Hfault Hm Hs)
    as (s2 & H2 & Hm2 & Hs2 & He2).
  eexists _, _. split; [exact H1|]. split; [exact H2|]. simpl in *.
  rewrite Hm2, Hs2, He2, Hm1, Hs1, He1, <- !app_assoc. repeat split.
Qed.

Lemma load_twice_writes_rows_twice_witness :
  exists w1 w2,
    load_analytics_data ETLFacts.sample_env ETLFacts.sample_frames (init 0)
      = (Ok true, w1)
    /\ load_analytics_data ETLFacts.sample_env ETLFacts.sample_frames w1
       = (Ok true, w2)
    /\ length (pg_recruitment_metrics (sinks w2)) = 2%nat
    /\ length (es_recruitment_analytics (sinks w2)) = 2%nat.
Proof.
  destruct (@load_twice_writes_rows_twice ETLFacts.sample_env
              ETLFacts.sample_frames (init 0) _ _
              (fun _ _ => eq_refl) eq_refl eq_refl)
    as (w1 & w2 & H1 & H2 & Hm & _ & He).
  exists w1, w2. split; [exact H1|]. split; [exact H2|].
  rewrite Hm, He. split; reflexivity.
Defined.

(** A load of rows built from a [RecruitmentMetrics] writes nothing. *)
Lemma load_of_service_rows_writes_nothing env m rest skill_frame tth_frame w :
  let w' := snd (load_analytics_data env
                   {| recruitment_metrics := row_of_metrics m :: rest;
                      skill_analytics := skill_frame;
                      time_to_hire_analytics := tth_frame |} w) in
  ETLFacts.tables (sinks w') = ETLFacts.tables (sinks w)
  /\ es_recruitment_analytics (sinks w') = es_recruitment_analytics (sinks w)
  /\ forall b, ~ In (OpInsertMetrics, b)
                 (skipn (length (sink_log (sinks w))) (sink_log (sinks w'))).
Proof.
  cbv zeta.
  unfold load_analytics_data, reraise, transaction, executemany_metrics,
    executemany_skills, bulk, bind, lift, ret, update_sinks, sink_op.
  cbn -[app skipn].
  repeat (ETLFacts.sink_step env;
          try (cbn -[app skipn]; rewrite <- ?app_assoc;
               rewrite skipn_app, skipn_all, Nat.sub_diag; cbn;
               repeat split; intros b Hb;
               repeat (destruct Hb as [Hb|Hb]; [discriminate|]);
               destruct Hb)).
Qed.

(** ** The size of the extraction cache *)

(** The keys of the cache are distinct and there are at most [maxsize]
    of them. *)
Definition cache_wf (c : TTLCache.t range_key RawData) : Prop :=
  NoDup (map fst (TTLCache.links c))
  /\ (length (TTLCache.links c) <= TTLCache.maxsize c)%nat.

Lemma range_key_eqb_eq a b : range_key_eqb a b = true -> a = b.
Proof.
  unfold range_key_eqb. intros H. apply andb_true_iff in H.
  destruct H as [H1 H2]. apply Z.eqb_eq in H1, H2.
  destruct a, b. simpl in *. congruence.
Qed.

Lemma NoDup_skipped {B} (n : nat) (l : list B) : NoDup l -> NoDup (skipn n l).
Proof.
  revert l. induction n as [|n IH]; intros l H; [exact H|].
  destruct l as [|b l]; [constructor|]. simpl. apply IH.
  now inversion H.
Qed.

Lemma NoDup_with_last {B} (l : list B) (b : B) :
  NoDup l -> ~ In b l -> NoDup (l ++ [b]).
Proof.
  induction 1 as [|x l Hx Hl IH]; intros Hb; simpl.
  - constructor; [intros []|constructor].
  - constructor.
    + rewrite in_app_iff. intros [H|[H|[]]]; [contradiction|].
      apply Hb. now left.
    + apply IH. intros H. apply Hb. now right.
Qed.

(** Dropping the entries of a key that is present shortens the list. *)
Lemma filter_drops_present {B} (p : B -> bool) (l : list B) :
  existsb p l = true ->
  (S (length (filter (fun x => negb (p x)) l)) <= length l)%nat.
Proof.
  induction l as [|b l IH]; simpl; [discriminate|].
  destruct (p b); simpl.
  - intros _. pose proof (MetricsFacts.filter_length_le
                            (fun x => negb (p x)) l). lia.
  - intros H. specialize (IH H). lia.
Qed.

Lemma setitem_wf key data now (c : TTLCache.t range_key RawData) :
  (1 <= TTLCache.maxsize c)%nat ->
  cache_wf c ->
  cache_wf (TTLCache.setitem range_key_eqb key data now c).
Proof.
  intros Hmax [Hkeys Hsize]. unfold cache_wf, TTLCache.setitem.
  cbn [TTLCache.links TTLCache.maxsize].
  set (l1 := filter (TTLCache.live (V:=RawData) now) (TTLCache.links c)).
  assert (Hk1 : NoDup (map fst l1))
    by (apply TrendFacts.distinct_keys_kept, Hkeys).
  assert (Hs1 : (length l1 <= TTLCache.maxsize c)%nat).
  { pose proof (MetricsFacts.filter_length_le
                  (TTLCache.live (V:=RawData) now) (TTLCache.links c)).
    fold l1 in H. lia. }
  set (l2 := if TTLCache.has_key range_key_eqb key l1 then l1
             else skipn (length l1 + 1 - TTLCache.maxsize c) l1).
  assert (Hk2 : NoDup (map fst l2)).
  { unfold l2. destruct (TTLCache.has_key _ _ _); [exact Hk1|].
    rewrite <- skipn_map. now apply NoDup_skipped. }
  set (fresh := fun e : range_key * (RawData * Z) =>
                  negb (range_key_eqb key (fst e))).
  assert (Hs3 : (S (length (filter fresh l2)) <= TTLCache.maxsize c)%nat).
  { unfold l2. destruct (TTLCache.has_key range_key_eqb key l1) eqn:Ehas.
    - pose proof (filter_drops_present
                    (fun e : range_key * (RawData * Z) =>
                       range_key_eqb key (fst e)) l1 Ehas) as Hdrop.
      exact (Nat.le_trans _ _ _ Hdrop Hs1).
    - pose proof (MetricsFacts.filter_length_le fresh
                    (skipn (length l1 + 1 - TTLCache.maxsize c) l1)) as Hle.
      rewrite length_skipn in Hle. lia. }
  split.
  - rewrite map_app. cbn [map fst]. apply NoDup_with_last.
    + apply TrendFacts.distinct_keys_kept, Hk2.
    + intros Hin. apply in_map_iff in Hin. destruct Hin as (e & He & Hin).
      apply filter_In in Hin. destruct Hin as [_ Hfresh].
      unfold fresh in Hfresh. rewrite He in Hfresh.
      now rewrite ETLFacts.range_key_eqb_refl in Hfresh.
  - rewrite length_app. simpl. lia.
Qed.

Lemma assoc_present {V} key (l : list (range_key * V)) x :
  assoc range_key_eqb key l = Some x ->
  existsb (fun e => range_key_eqb key (fst e)) l = true.
Proof.
  induction l as [|[k v] l IH]; simpl; [discriminate|].
  destruct (range_key_eqb key k); [reflexivity|exact IH].
Qed.

(** A read moves a link and adds none. *)
Lemma touch_wf key (c : TTLCache.t range_key RawData) :
  cache_wf c ->
  cache_wf (ETLFacts.touch range_key_eqb key c)
  /\ TTLCache.maxsize (ETLFacts.touch range_key_eqb key c) = TTLCache.maxsize c
  /\ TTLCache.ttl (ETLFacts.touch range_key_eqb key c) = TTLCache.ttl c.
Proof.
  intros [Hkeys Hsize].
  destruct (ETLFacts.links_touch range_key_eqb key c) as (Hl & Hm & Ht).
  split; [|split; assumption].
  unfold cache_wf. rewrite Hl, Hm. unfold TTLCache.move_to_end.
  destruct (assoc range_key_eqb key (TTLCache.links c)) as [x|] eqn:E;
    [|split; assumption].
  split.
  - rewrite map_app. cbn [map fst]. apply NoDup_with_last.
    + apply TrendFacts.distinct_keys_kept, Hkeys.
    + intros Hin. apply in_map_iff in Hin. destruct Hin as (e & He & Hin).
      apply filter_In in Hin. destruct Hin as [_ Hfresh].
      rewrite He in Hfresh.
      now rewrite ETLFacts.range_key_eqb_refl in Hfresh.
  - rewrite length_app. cbn [length].
    pose proof (filter_drops_present
                  (fun e : range_key * (RawData * Z) =>
                     range_key_eqb key (fst e))
                  (TTLCache.links c) (assoc_present _ _ E)) as Hdrop.
    lia.
Qed.

(** X26: the extraction cache never outgrows its [maxsize] (100 in the
    service) and never holds two bundles for one range: both hold of the
    empty cache of a new service and every call of
    [extract_recruitment_data] keeps them, whether it is served from the
    cache, fetches and stores a bundle, or raises. *)
Theorem extraction_cache_stays_within_maxsize (env : Env) (r : DateRange)
    (cs : option Z) (w : World) :
  (1 <= TTLCache.maxsize (_cache w))%nat ->
  cache_wf (_cache w) ->
  let w' := snd (extract_recruitment_data env r cs w) in
  cache_wf (_cache w')
  /\ TTLCache.maxsize (_cache w') = TTLCache.maxsize (_cache w)
  /\ TTLCache.ttl (_cache w') = TTLCache.ttl (_cache w).
Proof.
  intros Hmax Hwf. cbv zeta. unfold extract_recruitment_data.
  destruct (TTLCache.contains _ _ _ _).
  - pose proof (ETLFacts.getitem_touch range_key_eqb (extract_cache_key r)
                  (clock w) (_cache w)) as Hread.
    destruct (TTLCache.getitem _ _ _ _) as [[b|] c]; cbn [snd] in Hread;
      subst c; cbn [snd set_cache _cache]; now apply touch_wf.
  - unfold reraise, extract_from_stores, bind, store_call, cache_store, ret.
    simpl.
    destruct (get_pg_pool _ _); [|simpl; auto].
    destruct (get_mongo_db _ _); [|simpl; auto].
    destruct (pg_acquire _ _); [|simpl; auto].
    destruct (pg_cursor _ _ _ _); [|simpl; auto].
    destruct (find_candidates _ _ _ _); [|simpl; auto].
    destruct (find_communications _ _ _ _); [|simpl; auto].
    cbn [snd set_cache _cache]. split; [|split; reflexivity].
    now apply setitem_wf.
Qed.

Lemma extraction_cache_stays_within_maxsize_witness :
  (length (TTLCache.links
             (_cache (snd (extract_recruitment_data ETLFacts.sample_env
                             ETLFacts.sample_range None (init 0))))) <= 100)%nat.
Proof.
  destruct (@extraction_cache_stays_within_maxsize ETLFacts.sample_env
              ETLFacts.sample_range None (init 0))
    as ((_ & Hsize) & Hmax & _).
  - simpl. lia.
  - split; [constructor|simpl; lia].
  - rewrite Hmax in Hsize. exact Hsize.
Defined.

End StageFacts.

(* ================================================================== *)
(** * Runs of the pipeline *)
(* ================================================================== *)

Module PipelineFacts.

Import ETLService.
Local Open Scope Z_scope.
Local Open Scope etl_scope.

(** The frames of a transformation that returns start with a row built
    from a [RecruitmentMetrics]. *)
Lemma transform_first_row env raw pw w pd w' :
  transform_metrics_data env raw pw w = (Ok pd, w') ->
  exists m rest,
    pd = {| recruitment_metrics := row_of_metrics m :: rest;
            skill_analytics := skill_analytics pd;
            time_to_hire_analytics := time_to_hire_analytics pd |}.
Proof.
  intros H.
  destruct (StageFacts.transform_gathered _ _ _ _ H)
    as (outs & Hlen & Hpos & Hall & -> & _).
  destruct outs as [|out outs]; [simpl in Hlen; lia|].
  inversion Hall as [|? ? (m & skills & a & ->) _]; subst.
  simpl. now eexists _, _.
Qed.

(** What a run leaves of the clock, the extraction cache and the count of
    store accesses is what its extraction left. *)
Lemma pipeline_after_extract env dr cfg w :
  let cs := Some (config_get cfg_chunk_size cfg (_chunk_size env)) in
  let out := run_etl_pipeline env dr cfg w in
  let ex := extract_recruitment_data env dr cs w in
  clock (snd out) = clock (snd ex)
  /\ _cache (snd out) = _cache (snd ex)
  /\ store_calls (snd out) = store_calls (snd ex).
Proof.
  cbv zeta. unfold run_etl_pipeline.
  set (cs := Some (config_get cfg_chunk_size cfg (_chunk_size env))).
  set (pw := Some (config_get cfg_parallel_workers cfg (_parallel_workers env))).
  destruct (ETLFacts.pipeline_outcome env (extract_recruitment_data env)
              (transform_metrics_data env) (load_analytics_data env) dr cfg w)
    as [(raw & w1 & pd & w2 & success & w3 & Hex & Htr & Hld & ->)
       |(e & w' & -> & [Hex|[(raw & w1 & Hex & Htr)
                            |(raw & w1 & pd & w2 & Hex & Htr & Hld)]])];
    fold cs in Hex; try fold pw in Htr; rewrite Hex; cbn [fst snd].
  - destruct (ETLFacts.transform_frame env raw pw w1) as [st Hw2].
    destruct (ETLFacts.load_frame env pd w2) as (s & ops & Hw3 & _).
    rewrite Htr in Hw2. rewrite Hld in Hw3. cbn [snd] in *. subst w3 w2.
    repeat split.
  - repeat split.
  - destruct (ETLFacts.transform_frame env raw pw w1) as [st Hw2].
    rewrite Htr in Hw2. cbn [snd] in *. subst w'. repeat split.
  - destruct (ETLFacts.transform_frame env raw pw w1) as [st Hw2].
    destruct (ETLFacts.load_frame env pd w2) as (s & ops & Hw3 & _).
    rewrite Htr in Hw2. rewrite Hld in Hw3. cbn [snd] in *. subst w' w2.
    repeat split.
Qed.

(** X16: the pipeline of the service never returns and never writes.
    Whatever the stores and the sinks do, a run ends with an exception
    after printing one failure line; the two tables and the search index
    are as before, and no insert was sent.  (If the first two stages pass,
    the loader looks up [requisition_id] in rows that have no such
    column.) *)
Theorem service_pipeline_raises_and_writes_nothing (env : Env)
    (dr : DateRange) (cfg : option Config) (w : World) :
  let out := run_etl_pipeline env dr cfg w in
  (exists e, fst out = Raise e
             /\ stdout (snd out)
                = stdout w ++ [LogFailed ("ETL Pipeline failed: " ++ str e)])
  /\ ETLFacts.tables (sinks (snd out)) = ETLFacts.tables (sinks w)
  /\ es_recruitment_analytics (sinks (snd out))
     = es_recruitment_analytics (sinks w)
  /\ forall b, ~ In (OpInsertMetrics, b)
                 (skipn (length (sink_log (sinks w)))
                    (sink_log (sinks (snd out)))).
Proof.
  cbv zeta. unfold run_etl_pipeline.
  set (cs := Some (config_get cfg_chunk_size cfg (_chunk_size env))).
  set (pw := Some (config_get cfg_parallel_workers cfg (_parallel_workers env))).
  destruct (ETLFacts.extract_frame env dr cs w) as (_ & Hsk & _ & Hout & _).
  destruct (ETLFacts.pipeline_outcome env (extract_recruitment_data env)
              (transform_metrics_data env) (load_analytics_data env) dr cfg w)
    as [(raw & w1 & pd & w2 & success & w3 & Hex & Htr & Hld & ->)
       |(e & w' & -> & [Hex|[(raw & w1 & Hex & Htr)
                            |(raw & w1 & pd & w2 & Hex & Htr & Hld)]])];
    fold cs in Hex; try fold pw in Htr; rewrite Hex in *; cbn [fst snd] in *.
  - pose proof (ETLFacts.transform_output_never_loads _ _ _ _ w2 Htr) as Hno.
    rewrite Hld in Hno. discriminate.
  - simpl. rewrite Hsk, Hout, skipn_all. split; [now exists e|].
    repeat split. intros b [].
  - destruct (ETLFacts.transform_frame env raw pw w1) as [st Hw2].
    rewrite Htr in Hw2. cbn [snd] in *. subst w'. simpl.
    rewrite Hsk, Hout, skipn_all. split; [now exists e|].
    repeat split. intros b [].
  - destruct (ETLFacts.transform_frame env raw pw w1) as [st Hw2].
    rewrite Htr in Hw2. cbn [snd] in *. subst w2.
    destruct (transform_first_row _ _ _ _ Htr) as (m & rest & Epd).
    pose proof (StageFacts.load_of_service_rows_writes_nothing env m rest
                  (skill_analytics pd) (time_to_hire_analytics pd)
                  (set_processor st w1)) as Hload.
    rewrite <- Epd, Hld in Hload. cbn [snd sinks set_processor] in Hload.
    destruct (ETLFacts.load_frame env pd (set_processor st w1))
      as (s & ops & Hw3 & _).
    rewrite Hld in Hw3. cbn [snd] in Hw3.
    rewrite Hsk in Hload. destruct Hload as (Ht & Hes & Hins).
    split; [exists e; split; [reflexivity|]|].
    + subst w'. simpl. now rewrite Hout.
    + simpl. auto.
Qed.

(** X17: a stage that fails ends the run; the stages after it are not
    started.  When the extraction raises, the run raises the same
    exception, the processor and the sinks are exactly as before and the
    only line printed is the failure line.  When the transformation
    raises, the run raises the same exception and the sinks are exactly
    as before: no connection to a sink was asked for. *)
Theorem failed_stage_ends_the_run (env : Env) (dr : DateRange)
    (cfg : option Config) (w : World) :
  let cs := Some (config_get cfg_chunk_size cfg (_chunk_size env)) in
  let pw := Some (config_get cfg_parallel_workers cfg (_parallel_workers env)) in
  let out := run_etl_pipeline env dr cfg w in
  (forall e w1,
      extract_recruitment_data env dr cs w = (Raise e, w1) ->
      out = (Raise e, print (LogFailed ("ETL Pipeline failed: " ++ str e)) w1)
      /\ processor (snd out) = processor w
      /\ sinks (snd out) = sinks w)
  /\ (forall raw w1 e w2,
        extract_recruitment_data env dr cs w = (Ok raw, w1) ->
        transform_metrics_data env raw pw w1 = (Raise e, w2) ->
        out = (Raise e, print (LogFailed ("ETL Pipeline failed: " ++ str e)) w2)
        /\ sinks (snd out) = sinks w).
Proof.
  cbv zeta.
  destruct (ETLFacts.extract_frame env dr
              (Some (config_get cfg_chunk_size cfg (_chunk_size env))) w)
    as (_ & Hsk & Hpr & _).
  split.
  - intros e w1 Hex.
    unfold run_etl_pipeline, run_etl_pipeline_with, pipeline_stages, bind.
    rewrite Hex in *. cbn [snd] in *. split; [reflexivity|].
    simpl. auto.
  - intros raw w1 e w2 Hex Htr.
    unfold run_etl_pipeline, run_etl_pipeline_with, pipeline_stages, bind.
    rewrite Hex in *. rewrite Htr. cbn [snd] in *. split; [reflexivity|].
    destruct (ETLFacts.transform_frame env raw
                (Some (config_get cfg_parallel_workers cfg
                         (_parallel_workers env))) w1) as [st Hw2].
    rewrite Htr in Hw2. cbn [snd] in Hw2. subst w2. simpl. exact Hsk.
Qed.

(** X18: a run leaves the extracted bundle in the cache even when a later
    stage fails, so a second run for the same range within the time to
    live of the entry reads no store at all, whatever its configuration
    overrides are. *)
Theorem second_run_within_ttl_reads_no_store (env : Env) (dr : DateRange)
    (cfg cfg' : option Config) (w w1 : World) (raw : RawData) (dt : Z) :
  extract_recruitment_data env dr
    (Some (config_get cfg_chunk_size cfg (_chunk_size env))) w = (Ok raw, w1) ->
  TTLCache.contains range_key_eqb (extract_cache_key dr) (clock w) (_cache w)
    = false ->
  0 <= dt < TTLCache.ttl (_cache w) ->
  let after := snd (run_etl_pipeline env dr cfg w) in
  store_calls after = (store_calls w + 6)%nat
  /\ store_calls (snd (run_etl_pipeline env dr cfg' (advance dt after)))
     = store_calls after.
Proof.
  intros Hex Hmiss Hdt after.
  destruct (ETLFacts.extract_miss env dr _ w Hmiss Hex) as (Hclock & Hcache & Hcalls).
  destruct (pipeline_after_extract env dr cfg w) as (Hc1 & Hk1 & Hs1).
  fold after in Hc1, Hk1, Hs1. rewrite Hex in Hc1, Hk1, Hs1. cbn [snd] in *.
  split; [congruence|].
  destruct (pipeline_after_extract env dr cfg' (advance dt after))
    as (_ & _ & Hs2).
  rewrite Hs2.
  assert (Hhit : TTLCache.contains range_key_eqb (extract_cache_key dr)
                   (clock (advance dt after)) (_cache (advance dt after)) = true).
  { cbn [advance clock _cache]. rewrite Hc1, Hk1, Hclock, Hcache.
    rewrite ETLFacts.contains_setitem by apply ETLFacts.range_key_eqb_refl.
    apply Z.ltb_lt. lia. }
  destruct (ETLFacts.extract_hit env dr
              (Some (config_get cfg_chunk_size cfg' (_chunk_size env)))
              (advance dt after) Hhit) as (b & _ & ->).
  reflexivity.
Qed.

Lemma second_run_within_ttl_reads_no_store_witness :
  store_calls (snd (run_etl_pipeline ETLFacts.sample_env ETLFacts.sample_range
                      None (init 0))) = 6%nat
  /\ store_calls
       (snd (run_etl_pipeline ETLFacts.sample_env ETLFacts.sample_range None
               (advance 3599
                  (snd (run_etl_pipeline ETLFacts.sample_env
                          ETLFacts.sample_range None (init 0)))))) = 6%nat.
Proof.
  destruct (@second_run_within_ttl_reads_no_store ETLFacts.sample_env
              ETLFacts.sample_range None None (init 0)
              (snd (extract_recruitment_data ETLFacts.sample_env
                      ETLFacts.sample_range (Some 1000) (init 0)))
              {| requisitions := ETLFacts.sample_rows;
               candidates := [{| candidate_id := "c1"; skills := ["coq"%string];
                                 experience_years := 3; cand_created_at := 0 |}];
               communications := [] |} 3599) as [H1 H2].
  - vm_compute. reflexivity.
  - reflexivity.
  - simpl. lia.
  - rewrite H2, H1. split; reflexivity.
Defined.

End PipelineFacts.

(* ================================================================== *)
(** * The retry helper and the cached retrieval of the analytics service *)
(* ================================================================== *)

Module RetryFacts.

Import ETLService.
Local Open Scope Z_scope.

Section AnyRetrieval.

Variable A : Type.
Variable get_metrics : M A.
Variable max_retries : Z.

(** The retrieval itself never sleeps. *)
Hypothesis get_metrics_sleeps :
  forall w, sleeps (snd (get_metrics w)) = sleeps w.

Lemma retry_loop_delays :
  forall turns retries w,
    0 <= retries ->
    retries + Z.of_nat turns = max_retries ->
    (0 < turns)%nat ->
    let out := AnalyticsService.retry_loop get_metrics max_retries turns retries w in
    fst out <> Ok None
    /\ exists k,
         (k < turns)%nat
         /\ sleeps (snd out) = sleeps w ++ ETLFacts.backoff (retries + 1) k
         /\ (forall e, fst out = Raise e -> k = (turns - 1)%nat).
Proof.
  induction turns as [|turns IH]; intros retries w Hr Hsum Hpos; [lia|].
  cbn [AnalyticsService.retry_loop].
  pose proof (get_metrics_sleeps w) as Hsl.
  destruct (get_metrics w) as [[a|e] w1]; cbn [snd] in Hsl.
  - cbn [fst snd]. split; [discriminate|]. exists 0%nat.
    split; [lia|]. split; [simpl; now rewrite app_nil_r|]. discriminate.
  - destruct (Z.eqb_spec (retries + 1) max_retries) as [Heq|Hne].
    + cbn [fst snd]. split; [discriminate|]. exists 0%nat.
      split; [lia|]. split; [simpl; now rewrite app_nil_r|]. intros _ _. lia.
    + destruct (IH (retries + 1) (sleep (2 ^ (retries + 1)) w1))
        as (Hnone & k & Hk & Hdelays & Hlast); try lia.
      split; [exact Hnone|]. exists (S k). split; [lia|]. split.
      * rewrite Hdelays. cbn [sleep sleeps ETLFacts.backoff].
        rewrite Hsl, <- app_assoc. reflexivity.
      * intros e' He'. specialize (Hlast e' He'). lia.
Qed.

End AnyRetrieval.

(** X19: the backoff of [_get_metrics_with_retry], for any retrieval that
    does not sleep itself.  The delays slept are [2, 4, ..., 2^k], one
    after each failed attempt that is followed by another, with [k] below
    [max_retries]; when the helper raises, [k] is [max_retries - 1]: there
    is no delay after the last failure.  With a positive [max_retries] the
    helper returns a value or raises; with [max_retries] zero or negative
    it makes no attempt and returns [None]. *)
Theorem retry_sleeps_powers_of_two (A : Type) (get_metrics : M A)
    (max_retries : Z) (w : World) :
  (forall w0, sleeps (snd (get_metrics w0)) = sleeps w0) ->
  let out := AnalyticsService._get_metrics_with_retry get_metrics max_retries w in
  (max_retries <= 0 -> out = (Ok None, w))
  /\ (0 < max_retries ->
      fst out <> Ok None
      /\ exists k,
           Z.of_nat k < max_retries
           /\ sleeps (snd out) = sleeps w ++ ETLFacts.backoff 1 k
           /\ (forall e, fst out = Raise e -> Z.of_nat k = max_retries - 1)).
Proof.
  intros Hsleeps out. subst out.
  unfold AnalyticsService._get_metrics_with_retry. split; intros Hmax.
  - replace (Z.to_nat max_retries) with 0%nat by lia. reflexivity.
  - destruct (@retry_loop_delays A get_metrics max_retries Hsleeps
                (Z.to_nat max_retries) 0 w) as (Hnone & k & Hk & Hd & Hlast);
      try lia.
    split; [exact Hnone|]. exists k. split; [lia|]. split; [exact Hd|].
    intros e He. specialize (Hlast e He). lia.
Qed.

Lemma retry_sleeps_powers_of_two_witness :
  sleeps (snd (AnalyticsService._get_metrics_with_retry
                 (ETLFacts.flaky_metrics 5) 3 (init 0))) = [2; 4]
  /\ exists k,
       Z.of_nat k < 3
       /\ sleeps (snd (AnalyticsService._get_metrics_with_retry
                         (ETLFacts.flaky_metrics 5) 3 (init 0)))
          = sleeps (init 0) ++ ETLFacts.backoff 1 k.
Proof.
  split; [reflexivity|].
  destruct (@retry_sleeps_powers_of_two nat (ETLFacts.flaky_metrics 5) 3 (init 0))
    as [_ Hpos].
  - intros w0. unfold ETLFacts.flaky_metrics.
    destruct (store_calls w0 <? 5)%nat; reflexivity.
  - destruct (Hpos ltac:(lia)) as (_ & k & Hk & Hd & _).
    exists k. split; [exact Hk|exact Hd].
Defined.

(** A retrieval that keeps failing uses up the turns that are left. *)
Lemma retry_loop_exhausted failures max_retries :
  forall turns retries w,
    0 <= retries ->
    retries + Z.of_nat turns = max_retries ->
    (0 < turns)%nat ->
    (store_calls w + turns <= failures)%nat ->
    exists w',
      AnalyticsService.retry_loop (ETLFacts.flaky_metrics failures) max_retries
        turns retries w
      = (Raise (mkExn ConnectionError_ "store unreachable"), w')
      /\ store_calls w' = (store_calls w + turns)%nat
      /\ sleeps w' = sleeps w ++ ETLFacts.backoff (retries + 1) (turns - 1).
Proof.
  induction turns as [|turns IH]; intros retries w Hr Hsum Hpos Hf; [lia|].
  cbn [AnalyticsService.retry_loop]. unfold ETLFacts.flaky_metrics at 1.
  destruct (Nat.ltb_spec (store_calls w) failures) as [_|Hge]; [|lia].
  destruct (Z.eqb_spec (retries + 1) max_retries) as [Heq|Hne].
  - assert (turns = 0%nat) by lia. subst turns.
    eexists. split; [reflexivity|]. simpl.
    split; [lia|now rewrite app_nil_r].
  - destruct (IH (retries + 1)
                (sleep (2 ^ (retries + 1))
                   (set_store_calls (S (store_calls w)) w)))
      as (w' & Hrun & Hcalls & Hdelays); simpl; try lia.
    exists w'. split; [exact Hrun|]. simpl in Hcalls.
    split; [lia|]. rewrite Hdelays. simpl. rewrite <- app_assoc.
    replace (turns - 0)%nat with (S (turns - 1)) by lia. reflexivity.
Qed.

(** X20: [max_retries] bounds the attempts, not the retries after the
    first attempt.  Against a store that fails on its first [failures]
    calls, the helper calls it [failures + 1] times when that is at most
    [max_retries] and then returns the value; otherwise it calls it
    exactly [max_retries] times and raises the store's error unchanged.
    In both cases it has slept once less than it has called, for
    [2, 4, ...] seconds. *)
Theorem retry_attempts_at_most_max_retries (failures : nat)
    (max_retries : Z) (w : World) :
  store_calls w = 0%nat ->
  0 < max_retries ->
  let out :=
    AnalyticsService._get_metrics_with_retry (ETLFacts.flaky_metrics failures)
      max_retries w in
  store_calls (snd out) = Nat.min (S failures) (Z.to_nat max_retries)
  /\ sleeps (snd out)
     = sleeps w ++ ETLFacts.backoff 1 (store_calls (snd out) - 1)
  /\ ((failures < Z.to_nat max_retries)%nat -> fst out = Ok (Some failures))
  /\ ((Z.to_nat max_retries <= failures)%nat ->
      fst out = Raise (mkExn ConnectionError_ "store unreachable")).
Proof.
  intros Hw Hmax out. subst out.
  destruct (Nat.ltb_spec failures (Z.to_nat max_retries)) as [Hlt|Hge].
  - destruct (@ETLFacts.get_metrics_with_retry_recovers failures max_retries w
                Hw Hlt) as (w' & -> & Hdelays & Hcalls).
    cbn [fst snd]. rewrite Hcalls, Hdelays.
    replace (S failures - 1)%nat with failures by lia.
    repeat split; [lia|lia].
  - unfold AnalyticsService._get_metrics_with_retry.
    destruct (@retry_loop_exhausted failures max_retries
                (Z.to_nat max_retries) 0 w) as (w' & -> & Hcalls & Hdelays);
      try lia.
    cbn [fst snd]. rewrite Hcalls, Hdelays, Hw.
    repeat split; [lia|lia].
Qed.

Lemma retry_attempts_at_most_max_retries_witness :
  store_calls
    (snd (AnalyticsService._get_metrics_with_retry (ETLFacts.flaky_metrics 5) 3
            (init 0))) = 3%nat
  /\ fst (AnalyticsService._get_metrics_with_retry (ETLFacts.flaky_metrics 5) 3
            (init 0))
     = Raise (mkExn ConnectionError_ "store unreachable").
Proof.
  destruct (@retry_attempts_at_most_max_retries 5 3 (init 0) eq_refl eq_refl)
    as (Hcalls & _ & _ & Hraise).
  split; [exact Hcalls|]. apply Hraise. simpl. lia.
Defined.

End RetryFacts.

Module ServiceFacts.

Import AnalyticsServiceMetrics.
Local Open Scope Z_scope.

Lemma MetricType_eqb_refl t : MetricType_eqb t t = true.
Proof. now destruct t. Qed.

Lemma metrics_key_eqb_refl key : metrics_key_eqb key key = true.
Proof.
  destruct key as [[s e] [types|]]; unfold metrics_key_eqb; simpl;
    rewrite !Z.eqb_refl; [|reflexivity].
  apply ProcessorFacts.list_eqb_refl, MetricType_eqb_refl.
Qed.

(** Keys that compare equal name the same two dates. *)
Lemma metrics_key_eqb_dates a b :
  metrics_key_eqb a b = true -> fst a = fst b.
Proof.
  unfold metrics_key_eqb. intros H.
  apply andb_true_iff in H. destruct H as [H _].
  apply andb_true_iff in H. destruct H as [H1 H2].
  apply Z.eqb_eq in H1, H2. destruct a as [[s e] t], b as [[s' e'] t'].
  simpl in *. congruence.
Qed.

(** Every key of the response cache names a range whose end is not before
    its start. *)
Definition ordered_keys {A} (c : TTLCache.t metrics_key (option A)) : Prop :=
  Forall (fun l => fst (fst (fst l)) <= snd (fst (fst l))) (TTLCache.links c).

Lemma Forall_kept {B} (P : B -> Prop) (keep : B -> bool) (l : list B) :
  Forall P l -> Forall P (filter keep l).
Proof.
  intros H. apply Forall_forall. intros x Hx. apply filter_In in Hx.
  rewrite Forall_forall in H. now apply H.
Qed.

Lemma Forall_skipped {B} (P : B -> Prop) (n : nat) (l : list B) :
  Forall P l -> Forall P (skipn n l).
Proof.
  intros H. rewrite <- (firstn_skipn n l) in H.
  now apply Forall_app in H.
Qed.

Lemma setitem_ordered {A} key (v : option A) now c :
  fst (fst key) <= snd (fst key) ->
  ordered_keys c ->
  ordered_keys (TTLCache.setitem metrics_key_eqb key v now c).
Proof.
  intros Hkey Hc. unfold ordered_keys, TTLCache.setitem. cbn [TTLCache.links].
  apply Forall_app. split; [|now repeat constructor].
  apply Forall_kept.
  destruct (TTLCache.has_key _ _ _);
    [|apply Forall_skipped]; now apply Forall_kept.
Qed.

Lemma contains_ordered {A} key now (c : TTLCache.t metrics_key (option A)) :
  ordered_keys c ->
  TTLCache.contains metrics_key_eqb key now c = true ->
  fst (fst key) <= snd (fst key).
Proof.
  unfold ordered_keys, TTLCache.contains. intros Hc.
  induction (TTLCache.links c) as [|[k' x] l IH]; simpl; [discriminate|].
  inversion Hc as [|? ? Hk Hl]; subst.
  destruct (metrics_key_eqb key k') eqn:E; [|now apply IH].
  intros _. apply metrics_key_eqb_dates in E. rewrite E. exact Hk.
Qed.

(** A read moves a link and keeps its key. *)
Lemma touch_ordered {A} key (c : TTLCache.t metrics_key (option A)) :
  fst (fst key) <= snd (fst key) ->
  ordered_keys c ->
  ordered_keys (ETLFacts.touch metrics_key_eqb key c).
Proof.
  intros Hkey Hc. unfold ordered_keys.
  destruct (ETLFacts.links_touch metrics_key_eqb key c) as (-> & _).
  unfold TTLCache.move_to_end.
  destruct (assoc metrics_key_eqb key (TTLCache.links c)); [|exact Hc].
  apply Forall_app. split; [now apply Forall_kept|now repeat constructor].
Qed.

(** X21: a range whose end is before its start is never served, from the
    cache or otherwise.  The response cache of a service only ever holds
    keys of ordered ranges (it is empty at first, and every call keeps it
    so); hence a call with such a range finds no entry, fails in the
    [DateRange] validator with its [ValueError], logs it, and makes no
    retrieval: the world and the cache are as before. *)
Theorem invalid_range_is_never_served (A : Type)
    (get_metrics : DateRange -> option (list MetricType) -> ETLService.M A)
    (max_retries : Z) (start_date end_date : Z)
    (metric_types : option (list MetricType)) (s : Service A) :
  ordered_keys (_cache s) ->
  let out := get_recruitment_metrics get_metrics max_retries start_date end_date
               metric_types s in
  ordered_keys (_cache (snd out))
  /\ (end_date < start_date ->
      exists e,
        DateRange_new start_date end_date = Raise e
        /\ exn_cls e = ValueError
        /\ out = (Raise e,
                  log (LogError "Error retrieving recruitment metrics" e) s)).
Proof.
  intros Hc out. subst out. unfold get_recruitment_metrics.
  destruct (TTLCache.contains metrics_key_eqb _ _ (_cache s)) eqn:Ehit.
  - apply contains_ordered in Ehit; [|exact Hc]. split.
    + cbn [log _cache].
      pose proof (ETLFacts.getitem_touch metrics_key_eqb
                    (start_date, end_date, metric_types)
                    (ETLService.clock (world s)) (_cache s)) as Hread.
      destruct (TTLCache.getitem _ _ _ _) as [[cached|] c];
        cbn [snd] in Hread; subst c; cbn [log_and_reraise snd _cache];
        now apply touch_ordered.
    + intros Hbad. simpl in Ehit. lia.
  - unfold DateRange_new.
    destruct (Z.ltb_spec end_date start_date) as [Hbad|Hgood].
    + split; [exact Hc|]. intros _. eexists. repeat split.
    + split; [|intros Hbad; lia].
      destruct (AnalyticsService._get_metrics_with_retry _ _ _) as [[m|e] w'];
        cbn [log_and_reraise snd log _cache]; [|exact Hc].
      apply setitem_ordered; [exact Hgood|exact Hc].
Qed.

Lemma invalid_range_is_never_served_witness :
  fst (get_recruitment_metrics (fun _ _ => ETLFacts.flaky_metrics 0) 3 10 5 None
         (init nat (ETLService.init 0)))
  = Raise (mkExn ValueError "end_date must be after start_date")
  /\ ETLService.store_calls
       (world (snd (get_recruitment_metrics (fun _ _ => ETLFacts.flaky_metrics 0)
                      3 10 5 None (init nat (ETLService.init 0))))) = 0%nat.
Proof.
  destruct (@invalid_range_is_never_served nat
              (fun _ _ => ETLFacts.flaky_metrics 0) 3 10 5 None
              (init nat (ETLService.init 0)) (Forall_nil _)) as [_ Hbad].
  destruct (Hbad ltac:(lia)) as (e & He & _ & ->).
  injection He as <-. split; reflexivity.
Defined.

(** Time passing between two calls of the service. *)
Definition later {A} (dt : Z) (s : Service A) : Service A :=
  {| world := ETLService.advance dt (world s);
     _cache := _cache s;
     _logger := _logger s |}.

(** X22: a response is served from the cache of the service for fifteen
    minutes.  When a call that found no entry has returned, a call with
    the same dates and metric types less than [ttl] seconds later returns
    the same response, logs that it comes from the cache, and makes no
    retrieval: the world is untouched. *)
Theorem response_is_cached_within_ttl (A : Type)
    (get_metrics : DateRange -> option (list MetricType) -> ETLService.M A)
    (max_retries : Z) (start_date end_date : Z)
    (metric_types : option (list MetricType)) (s s1 : Service A)
    (response : option A) (dt : Z) :
  get_recruitment_metrics get_metrics max_retries start_date end_date
    metric_types s = (Ok response, s1) ->
  TTLCache.contains metrics_key_eqb (start_date, end_date, metric_types)
    (ETLService.clock (world s)) (_cache s) = false ->
  0 <= dt < TTLCache.ttl (_cache s) ->
  get_recruitment_metrics get_metrics max_retries start_date end_date
    metric_types (later dt s1)
  = (Ok response,
     log (LogInfo "Returning cached recruitment metrics") (later dt s1)).
Proof.
  unfold get_recruitment_metrics at 1. intros H Hmiss Hdt.
  rewrite Hmiss in H.
  destruct (DateRange_new start_date end_date) as [range|]; [|discriminate].
  destruct (AnalyticsService._get_metrics_with_retry _ _ _) as [[m|e] w'];
    [|discriminate].
  injection H as <- <-.
  unfold get_recruitment_metrics.
  cbn [later world _cache ETLService.advance ETLService.clock log].
  rewrite ETLFacts.contains_setitem by apply metrics_key_eqb_refl.
  rewrite ETLFacts.getitem_setitem by apply metrics_key_eqb_refl.
  assert (Hlive : (ETLService.clock w' + dt
                   <? ETLService.clock w' + TTLCache.ttl (_cache s)) = true)
    by (apply Z.ltb_lt; lia).
  rewrite Hlive. reflexivity.
Qed.

Lemma response_is_cached_within_ttl_witness :
  exists s1,
    get_recruitment_metrics (fun _ _ => ETLFacts.flaky_metrics 1) 3 0 86400 None
      (init nat (ETLService.init 0)) = (Ok (Some 1%nat), s1)
    /\ ETLService.store_calls (world s1) = 2%nat
    /\ get_recruitment_metrics (fun _ _ => ETLFacts.flaky_metrics 1) 3 0 86400
         None (later 899 s1)
       = (Ok (Some 1%nat),
          log (LogInfo "Returning cached recruitment metrics") (later 899 s1)).
Proof.
  eexists. split; [vm_compute; reflexivity|]. split; [reflexivity|].
  apply (@response_is_cached_within_ttl nat
           (fun _ _ => ETLFacts.flaky_metrics 1) 3 0 86400 None
           (init nat (ETLService.init 0))).
  - vm_compute. reflexivity.
  - reflexivity.
  - simpl. unfold CACHE_TTL. lia.
Defined.

(** ** [_calculate_trend] *)

(** No binary64 value is below itself. *)
Lemma SFltb_irrefl (x : spec_float) : SFltb x x = false.
Proof.
  unfold SFltb, SFcompare.
  destruct x as [sg|sg| |sg m e]; try (destruct sg; reflexivity);
    try reflexivity.
  destruct sg; rewrite Z.compare_refl, Pos.compare_cont_refl; reflexivity.
Qed.

Lemma ltb_irrefl (x : float) : (x <? x)%float = false.
Proof. rewrite FloatAxioms.ltb_spec. apply SFltb_irrefl. Qed.

Lemma SFeqb_refl (x : spec_float) : x <> S754_nan -> SFeqb x x = true.
Proof.
  unfold SFeqb, SFcompare. intros Hx.
  destruct x as [sg|sg| |sg m e]; try (destruct sg; reflexivity);
    [congruence|].
  destruct sg; rewrite Z.compare_refl, Pos.compare_cont_refl; reflexivity.
Qed.

Lemma is_nan_spec (x : float) : is_nan x = true -> Prim2SF x = S754_nan.
Proof.
  unfold is_nan. rewrite FloatAxioms.eqb_spec. intros H.
  destruct (Prim2SF x) as [sg|sg| |sg m e] eqn:E; try reflexivity;
    rewrite SFeqb_refl in H by discriminate; discriminate.
Qed.

Lemma iloc_last_app (body : list float) (x : float) :
  iloc_last (body ++ [x]) = Some x.
Proof. unfold iloc_last. now rewrite rev_app_distr. Qed.

Lemma iloc_first_app (body : list float) (x : float) :
  iloc_first (body ++ [x]) = Some (hd x body).
Proof. destruct body; reflexivity. Qed.

(** X23: [_calculate_trend] raises [IndexError] on an empty series and
    returns on every other one.  It reports the direction ['up'] exactly
    when the first value is below the last one; every other series is
    reported as ['down'], in particular a series with one value, a series
    whose first and last values are equal, and a series that starts or
    ends with NaN.  The standard deviation of a series with one value is
    NaN. *)
Theorem trend_direction_is_up_on_a_strict_rise :
  _calculate_trend [] = IndexError "single positional indexer is out-of-bounds"
  /\ forall (body : list float) (last_value : float),
       let first_value := hd last_value body in
       exists t,
         _calculate_trend (body ++ [last_value]) = Value t
         /\ (trend_direction t = "up"%string
             <-> (first_value <? last_value)%float = true)
         /\ (trend_direction t = "up"%string \/ trend_direction t = "down"%string)
         /\ (first_value = last_value -> trend_direction t = "down"%string)
         /\ (is_nan first_value = true \/ is_nan last_value = true ->
             trend_direction t = "down"%string)
         /\ (body = [] ->
             trend_direction t = "down"%string /\ is_nan (std_dev t) = true).
Proof.
  split; [reflexivity|]. intros body last_value first_value.
  unfold _calculate_trend. rewrite iloc_last_app, iloc_first_app.
  fold first_value. eexists. split; [reflexivity|].
  cbn [trend_direction std_dev].
  assert (Hflat : first_value = last_value ->
                  (if (first_value <? last_value)%float
                   then "up"%string else "down"%string)
                  = "down"%string).
  { intros ->. now rewrite ltb_irrefl. }
  split; [|split; [|split; [exact Hflat|split]]].
  - destruct (first_value <? last_value)%float; split; intros H;
      try reflexivity; discriminate.
  - destruct (first_value <? last_value)%float; auto.
  - intros Hnan. rewrite FloatAxioms.ltb_spec.
    destruct Hnan as [Hn|Hn]; apply is_nan_spec in Hn; rewrite Hn.
    + reflexivity.
    + unfold SFltb, SFcompare. now destruct (Prim2SF first_value).
  - intros ->. split; [now apply Hflat|].
    cbn [app]. rewrite TrendFacts.std_of_one. reflexivity.
Qed.

End ServiceFacts.
